(** * Product recommender: scoring, ranking and fallbacks

    A shallow embedding of the recommendation pipeline
    (models.py, database.py, ai_service.py, prompts.py,
    recommendation_engine.py) and the properties of its scoring engine,
    catalog store, ranker and explanation generator.

    Conventions.
    - Python [int] is [Z]; Python [float] is the kernel's binary64 [float].
    - Python [str] is [string], holding the UTF-8 encoding of the text.
      Equality, concatenation, [in], [startswith], [split(sep)] and the
      order of [sorted] are those of the bytes, which on UTF-8 are those of
      the code points.  What counts or classifies characters ([len],
      [split()], [strip()], the [re] patterns, a [for] loop over a string)
      goes through the code points, [PyStr.chars].
    - The tables of the interpreter's Unicode database that depend on its
      version, the case mapping of [str.lower] and the decimal digits, are
      fields of the class [Unicode].
    - A Python [dict] with string keys is an association list in insertion
      order, which is also the order [json.dumps] prints.
    - Library calls whose result the repository does not determine
      ([json.dumps], [json.loads], pydantic coercions, [str()] and
      [format()] of arbitrary values) are fields of the class [PyRuntime];
      the chat-completion endpoint is the class [ChatService]. *)

From Stdlib Require Import ZArith NArith List String Ascii Bool Lia.
From Stdlib Require Import Permutation Sorted PrimFloat DecimalString.
From Stdlib Require Import DecimalNat OrderedTypeEx.
Import ListNotations.

Local Open Scope string_scope.
Local Open Scope list_scope.
Local Open Scope Z_scope.

(** ** The character database *)

Class Unicode := {
  (** [s.lower()] *)
  str_lower : string -> string;
  (** The value of a decimal digit (category Nd), given as the encoding of
      one code point; [None] for every other character.  These are the
      characters [\d] matches and [int()] reads. *)
  decimal_value : string -> option nat;
  (** Lower-cased text has no upper-case letter left. *)
  str_lower_idem : forall s, str_lower (str_lower s) = str_lower s;
  str_lower_empty : str_lower EmptyString = EmptyString
}.

(** ** Python string primitives *)

Module PyStr.

Definition code (c : ascii) : nat := nat_of_ascii c.

Definition bytes (l : list N) : string :=
  string_of_list_ascii (map ascii_of_N l).

(** The UTF-8 encoding of the code point [cp]. *)
Definition utf8 (cp : N) : string :=
  (if cp <? 128 then bytes [cp]
   else if cp <? 2048 then bytes [192 + cp / 64; 128 + cp mod 64]
   else if cp <? 65536 then
     bytes [224 + cp / 4096; 128 + (cp / 64) mod 64; 128 + cp mod 64]
   else bytes [240 + cp / 262144; 128 + (cp / 4096) mod 64;
               128 + (cp / 64) mod 64; 128 + cp mod 64])%N.

(** A byte [10xxxxxx] continues the code point begun before it. *)
Definition is_continuation (c : ascii) : bool :=
  (Nat.leb 128 (code c) && Nat.leb (code c) 191)%bool.

Definition continues (ch : string) : bool :=
  match ch with
  | String c _ => is_continuation c
  | EmptyString => false
  end.

(** The characters of [s], each as its encoding: a character is a byte
    with the continuation bytes that follow it. *)
Fixpoint chars (s : string) : list string :=
  match s with
  | EmptyString => []
  | String c s' =>
      match chars s' with
      | ch :: rest =>
          if continues ch then String c ch :: rest
          else String c EmptyString :: ch :: rest
      | [] => [String c EmptyString]
      end
  end.

(** [len(s)] *)
Definition len (s : string) : nat := List.length (chars s).

(** The characters [str.isspace] holds of, which are those that
    [str.split()] and [str.strip()] take for blanks and that [\s] matches:
    TAB..CR, FS..US, the space, U+0085, U+00A0, U+1680, U+2000..U+200A,
    U+2028, U+2029, U+202F, U+205F and U+3000. *)
Definition whitespace : list string :=
  map utf8
    [9; 10; 11; 12; 13; 28; 29; 30; 31; 32; 133; 160; 5760;
     8192; 8193; 8194; 8195; 8196; 8197; 8198; 8199; 8200; 8201; 8202;
     8232; 8233; 8239; 8287; 12288]%N.

Definition isspace (ch : string) : bool := existsb (String.eqb ch) whitespace.

(** The characters of [[0-9]]. *)
Definition isdigit (c : ascii) : bool :=
  (Nat.leb 48 (code c) && Nat.leb (code c) 57)%bool.

(** [\d] of the [re] module on one character. *)
Definition isdecimal {u : Unicode} (ch : string) : bool :=
  match decimal_value ch with
  | Some _ => true
  | None => false
  end.

(** [s.lower()] *)
Definition lower {u : Unicode} (s : string) : string := str_lower s.

(** [s.startswith(p)] *)
Definition startswith (s p : string) : bool := String.prefix p s.

(** [sub in s] *)
Fixpoint contains (sub s : string) : bool :=
  match s with
  | EmptyString => String.prefix sub EmptyString
  | String _ s' => (String.prefix sub s || contains sub s')%bool
  end.

Definition nonempty (w : string) (ws : list string) : list string :=
  match w with
  | EmptyString => ws
  | _ => w :: ws
  end.

(** [scan cs] is the run of non-blank characters at the front of [cs]
    together with the words that follow it. *)
Fixpoint scan (cs : list string) : string * list string :=
  match cs with
  | [] => (EmptyString, [])
  | c :: cs' =>
      let (w, ws) := scan cs' in
      if isspace c then (EmptyString, nonempty w ws) else ((c ++ w)%string, ws)
  end.

(** [s.split()] : the maximal runs of non-blank characters. *)
Definition split (s : string) : list string :=
  let (w, ws) := scan (chars s) in nonempty w ws.

Fixpoint lstrip (cs : list string) : list string :=
  match cs with
  | [] => []
  | c :: cs' => if isspace c then lstrip cs' else cs
  end.

Fixpoint rstrip (cs : list string) : list string :=
  match cs with
  | [] => []
  | c :: cs' =>
      match rstrip cs' with
      | [] => if isspace c then [] else [c]
      | r => c :: r
      end
  end.

(** The text made of the characters [cs]. *)
Definition of_chars (cs : list string) : string :=
  fold_right String.append EmptyString cs.

(** [s.strip()] *)
Definition strip (s : string) : string :=
  of_chars (rstrip (lstrip (chars s))).

(** [s[n:]] for an [s] whose first [n] characters are ASCII *)
Fixpoint drop (n : nat) (s : string) : string :=
  match n, s with
  | O, _ => s
  | S _, EmptyString => EmptyString
  | S k, String _ s' => drop k s'
  end.

(** The pieces of [s.split(sep)] for a non-empty [sep], as the first piece
    and the later ones; [skip] bytes of a separator just found are still to
    be passed over. *)
Fixpoint split_on_aux (sep : string) (skip : nat) (s : string)
  : string * list string :=
  match s with
  | EmptyString => (EmptyString, [])
  | String c s' =>
      match skip with
      | S k => split_on_aux sep k s'
      | O =>
          if String.prefix sep s
          then let (w, ws) := split_on_aux sep (String.length sep - 1) s' in
               (EmptyString, w :: ws)
          else let (w, ws) := split_on_aux sep 0 s' in
               (String c w, ws)
      end
  end.

(** [s.split(sep)] *)
Definition split_on (sep s : string) : list string :=
  let (w, ws) := split_on_aux sep 0 s in w :: ws.

(** [sep.join(l)] *)
Fixpoint join (sep : string) (l : list string) : string :=
  match l with
  | [] => EmptyString
  | [x] => x
  | x :: l' => x ++ sep ++ join sep l'
  end.

(** [int(ds)] for a string of decimal digits. *)
Definition int_of_digits {u : Unicode} (ds : string) : Z :=
  fold_left
    (fun acc c =>
       10 * acc + Z.of_nat (match decimal_value c with
                            | Some d => d
                            | None => 0%nat
                            end))
    (chars ds) 0.

(** The letters of a pattern compiled with [re.IGNORECASE], each as the
    characters it matches: those whose lower-case form is the letter's.
    For [k] these include the Kelvin sign U+212A. *)
Definition kelvin : string := utf8 8490.

(** The literal tails of [r'(\d+)\s*kg'] and of [r'(\d+)\s*L']. *)
Definition kg : list (list string) := [["k"; "K"; kelvin]; ["g"; "G"]].
Definition L : list (list string) := [["l"; "L"]].

(** Do the letters of [unit] stand at the front of [cs]? *)
Fixpoint literal (unit : list (list string)) (cs : list string) : bool :=
  match unit, cs with
  | [], _ => true
  | letter :: unit', c :: cs' =>
      (existsb (String.eqb c) letter && literal unit' cs')%bool
  | _ :: _, [] => false
  end.

(** [\s*] and then [unit] at the front of [cs]: some number of blanks is
    followed by the letters. *)
Fixpoint blanks_unit (unit : list (list string)) (cs : list string) : bool :=
  (literal unit cs
   || match cs with
      | c :: cs' => isspace c && blanks_unit unit cs'
      | [] => false
      end)%bool.

(** [re.match(r'(\d+)\s*' + unit, s, re.IGNORECASE)], group 1, on the
    characters of [s].  [\d+] is greedy: the longest run of digits that
    lets the rest match is taken, a digit being given back at a time. *)
Fixpoint match_number_unit {u : Unicode} (unit : list (list string))
    (cs : list string) : option string :=
  match cs with
  | [] => None
  | c :: cs' =>
      if isdecimal c then
        match match_number_unit unit cs' with
        | Some ds => Some (c ++ ds)%string
        | None => if blanks_unit unit cs' then Some c else None
        end
      else None
  end.

Fixpoint search_chars {u : Unicode} (unit : list (list string))
    (cs : list string) : option string :=
  match match_number_unit unit cs with
  | Some ds => Some ds
  | None =>
      match cs with
      | [] => None
      | _ :: cs' => search_chars unit cs'
      end
  end.

(** [re.search(r'(\d+)\s*' + unit, s, re.IGNORECASE)], group 1: the match
    at the leftmost position that has one.  ([int()] of the group is
    [int_of_digits]; the interpreter's limit on the number of digits that
    [int()] converts is not modelled.) *)
Definition search_number_unit {u : Unicode} (unit : list (list string))
    (s : string) : option string :=
  search_chars unit (chars s).

End PyStr.

(** ** models.py *)

Inductive ProductCategory :=
| TV | REFRIGERATOR | WASHING_MACHINE | DRYER | AC | SOUNDBAR | PROJECTOR
| DISHWASHER.

Definition category_value (c : ProductCategory) : string :=
  match c with
  | TV => "tv"
  | REFRIGERATOR => "refrigerator"
  | WASHING_MACHINE => "washing_machine"
  | DRYER => "dryer"
  | AC => "ac"
  | SOUNDBAR => "soundbar"
  | PROJECTOR => "projector"
  | DISHWASHER => "dishwasher"
  end.

Definition all_categories : list ProductCategory :=
  [TV; REFRIGERATOR; WASHING_MACHINE; DRYER; AC; SOUNDBAR; PROJECTOR;
   DISHWASHER].

(** [ProductCategory(s)]: the member whose value is [s]; [None] stands for
    the [ValueError] the enum raises on any other string. *)
Definition ProductCategory_of (s : string) : option ProductCategory :=
  find (fun c => String.eqb (category_value c) s) all_categories.

Definition category_eqb (a b : ProductCategory) : bool :=
  String.eqb (category_value a) (category_value b).

#[local] Set Warnings "-register-all".

(** JSON values, which are also the values the catalog's [specs] hold and
    the values of the dictionaries passed between the components. *)
Inductive json :=
| JNull
| JBool (b : bool)
| JInt (n : Z)
| JFloat (f : float)
| JStr (s : string)
| JList (l : list json)
| JDict (d : list (string * json)).

Definition pydict := list (string * json).

(** [d.get(k)] *)
Fixpoint dict_get (d : pydict) (k : string) : option json :=
  match d with
  | [] => None
  | (k', v) :: d' => if String.eqb k' k then Some v else dict_get d' k
  end.

(** [d.get(k, default)] *)
Definition dict_get_default (d : pydict) (k : string) (default : json) : json :=
  match dict_get d k with
  | Some v => v
  | None => default
  end.

Module Product.
Record t := {
  id : string;
  name : string;
  category : ProductCategory;
  brand : string;
  specs : pydict;
  features : list string;
  url : option string;
  sizes : list string
}.
End Product.

Module ParsedQuery.
Record t := {
  category : option string;
  use_case : option string;
  room_size : option string;
  family_size : option Z;
  capacity : option string;
  size_preference : option string;
  must_have_features : list string;
  keywords : list string
}.

(** [ParsedQuery()] : every field at its default. *)
Definition empty : t :=
  {| category := None; use_case := None; room_size := None;
     family_size := None; capacity := None; size_preference := None;
     must_have_features := []; keywords := [] |}.
End ParsedQuery.

Module ProductRecommendation.
Record t := {
  product : Product.t;
  score : float;
  reasoning : string
}.
End ProductRecommendation.

Module RecommendationResponse.
Record t := {
  query : string;
  parsed_query : ParsedQuery.t;
  recommendations : list ProductRecommendation.t;
  message : string
}.
End RecommendationResponse.

(** Truth value of an [Optional[str]] in a condition: [None] and the empty
    string are false. *)
Definition truthy_str (o : option string) : option string :=
  match o with
  | Some EmptyString => None
  | other => other
  end.

(** Truth value of an [Optional[int]] in a condition: [None] and [0] are
    false. *)
Definition truthy_int (o : option Z) : option Z :=
  match o with
  | Some 0 => None
  | other => other
  end.

(** [o or ""] *)
Definition or_empty (o : option string) : string :=
  match truthy_str o with
  | Some s => s
  | None => EmptyString
  end.

(** ** Exceptions *)

Inductive exn :=
| JSONDecodeError
| KeyError (key : string)
| TypeError
| AttributeError
| IndexError
| ValueError
| ValidationError
| ServiceError.

Inductive result (A : Type) :=
| Ok (a : A)
| Raise (e : exn).
Arguments Ok {A} a.
Arguments Raise {A} e.

Definition rbind {A B} (r : result A) (k : A -> result B) : result B :=
  match r with
  | Ok a => k a
  | Raise e => Raise e
  end.

Fixpoint rmap {A B} (f : A -> result B) (l : list A) : result (list B) :=
  match l with
  | [] => Ok []
  | x :: l' =>
      rbind (f x) (fun y => rbind (rmap f l') (fun ys => Ok (y :: ys)))
  end.

Definition of_option {A} (e : exn) (o : option A) : result A :=
  match o with
  | Some a => Ok a
  | None => Raise e
  end.

(** [d[k]] *)
Definition dict_getitem (d : pydict) (k : string) : result json :=
  of_option (KeyError k) (dict_get d k).

(** ** The Python runtime and the external service *)

Class PyRuntime := {
  (** the character database of the interpreter *)
  unicode :: Unicode;
  (** [json.dumps(v)] *)
  json_dumps : json -> string;
  (** [json.loads(s)]; [None] is [json.JSONDecodeError] *)
  json_loads : string -> option json;
  (** [str(v)] of a value that is not a string, as an f-string prints it *)
  py_str : json -> string;
  (** [format(v, ',')]; [None] is the error of a value with no such format *)
  format_thousands : json -> option string;
  (** pydantic's validation of the fields of a [ParsedQuery];
      [None] is [ValidationError] *)
  validate_ParsedQuery : pydict -> option ParsedQuery.t;
  (** pydantic's coercion to [float]; [None] is [ValidationError] *)
  coerce_float : json -> option float;
  (** pydantic's coercion to [str] of a value that is not a string *)
  coerce_str : json -> option string
}.

(** What the chat-completion endpoint is asked. *)
Inductive request :=
| ParseRequest (query : string)
| RecommendRequest (query : string) (parsed : ParsedQuery.t)
    (candidates : list pydict).

(** [client.chat.completions.create(...)] followed by
    [response.choices[0].message.content]: the text of the first choice, or
    the exception raised on the way to it.  The answer may depend on
    everything asked before. *)
Class ChatService := {
  create : list request -> request -> result string
}.

(** Computations that call the service: the calls made so far are threaded
    through, and an exception leaves them in place. *)
Definition M (A : Type) : Type := list request -> result A * list request.

Definition ret {A} (a : A) : M A := fun log => (Ok a, log).

Definition bind {A B} (m : M A) (k : A -> M B) : M B :=
  fun log =>
    match m log with
    | (Ok a, log') => k a log'
    | (Raise e, log') => (Raise e, log')
    end.

Definition lift {A} (r : result A) : M A := fun log => (r, log).

(** [try: body  except ...: handler] *)
Definition try_except {A} (body : M A) (handler : exn -> M A) : M A :=
  fun log =>
    match body log with
    | (Ok a, log') => (Ok a, log')
    | (Raise e, log') => handler e log'
    end.

Definition call {svc : ChatService} (req : request) : M string :=
  fun log => (create log req, log ++ [req]).

Declare Scope py_scope.
Delimit Scope py_scope with py.
Notation "x <- m ;; k" := (bind m (fun x => k))
  (at level 61, m at next level, right associativity) : py_scope.
Notation "x <~ r ;; k" := (rbind r (fun x => k))
  (at level 61, r at next level, right associativity) : py_scope.

Local Open Scope py_scope.

(** ** database.py *)

Record ProductDatabase := { products : list Product.t }.

Definition get_all_products (db : ProductDatabase) : list Product.t :=
  products db.

(** [product.id == product_id], where [product_id] is any value: only an
    equal string compares equal. *)
Definition id_matches (product : Product.t) (product_id : json) : bool :=
  match product_id with
  | JStr s => String.eqb (Product.id product) s
  | _ => false
  end.

Definition get_product_by_id (db : ProductDatabase) (product_id : json)
  : option Product.t :=
  find (fun product => id_matches product product_id) (products db).

Definition get_products_by_category (db : ProductDatabase)
    (category : ProductCategory) : list Product.t :=
  filter (fun p => category_eqb (Product.category p) category) (products db).

(** Truth value of an [Optional[list]]: [None] and the empty list are
    false. *)
Definition truthy_list {A} (o : option (list A)) : option (list A) :=
  match o with
  | Some [] => None
  | other => other
  end.

Definition filter_products {u : Unicode} (db : ProductDatabase)
    (category : option string)
    (brands : option (list string)) : list Product.t :=
  let results := products db in
  let results :=
    match truthy_str category with
    | Some c =>
        match ProductCategory_of (PyStr.lower c) with
        | Some cat =>
            filter (fun p => category_eqb (Product.category p) cat) results
        | None => results (* ValueError: invalid category, don't filter *)
        end
    | None => results
    end in
  let results :=
    match truthy_list brands with
    | Some bs =>
        let brands_lower := map PyStr.lower bs in
        filter (fun p =>
                  existsb (String.eqb (PyStr.lower (Product.brand p)))
                          brands_lower)
               results
    | None => results
    end in
  results.

(** One turn of the loop of [search_products]: is [product] appended? *)
Definition search_hit {rt : PyRuntime} (query_lower : string)
    (product : Product.t) : bool :=
  if PyStr.contains query_lower (PyStr.lower (Product.name product))
  then true
  else
    let specs_str := PyStr.lower (json_dumps (JDict (Product.specs product))) in
    if PyStr.contains query_lower specs_str then true
    else
      let features_str :=
        PyStr.lower (PyStr.join " " (Product.features product)) in
      if PyStr.contains query_lower features_str then true else false.

Definition search_products {rt : PyRuntime} (db : ProductDatabase)
    (query : string) : list Product.t :=
  let query_lower := PyStr.lower query in
  fold_left
    (fun results product =>
       if search_hit query_lower product then results ++ [product]
       else results)
    (products db) [].

(** ** prompts.py *)

(** What building one line of the product list needs of [p]: the keys
    [id], [name], [specs] and [features], and a [features] that can be
    sliced. *)
Definition prompt_line (p : pydict) : result unit :=
  _ <~ dict_getitem p "id" ;;
  _ <~ dict_getitem p "name" ;;
  _ <~ dict_getitem p "specs" ;;
  f <~ dict_getitem p "features" ;;
  match f with
  | JList _ | JStr _ => Ok tt
  | _ => Raise TypeError
  end.

(** The user message of the recommendation request: it embeds the query,
    the fields of the parsed query and one line per product. *)
Definition get_recommendation_prompt (query : string)
    (parsed_query : ParsedQuery.t) (products : list pydict) : result request :=
  _ <~ rmap prompt_line products ;;
  Ok (RecommendRequest query parsed_query products).

Definition get_query_parsing_prompt (query : string) : request :=
  ParseRequest query.

(** ** ai_service.py *)

Definition fence : string := "```".

(** The clean-up of the reply shared by both calls: strip, drop a leading
    code fence and a [json] tag after it, strip again. *)
Definition clean_content (content : string) : result string :=
  let content := PyStr.strip content in
  content <~
    (if PyStr.startswith content fence
     then
       content <~ of_option IndexError
                    (nth_error (PyStr.split_on fence content) 1) ;;
       Ok (if PyStr.startswith content "json" then PyStr.drop 4 content
           else content)
     else Ok content) ;;
  Ok (PyStr.strip content).

(** [ParsedQuery] built from the keys of [parsed_data]; a value that is no
    mapping cannot be unpacked. *)
Definition make_ParsedQuery {rt : PyRuntime} (parsed_data : json)
  : result ParsedQuery.t :=
  match parsed_data with
  | JDict d => of_option ValidationError (validate_ParsedQuery d)
  | _ => Raise TypeError
  end.

Definition parse_query {rt : PyRuntime} {svc : ChatService} (query : string)
  : M ParsedQuery.t :=
  try_except
    (content <- call (get_query_parsing_prompt query) ;;
     content <- lift (clean_content content) ;;
     parsed_data <- lift (of_option JSONDecodeError (json_loads content)) ;;
     lift (make_ParsedQuery parsed_data))
    (fun e =>
       match e with
       | JSONDecodeError => ret ParsedQuery.empty
       | _ => ret ParsedQuery.empty
       end).

(** A value inside an f-string. *)
Definition fstr {rt : PyRuntime} (v : json) : string :=
  match v with
  | JStr s => s
  | _ => py_str v
  end.

Definition no_products_message : string :=
  "I couldn't find any products matching your requirements. Could you try adjusting your budget or requirements?".

(** The three characters that stand before the price in the source text of
    the second fallback: U+00E2, U+201A and U+00B9. *)
Definition rupee : string :=
  (PyStr.utf8 226 ++ PyStr.utf8 8218 ++ PyStr.utf8 185)%string.

(** The entry built for [p] when the reply is not JSON. *)
Definition decode_fallback_entry {rt : PyRuntime} (p : pydict) : result json :=
  product_id <~ dict_getitem p "id" ;;
  name <~ dict_getitem p "name" ;;
  Ok (JDict [("product_id", product_id);
             ("score", JInt 70);
             ("reasoning",
              JStr (fstr name ++ " - a solid choice in this category."))]).

(** The entry built for [p] on any other exception. *)
Definition error_fallback_entry {rt : PyRuntime} (p : pydict) : result json :=
  product_id <~ dict_getitem p "id" ;;
  name <~ dict_getitem p "name" ;;
  brand <~ dict_getitem p "brand" ;;
  price <~ dict_getitem p "price" ;;
  price_text <~ of_option ValueError (format_thousands price) ;;
  Ok (JDict [("product_id", product_id);
             ("score", JInt 70);
             ("reasoning",
              JStr (fstr name ++ " by " ++ fstr brand ++ " at " ++ rupee
                    ++ price_text))]).

Definition generate_recommendations {rt : PyRuntime} {svc : ChatService}
    (query : string) (parsed_query : ParsedQuery.t)
    (filtered_products : list pydict) : M json :=
  match filtered_products with
  | [] =>
      ret (JDict [("message", JStr no_products_message);
                  ("recommendations", JList [])])
  | _ =>
      try_except
        (let candidates := firstn 10 filtered_products in
         prompt <- lift (get_recommendation_prompt query parsed_query
                           candidates) ;;
         content <- call prompt ;;
         content <- lift (clean_content content) ;;
         lift (of_option JSONDecodeError (json_loads content)))
        (fun e =>
           match e with
           | JSONDecodeError =>
               lift (entries <~ rmap decode_fallback_entry
                                  (firstn 5 filtered_products) ;;
                     Ok (JDict
                           [("message",
                             JStr "Here are some products that match your requirements:");
                            ("recommendations", JList entries)]))
           | _ =>
               lift (entries <~ rmap error_fallback_entry
                                  (firstn 5 filtered_products) ;;
                     Ok (JDict
                           [("message",
                             JStr "Here are some products that might interest you:");
                            ("recommendations", JList entries)]))
           end)
  end.

(** ** recommendation_engine.py *)

Definition _filter_products {u : Unicode} (db : ProductDatabase)
    (parsed : ParsedQuery.t)
  : list Product.t :=
  let products := get_all_products db in
  match truthy_str (ParsedQuery.category parsed) with
  | Some c =>
      match ProductCategory_of (PyStr.lower c) with
      | Some cat =>
          filter (fun p => category_eqb (Product.category p) cat) products
      | None => products (* ValueError: invalid category, don't filter *)
      end
  | None => products
  end.

Definition features_text_of {u : Unicode} (product : Product.t) : string :=
  PyStr.lower (PyStr.join " " (Product.features product)).

Definition specs_text_of {rt : PyRuntime} (product : Product.t) : string :=
  PyStr.lower (json_dumps (JDict (Product.specs product))).

(** [bonus += n] under the condition [c]. *)
Definition add_if (c : bool) (n : Z) (bonus : Z) : Z :=
  if c then bonus + n else bonus.

Definition _use_case_score {rt : PyRuntime} (product : Product.t)
    (parsed : ParsedQuery.t) : Z :=
  let bonus := 0 in
  let use_case := PyStr.lower (or_empty (ParsedQuery.use_case parsed)) in
  let features_text := features_text_of product in
  let specs_text := specs_text_of product in
  let has := PyStr.contains in
  match Product.category product with
  | TV =>
      let bonus :=
        if has "gaming" use_case || has "game" use_case then
          let bonus :=
            add_if (has "120hz" specs_text || has "144hz" specs_text
                    || has "165hz" specs_text) 15 bonus in
          let bonus :=
            add_if (has "game mode" features_text
                    || has "game bar" features_text) 10 bonus in
          add_if (has "vrr" specs_text || has "allm" specs_text) 5 bonus
        else bonus in
      let bonus :=
        if has "movie" use_case || has "cinema" use_case then
          let bonus :=
            add_if (has "dolby vision" specs_text
                    || has "dolby atmos" features_text) 15 bonus in
          let bonus := add_if (has "hdr" specs_text) 10 bonus in
          add_if (has "oled" specs_text || has "miniled" specs_text
                  || has "mini-led" specs_text) 10 bonus
        else bonus in
      if has "sport" use_case then
        let bonus :=
          add_if (has "sports mode" features_text
                  || has "ai sports" features_text) 15 bonus in
        add_if (has "memc" specs_text || has "motion" features_text) 10 bonus
      else bonus
  | REFRIGERATOR =>
      match truthy_int (ParsedQuery.family_size parsed) with
      | Some family_size =>
          match PyStr.search_number_unit PyStr.L (Product.name product) with
          | Some digits =>
              let capacity := PyStr.int_of_digits digits in
              let ideal := family_size * 100 in
              if Z.abs (capacity - ideal) <? 100 then bonus + 15
              else if Z.abs (capacity - ideal) <? 200 then bonus + 10
              else bonus
          | None => bonus
          end
      | None => bonus
      end
  | WASHING_MACHINE =>
      let bonus :=
        match truthy_int (ParsedQuery.family_size parsed) with
        | Some family_size =>
            match PyStr.search_number_unit PyStr.kg (Product.name product) with
            | Some digits =>
                let capacity := PyStr.int_of_digits digits in
                let ideal := family_size * 2 in
                if Z.abs (capacity - ideal) <=? 2 then bonus + 15
                else if Z.abs (capacity - ideal) <=? 4 then bonus + 10
                else bonus
            | None => bonus
            end
        | None => bonus
        end in
      if has "smart" use_case || has "connected" use_case then
        add_if (has "connect" features_text || has "app" features_text)
               10 bonus
      else bonus
  | AC =>
      let room_size := PyStr.lower (or_empty (ParsedQuery.room_size parsed)) in
      let bonus :=
        if has "large" room_size || has "living" room_size then
          add_if (has "2 ton" specs_text || has "24000" specs_text) 15 bonus
        else if has "small" room_size || has "bedroom" room_size then
          add_if (has "1 ton" specs_text || has "1.5 ton" specs_text) 15 bonus
        else bonus in
      add_if (has "inverter" features_text || has "inverter" specs_text)
             5 bonus
  | SOUNDBAR =>
      let bonus :=
        if has "movie" use_case || has "cinema" use_case then
          add_if (has "dolby atmos" features_text || has "atmos" specs_text)
                 15 bonus
        else bonus in
      if has "bass" use_case || has "music" use_case then
        add_if (has "subwoofer" (PyStr.lower (Product.name product))
                || has "subwoofer" specs_text) 10 bonus
      else bonus
  | PROJECTOR =>
      if has "cinema" use_case || has "movie" use_case then
        let bonus :=
          add_if (has "laser" (PyStr.lower (Product.name product))
                  || has "4k" specs_text) 15 bonus in
        add_if (has "dolby" specs_text) 10 bonus
      else bonus
  | DRYER | DISHWASHER => bonus
  end.

Module ScoredProduct.
(** The dictionary with the keys [product] and [score]. *)
Record t := { product : Product.t; score : Z }.
End ScoredProduct.

(** The score of one product before the clamp, statement by statement. *)
Definition raw_score {rt : PyRuntime} (parsed : ParsedQuery.t)
    (query_lower : string) (product : Product.t) : Z :=
  let has := PyStr.contains in
  let name_lower := PyStr.lower (Product.name product) in
  let score := 50 in
  (* Category match bonus *)
  let score :=
    match truthy_str (ParsedQuery.category parsed) with
    | Some c =>
        match ProductCategory_of (PyStr.lower c) with
        | Some cat =>
            if category_eqb (Product.category product) cat then score + 15
            else score
        | None => score
        end
    | None => score
    end in
  (* Keyword matching in product name *)
  let keywords :=
    (ParsedQuery.keywords parsed ++ ParsedQuery.must_have_features parsed)%list in
  let score :=
    fold_left (fun score keyword =>
                 if has (PyStr.lower keyword) name_lower then score + 10
                 else score)
              keywords score in
  (* Feature matching *)
  let features_text := features_text_of product in
  let specs_text := specs_text_of product in
  let score :=
    fold_left (fun score keyword =>
                 if has (PyStr.lower keyword) features_text
                    || has (PyStr.lower keyword) specs_text
                 then score + 5 else score)
              keywords score in
  (* Query term matching *)
  let query_terms := PyStr.split query_lower in
  let score :=
    fold_left (fun score term =>
                 if Nat.ltb 3 (PyStr.len term) then
                   let score :=
                     if has term name_lower then score + 3 else score in
                   if has term features_text || has term specs_text
                   then score + 2 else score
                 else score)
              query_terms score in
  (* Size preference matching *)
  let score :=
    match truthy_str (ParsedQuery.size_preference parsed) with
    | Some size_preference =>
        let size_pref := PyStr.lower size_preference in
        let score :=
          if existsb (fun s => has size_pref (PyStr.lower s))
                     (Product.sizes product)
          then score + 15 else score in
        if has size_pref specs_text then score + 10 else score
    | None => score
    end in
  (* Capacity matching *)
  let score :=
    match truthy_str (ParsedQuery.capacity parsed) with
    | Some capacity =>
        let capacity := PyStr.lower capacity in
        if has capacity name_lower || has capacity specs_text
        then score + 15 else score
    | None => score
    end in
  (* Use case specific scoring *)
  score + _use_case_score product parsed.

Definition _score_products {rt : PyRuntime} (products : list Product.t)
    (parsed : ParsedQuery.t) (query : string) : list ScoredProduct.t :=
  let query_lower := PyStr.lower query in
  fold_left
    (fun scored product =>
       scored ++ [ {| ScoredProduct.product := product;
                      ScoredProduct.score :=
                        Z.min (raw_score parsed query_lower product) 100 |} ])
    products [].

(** [l.sort(key=key, reverse=reverse)].  The sort is stable; with
    [reverse=True] the list is reversed, sorted in ascending order of the
    keys and reversed again, which is how equal keys keep their order.
    The ascending sort inserts each element before the first one whose key
    is not smaller. *)
Fixpoint insert_by {A} (key : A -> Z) (x : A) (l : list A) : list A :=
  match l with
  | [] => [x]
  | y :: l' => if key x <=? key y then x :: l else y :: insert_by key x l'
  end.

Fixpoint sort_ascending {A} (key : A -> Z) (l : list A) : list A :=
  match l with
  | [] => []
  | x :: l' => insert_by key x (sort_ascending key l')
  end.

Definition list_sort {A} (key : A -> Z) (reverse : bool) (l : list A)
  : list A :=
  if reverse then rev (sort_ascending key (rev l)) else sort_ascending key l.

(** The elements whose key is [v], and the two orders on keys. *)
Definition has_key {A} (key : A -> Z) (v : Z) (x : A) : bool := key x =? v.
Definition ascending {A} (key : A -> Z) (a b : A) : Prop := key a <= key b.
Definition descending {A} (key : A -> Z) (a b : A) : Prop := key b <= key a.

(** The dictionary handed to the explanation generator for one product. *)
Definition product_for_ai (p : Product.t) : pydict :=
  [("id", JStr (Product.id p));
   ("name", JStr (Product.name p));
   ("category", JStr (category_value (Product.category p)));
   ("specs", JDict (Product.specs p));
   ("features", JList (map JStr (Product.features p)));
   ("sizes", JList (map JStr (Product.sizes p)));
   ("url", match Product.url p with Some u => JStr u | None => JNull end)].

(** The scored products of steps 2 and 3, after the sort. *)
Definition ranked_products {rt : PyRuntime} (db : ProductDatabase)
    (parsed_query : ParsedQuery.t) (query : string) : list ScoredProduct.t :=
  let filtered_products := _filter_products db parsed_query in
  let scored_products := _score_products filtered_products parsed_query query in
  list_sort ScoredProduct.score true scored_products.

(** [v.get(k, default)] of an arbitrary value: only a dictionary has
    [get]. *)
Definition value_get (v : json) (k : string) (default : json) : result json :=
  match v with
  | JDict d => Ok (dict_get_default d k default)
  | _ => Raise AttributeError
  end.

(** [v[k]] for a string key [k]. *)
Definition value_getitem (v : json) (k : string) : result json :=
  match v with
  | JDict d => dict_getitem d k
  | _ => Raise TypeError
  end.

(** The elements of [v[:3]], as the [for] loop sees them. *)
Definition first_three (v : json) : result (list json) :=
  match v with
  | JList l => Ok (firstn 3 l)
  | JStr s =>
      Ok (map (fun c => JStr (String c EmptyString))
              (firstn 3 (list_ascii_of_string s)))
  | _ => Raise TypeError
  end.

(** The [score] field: a float between 0 and 100. *)
Definition validate_score {rt : PyRuntime} (v : json) : result float :=
  f <~ of_option ValidationError (coerce_float v) ;;
  if (PrimFloat.leb 0%float f && PrimFloat.leb f 100%float)%bool then Ok f
  else Raise ValidationError.

(** A [str] field. *)
Definition validate_str {rt : PyRuntime} (v : json) : result string :=
  match v with
  | JStr s => Ok s
  | _ => of_option ValidationError (coerce_str v)
  end.

(** One turn of the loop of step 5: the recommendation appended for [rec],
    if its product resolves. *)
Definition recommendation_for {rt : PyRuntime} (db : ProductDatabase) (rec : json)
  : result (option ProductRecommendation.t) :=
  product_id <~ value_getitem rec "product_id" ;;
  match get_product_by_id db product_id with
  | Some product =>
      score <~ value_get rec "score" (JInt 70) ;;
      reasoning <~ value_get rec "reasoning" (JStr EmptyString) ;;
      score <~ validate_score score ;;
      reasoning <~ validate_str reasoning ;;
      Ok (Some {| ProductRecommendation.product := product;
                  ProductRecommendation.score := score;
                  ProductRecommendation.reasoning := reasoning |})
  | None => Ok None
  end.

Fixpoint somes {A} (l : list (option A)) : list A :=
  match l with
  | [] => []
  | Some a :: l' => a :: somes l'
  | None :: l' => somes l'
  end.

(** Step 5: the final response built from the generator's result. *)
Definition build_response {rt : PyRuntime} (db : ProductDatabase)
    (query : string) (parsed_query : ParsedQuery.t) (ai_result : json)
  : result RecommendationResponse.t :=
  recs <~ value_get ai_result "recommendations" (JList []) ;;
  recs <~ first_three recs ;;
  recommendations <~ rmap (recommendation_for db) recs ;;
  message <~ value_get ai_result "message"
               (JStr "Here are your recommendations:") ;;
  message <~ validate_str message ;;
  Ok {| RecommendationResponse.query := query;
        RecommendationResponse.parsed_query := parsed_query;
        RecommendationResponse.recommendations := somes recommendations;
        RecommendationResponse.message := message |}.

Definition get_recommendations {rt : PyRuntime} {svc : ChatService}
    (db : ProductDatabase) (query : string) : M RecommendationResponse.t :=
  (* Step 1: parse the query *)
  parsed_query <- parse_query query ;;
  (* Steps 2 and 3: filter, score, sort *)
  let scored_products := ranked_products db parsed_query query in
  (* Step 4: generate recommendations with reasoning *)
  let products_for_ai :=
    map (fun p => product_for_ai (ScoredProduct.product p))
        (firstn 10 scored_products) in
  ai_result <- generate_recommendations query parsed_query products_for_ai ;;
  (* Step 5: build the final response *)
  lift (build_response db query parsed_query ai_result).

(** The bounds of the [score] field of a recommendation. *)
Definition score_in_range (f : float) : bool :=
  (PrimFloat.leb 0%float f && PrimFloat.leb f 100%float)%bool.

(** The candidates handed to the explanation generator. *)
Definition candidates_for_ai {rt : PyRuntime} (db : ProductDatabase)
    (parsed_query : ParsedQuery.t) (query : string) : list pydict :=
  map (fun p => product_for_ai (ScoredProduct.product p))
      (firstn 10 (ranked_products db parsed_query query)).

(** The recommendation the pipeline builds from the first fallback for a
    scored product, [score] being the float that 70 validates to. *)
Definition fallback_recommendation (score : float) (p : Product.t)
  : ProductRecommendation.t :=
  {| ProductRecommendation.product := p;
     ProductRecommendation.score := score;
     ProductRecommendation.reasoning :=
       Product.name p ++ " - a solid choice in this category." |}.

(** ** database.py: loading and listing *)

(** The part of pydantic that [Product] needs beyond [PyRuntime]: the
    coercion to [dict] of a value that is no dictionary; [None] is
    [ValidationError]. *)
Class PydanticDict := {
  coerce_dict : json -> option pydict
}.

(** The characters of [a-z0-9]. *)
Definition is_slug_char (c : ascii) : bool :=
  ((Nat.leb 97 (PyStr.code c) && Nat.leb (PyStr.code c) 122)
   || PyStr.isdigit c)%bool.

Definition dash : ascii := ascii_of_nat 45.

(** [re.sub(r'[^a-z0-9]+', '-', s)]: every maximal run of characters
    outside [a-z0-9] becomes one dash; [in_run] says that the character
    before was outside already.  The bytes of a character outside ASCII
    are all outside [a-z0-9], so the runs of bytes are the runs of
    characters. *)
Fixpoint dash_runs (in_run : bool) (s : string) : string :=
  match s with
  | EmptyString => EmptyString
  | String c s' =>
      if is_slug_char c then String c (dash_runs false s')
      else if in_run then dash_runs true s'
      else String dash (dash_runs true s')
  end.

Fixpoint lstrip_char (x : ascii) (s : string) : string :=
  match s with
  | EmptyString => EmptyString
  | String c s' => if Ascii.eqb c x then lstrip_char x s' else s
  end.

Fixpoint rstrip_char (x : ascii) (s : string) : string :=
  match s with
  | EmptyString => EmptyString
  | String c s' =>
      match rstrip_char x s' with
      | EmptyString => if Ascii.eqb c x then EmptyString
                       else String c EmptyString
      | r => String c r
      end
  end.

(** [s.strip(x)] for a one-character [x] *)
Definition strip_char (x : ascii) (s : string) : string :=
  rstrip_char x (lstrip_char x s).

(** [s[:n]] for a text of ASCII characters, as the slug is *)
Fixpoint take (n : nat) (s : string) : string :=
  match n, s with
  | O, _ => EmptyString
  | S _, EmptyString => EmptyString
  | S k, String c s' => String c (take k s')
  end.

(** [str(n)] of a non-negative integer *)
Definition decimal (n : nat) : string :=
  NilZero.string_of_uint (Nat.to_uint n).

Fixpoint zeros (k : nat) : string :=
  match k with
  | O => EmptyString
  | S k' => String (ascii_of_nat 48) (zeros k')
  end.

(** [format(n, '03d')] of a non-negative integer: zeros in front up to a
    width of three. *)
Definition format_03d (n : nat) : string :=
  (zeros (3 - String.length (decimal n)) ++ decimal n)%string.

Definition generate_id {u : Unicode} (product_name : string) (index : nat)
  : string :=
  let slug := dash_runs false (PyStr.lower product_name) in
  let slug := take 30 (strip_char dash slug) in
  (slug ++ String dash (format_03d index))%string.

(** Does every character of [s] satisfy [f]? *)
Fixpoint all_chars (f : ascii -> bool) (s : string) : bool :=
  match s with
  | EmptyString => true
  | String c s' => (f c && all_chars f s')%bool
  end.

(** The characters an identifier is made of: [a-z0-9] and the dash. *)
Definition is_id_char (c : ascii) : bool :=
  (is_slug_char c || Ascii.eqb c dash)%bool.

Definition backtick : ascii := ascii_of_nat 96.

(** Is [s] free of backticks? *)
Definition no_backtick (s : string) : bool :=
  all_chars (fun c => negb (Ascii.eqb c backtick)) s.

(** Is [ch] one byte followed by continuation bytes only? *)
Definition one_char (ch : string) : bool :=
  match ch with
  | String _ t => all_chars PyStr.is_continuation t
  | EmptyString => false
  end.

(** A list of characters as [PyStr.chars] cuts them: each is a byte with
    its continuation bytes, and none but the first starts with a
    continuation byte. *)
Definition chunked (cs : list string) : Prop :=
  Forall (fun ch => one_char ch = true) cs
  /\ Forall (fun ch => PyStr.continues ch = false) (tl cs).

Definition is_this_str (k : string) (v : json) : bool :=
  match v with
  | JStr s => String.eqb s k
  | _ => false
  end.

(** [k in v] for a string [k]: a key of a dictionary, an element of a
    list, a substring of a string; anything else is not iterable. *)
Definition str_in (k : string) (v : json) : result bool :=
  match v with
  | JDict d => Ok (match dict_get d k with Some _ => true | None => false end)
  | JList l => Ok (existsb (is_this_str k) l)
  | JStr s => Ok (PyStr.contains k s)
  | _ => Raise TypeError
  end.

(** [a or b], [b] being looked at only when [a] is false. *)
Definition or_else (a b : result bool) : result bool :=
  match a with
  | Ok true => Ok true
  | Ok false => b
  | Raise e => Raise e
  end.

(** [any(kw in s for kw in kws)] *)
Definition any_in (kws : list string) (s : string) : bool :=
  existsb (fun kw => PyStr.contains kw s) kws.

Definition detect_category {rt : PyRuntime} (product_name specs : json)
  : result ProductCategory :=
  match product_name with
  | JStr product_name =>
      let name_lower := PyStr.lower product_name in
      let specs_str := PyStr.lower (json_dumps specs) in
      let has := PyStr.contains in
      (* Projector detection (before TV: laser TVs are projectors) *)
      if any_in ["projector"; "laser cinema"] name_lower then Ok PROJECTOR
      else
      b <~ or_else (str_in "projection_size" specs)
             (or_else (str_in "throw_distance" specs)
                (Ok (has "throw_ratio" specs_str))) ;;
      if b then Ok PROJECTOR else
      (* Dishwasher detection (check early) *)
      if has "dishwasher" name_lower then Ok DISHWASHER else
      (* TV detection *)
      if any_in ["tv"; "uled"; "qled"; "miniled"; "mini-led"; "uhd"]
                name_lower
      then Ok TV else
      b <~ or_else (str_in "display_sizes" specs)
             (Ok (has "resolution" specs_str && has "4k" specs_str)) ;;
      if b then Ok TV else
      (* Refrigerator detection *)
      if any_in ["refrigerator"; "fridge"; "freezer"] name_lower
      then Ok REFRIGERATOR else
      if has "refrigerator" specs_str || has "freezer" specs_str
      then Ok REFRIGERATOR else
      (* Washing machine detection *)
      if any_in ["washing machine"; "washer"; "front load"; "top load"]
                name_lower
      then
        if has "dryer" name_lower && has "combo" name_lower
        then Ok WASHING_MACHINE (* combo units *)
        else Ok WASHING_MACHINE
      else
      (* Dryer detection *)
      if has "dryer" name_lower && negb (has "washer" name_lower)
      then Ok DRYER else
      (* AC detection *)
      if any_in ["ac"; "air conditioner"; "inverter"; "split";
                 "wall mounted"] name_lower
      then Ok AC else
      if has "tonnage" specs_str || has "btu" specs_str
         || has "cooling" specs_str
      then Ok AC else
      (* Soundbar detection *)
      if any_in ["soundbar"; "sound bar"; "speaker"] name_lower
      then Ok SOUNDBAR else
      b <~ or_else (str_in "channels" specs)
             (Ok (has "subwoofer" specs_str)) ;;
      if b then Ok SOUNDBAR else
      (* Dishwasher detection *)
      if has "dishwasher" name_lower then Ok DISHWASHER else
      (* Default fallback *)
      if has "display" specs_str || has "screen" specs_str then Ok TV
      else Ok TV
  | _ => Raise AttributeError (* no [lower] *)
  end.

(** One turn of the first loop of [extract_sizes]. *)
Definition extend_with (specs : json) (sizes : list json) (key : string)
  : result (list json) :=
  b <~ str_in key specs ;;
  if b then
    v <~ value_getitem specs key ;;
    match v with
    | JList l => Ok (sizes ++ l)%list
    | _ => Ok sizes
    end
  else Ok sizes.

Fixpoint rfold {A B} (f : B -> A -> result B) (l : list A) (acc : B)
  : result B :=
  match l with
  | [] => Ok acc
  | x :: l' => rbind (f acc x) (rfold f l')
  end.

Definition extract_sizes {u : Unicode} (specs : json) (product_name : string)
  : result (list json) :=
  sizes <~ rfold (extend_with specs)
             ["display_sizes"; "available_sizes"; "screen_sizes"; "sizes"]
             [] ;;
  let sizes :=
    match PyStr.search_number_unit PyStr.L product_name with
    | Some digits => (sizes ++ [JStr (digits ++ "L")])%list
    | None => sizes
    end in
  let sizes :=
    match PyStr.search_number_unit PyStr.kg product_name with
    | Some digits => (sizes ++ [JStr (digits ++ "kg")])%list
    | None => sizes
    end in
  b <~ str_in "projection_size" specs ;;
  if b then
    v <~ value_getitem specs "projection_size" ;;
    Ok (sizes ++ [v])%list
  else Ok sizes.

(** The values a [for] loop over [v] sees: the elements of a list, the
    characters of a string, the keys of a dictionary. *)
Definition iterate (v : json) : result (list json) :=
  match v with
  | JList l => Ok l
  | JStr s => Ok (map JStr (PyStr.chars s))
  | JDict d => Ok (map (fun kv => JStr (fst kv)) d)
  | _ => Raise TypeError
  end.

(** The loop over [key_features]: a dictionary gives its [value], a string
    itself, anything else nothing. *)
Definition features_of (key_features : json) : result (list json) :=
  feats <~ iterate key_features ;;
  Ok (flat_map
        (fun feat =>
           match feat with
           | JDict d => [dict_get_default d "value" (JStr EmptyString)]
           | JStr _ => [feat]
           | _ => []
           end)
        feats).

(** A [dict] field. *)
Definition validate_dict {pd : PydanticDict} (v : json) : result pydict :=
  match v with
  | JDict d => Ok d
  | _ => of_option ValidationError (coerce_dict v)
  end.

(** An [Optional[str]] field. *)
Definition validate_optional_str {rt : PyRuntime} (v : json)
  : result (option string) :=
  match v with
  | JNull => Ok None
  | _ => s <~ validate_str v ;; Ok (Some s)
  end.

(** One turn of the loop of [_load_products]: the product built from the
    raw record [p] at position [i]. *)
Definition load_product {rt : PyRuntime} {pd : PydanticDict} (i : nat)
    (p : json) : result Product.t :=
  match p with
  | JDict p =>
      let name :=
        dict_get_default p "product_name"
          (JStr ("Product " ++ decimal i)) in
      let specs := dict_get_default p "technical_specifications" (JDict []) in
      features <~ features_of (dict_get_default p "key_features" (JList [])) ;;
      category <~ detect_category name specs ;;
      let url := dict_get_default p "product_name_citation" JNull in
      match name with
      | JStr name =>
          sizes <~ extract_sizes specs name ;;
          let id := generate_id name i in
          specs <~ validate_dict specs ;;
          features <~ rmap validate_str features ;;
          url <~ validate_optional_str url ;;
          sizes <~ rmap validate_str sizes ;;
          Ok {| Product.id := id;
                Product.name := name;
                Product.category := category;
                Product.brand := "Hisense";
                Product.specs := specs;
                Product.features := features;
                Product.url := url;
                Product.sizes := sizes |}
      | _ => Raise AttributeError
      end
  | _ => Raise AttributeError (* no [get] *)
  end.

Fixpoint load_from {rt : PyRuntime} {pd : PydanticDict} (i : nat)
    (raw_products : list json) : result (list Product.t) :=
  match raw_products with
  | [] => Ok []
  | p :: rest =>
      product <~ load_product i p ;;
      products <~ load_from (S i) rest ;;
      Ok (product :: products)
  end.

(** [_load_products] on the decoded contents [data] of the catalog
    file. *)
Definition _load_products {rt : PyRuntime} {pd : PydanticDict} (data : json)
  : result ProductDatabase :=
  match data with
  | JDict d =>
      raw_products <~
        iterate (dict_get_default d "hisenseme_products" (JList [])) ;;
      products <~ load_from 0 raw_products ;;
      Ok {| products := products |}
  | _ => Raise AttributeError
  end.

(** [sorted(l)] on strings, by code points. *)
Fixpoint insert_str (x : string) (l : list string) : list string :=
  match l with
  | [] => [x]
  | y :: l' => if String.leb x y then x :: l else y :: insert_str x l'
  end.

Fixpoint sorted_strs (l : list string) : list string :=
  match l with
  | [] => []
  | x :: l' => insert_str x (sorted_strs l')
  end.

(** [sorted(set(l))]: the distinct strings of [l] in ascending order. *)
Definition sorted_set (l : list string) : list string :=
  sorted_strs (nodup string_dec l).

Definition get_categories (db : ProductDatabase) : list string :=
  let available :=
    map (fun p => category_value (Product.category p)) (products db) in
  sorted_set available.

Definition get_brands {u : Unicode} (db : ProductDatabase)
    (category : option string)
  : list string :=
  let products := products db in
  let products :=
    match truthy_str category with
    | Some c =>
        match ProductCategory_of (PyStr.lower c) with
        | Some cat =>
            filter (fun p => category_eqb (Product.category p) cat) products
        | None => products
        end
    | None => products
    end in
  sorted_set (map Product.brand products).

(** ** The scoring rules as the specification words them

    Section 4.3 of the specification gives the score as a base of 50 plus
    additive bonuses, rule by rule, the last rule being a table of use-case
    bonuses.  The definitions below follow its wording; they are compared
    with [raw_score] and [_use_case_score] further down.  Where the
    specification says that a text is found in another, both are taken in
    lower case. *)

Definition indicator (b : bool) : Z := if b then 1 else 0.

(** The sum of [g x] over the entries [x] of [l], duplicates included. *)
Definition sum_over {A} (g : A -> Z) (l : list A) : Z :=
  fold_right (fun x acc => g x + acc) 0 l.

(** Rule 2: +15 if the product's category equals the intent's category,
    when that is present and recognized. *)
Definition rule_category {u : Unicode} (parsed : ParsedQuery.t)
    (product : Product.t) : Z :=
  match ParsedQuery.category parsed with
  | Some c =>
      match ProductCategory_of (PyStr.lower c) with
      | Some cat => 15 * indicator (category_eqb (Product.category product) cat)
      | None => 0
      end
  | None => 0
  end.

Definition intent_keywords (parsed : ParsedQuery.t) : list string :=
  (ParsedQuery.keywords parsed ++ ParsedQuery.must_have_features parsed)%list.

(** Rule 3: +10 per keyword found, ignoring case, in the product name. *)
Definition rule_keywords_in_name {u : Unicode} (parsed : ParsedQuery.t)
    (product : Product.t) : Z :=
  sum_over
    (fun keyword =>
       10 * indicator (PyStr.contains (PyStr.lower keyword)
                         (PyStr.lower (Product.name product))))
    (intent_keywords parsed).

(** Rule 4: +5 per keyword found in the features text or the specs text. *)
Definition rule_keywords_in_text {rt : PyRuntime} (parsed : ParsedQuery.t)
    (product : Product.t) : Z :=
  sum_over
    (fun keyword =>
       5 * indicator (PyStr.contains (PyStr.lower keyword)
                        (features_text_of product)
                      || PyStr.contains (PyStr.lower keyword)
                           (specs_text_of product)))
    (intent_keywords parsed).

(** Rule 5 as stated: for each token of the raw query longer than 3
    characters, +3 if found in the product name and +2 if found in the
    features text or the specs text. *)
Definition rule_query_tokens_as_stated {rt : PyRuntime} (query : string)
    (product : Product.t) : Z :=
  sum_over
    (fun token =>
       if Nat.ltb 3 (PyStr.len token) then
         3 * indicator (PyStr.contains (PyStr.lower token)
                          (PyStr.lower (Product.name product)))
         + 2 * indicator (PyStr.contains (PyStr.lower token)
                            (features_text_of product)
                          || PyStr.contains (PyStr.lower token)
                               (specs_text_of product))
       else 0)
    (PyStr.split query).

(** Rule 5 read on the lower-cased query: its tokens are counted when they
    are longer than 3 characters. *)
Definition rule_query_tokens {rt : PyRuntime} (query : string)
    (product : Product.t) : Z :=
  sum_over
    (fun token =>
       if Nat.ltb 3 (PyStr.len token) then
         3 * indicator (PyStr.contains token
                          (PyStr.lower (Product.name product)))
         + 2 * indicator (PyStr.contains token (features_text_of product)
                          || PyStr.contains token (specs_text_of product))
       else 0)
    (PyStr.split (PyStr.lower query)).

(** Rule 6 for a size preference [sp]: +15 if it is found in an entry of
    [sizes], and independently +10 if it is found in the specs text. *)
Definition size_bonus {rt : PyRuntime} (sp : string) (product : Product.t)
  : Z :=
  15 * indicator (existsb (fun s => PyStr.contains (PyStr.lower sp)
                                      (PyStr.lower s))
                          (Product.sizes product))
  + 10 * indicator (PyStr.contains (PyStr.lower sp) (specs_text_of product)).

(** Rule 7 for a capacity [cap]: +15 if it is found in the product name or
    the specs text. *)
Definition capacity_bonus {rt : PyRuntime} (cap : string)
    (product : Product.t) : Z :=
  15 * indicator (PyStr.contains (PyStr.lower cap)
                    (PyStr.lower (Product.name product))
                  || PyStr.contains (PyStr.lower cap) (specs_text_of product)).

(** Rules 6 and 7 read for every intent that carries the field. *)
Definition rule_size_as_stated {rt : PyRuntime} (parsed : ParsedQuery.t)
    (product : Product.t) : Z :=
  match ParsedQuery.size_preference parsed with
  | Some sp => size_bonus sp product
  | None => 0
  end.

Definition rule_capacity_as_stated {rt : PyRuntime} (parsed : ParsedQuery.t)
    (product : Product.t) : Z :=
  match ParsedQuery.capacity parsed with
  | Some cap => capacity_bonus cap product
  | None => 0
  end.

(** Rules 6 and 7 read for an intent whose field is a non-empty string. *)
Definition rule_size {rt : PyRuntime} (parsed : ParsedQuery.t)
    (product : Product.t) : Z :=
  match ParsedQuery.size_preference parsed with
  | Some EmptyString => 0
  | Some sp => size_bonus sp product
  | None => 0
  end.

Definition rule_capacity {rt : PyRuntime} (parsed : ParsedQuery.t)
    (product : Product.t) : Z :=
  match ParsedQuery.capacity parsed with
  | Some EmptyString => 0
  | Some cap => capacity_bonus cap product
  | None => 0
  end.

(** One row of the table of rule 8: the bonus is earned when the trigger
    holds of the intent and the marker is found on the product. *)
Definition row (trigger marker : bool) (bonus : Z) : Z :=
  bonus * indicator (trigger && marker).

(** The two bands of a capacity row: +15 within the first bound, else +10
    within the second. *)
Definition band (first second : bool) : Z :=
  if first then 15 else if second then 10 else 0.

(** Rule 8 as stated: the table of use-case bonuses, one summand per row.
    A family size that is present triggers the capacity rows, both of
    which band strictly (below 100 and below 200 liters, below 2 and below
    4 kg, as the specification's note on the thresholds has it); the three
    rows of the air conditioner are independent; the soundbar's first row
    looks for "dolby atmos" or "atmos" in the specs or the features. *)
Definition use_case_table {rt : PyRuntime} (product : Product.t)
    (parsed : ParsedQuery.t) : Z :=
  let has := PyStr.contains in
  let use_case := PyStr.lower (or_empty (ParsedQuery.use_case parsed)) in
  let room_size := PyStr.lower (or_empty (ParsedQuery.room_size parsed)) in
  let features := features_text_of product in
  let specs := specs_text_of product in
  let name := PyStr.lower (Product.name product) in
  let gaming := has "gaming" use_case || has "game" use_case in
  let movie := has "movie" use_case || has "cinema" use_case in
  let cinema := has "cinema" use_case || has "movie" use_case in
  let sport := has "sport" use_case in
  match Product.category product with
  | TV =>
      row gaming (has "120hz" specs || has "144hz" specs
                  || has "165hz" specs) 15
      + row gaming (has "game mode" features || has "game bar" features) 10
      + row gaming (has "vrr" specs || has "allm" specs) 5
      + row movie (has "dolby vision" specs
                   || has "dolby atmos" features) 15
      + row movie (has "hdr" specs) 10
      + row movie (has "oled" specs || has "miniled" specs
                   || has "mini-led" specs) 10
      + row sport (has "sports mode" features
                   || has "ai sports" features) 15
      + row sport (has "memc" specs || has "motion" features) 10
  | REFRIGERATOR =>
      match ParsedQuery.family_size parsed,
            PyStr.search_number_unit PyStr.L (Product.name product) with
      | Some family_size, Some digits =>
          let d := Z.abs (PyStr.int_of_digits digits - family_size * 100) in
          band (d <? 100) (d <? 200)
      | _, _ => 0
      end
  | WASHING_MACHINE =>
      match ParsedQuery.family_size parsed,
            PyStr.search_number_unit PyStr.kg (Product.name product) with
      | Some family_size, Some digits =>
          let d := Z.abs (PyStr.int_of_digits digits - family_size * 2) in
          band (d <? 2) (d <? 4)
      | _, _ => 0
      end
      + row (has "smart" use_case || has "connected" use_case)
            (has "connect" features || has "app" features) 10
  | AC =>
      row (has "large" room_size || has "living" room_size)
          (has "2 ton" specs || has "24000" specs) 15
      + row (has "small" room_size || has "bedroom" room_size)
            (has "1 ton" specs || has "1.5 ton" specs) 15
      + row true (has "inverter" features || has "inverter" specs) 5
  | SOUNDBAR =>
      row movie ((has "dolby atmos" specs || has "atmos" specs)
                 || (has "dolby atmos" features || has "atmos" features)) 15
      + row (has "bass" use_case || has "music" use_case)
            (has "subwoofer" name || has "subwoofer" specs) 10
  | PROJECTOR =>
      row cinema (has "laser" name || has "4k" specs) 15
      + row cinema (has "dolby" specs) 10
  | DRYER | DISHWASHER => 0
  end.

(** Rule 8 with four of its rows read differently: a family size of 0
    counts as absent; the washing machine's bands include their bounds
    (at most 2 and at most 4 kg) while the refrigerator's stay strict; the
    air conditioner's row for a small room applies only when the room is
    not also large; the soundbar's first row looks for "dolby atmos" in
    the features or "atmos" in the specs. *)
Definition use_case_bonuses {rt : PyRuntime} (product : Product.t)
    (parsed : ParsedQuery.t) : Z :=
  let has := PyStr.contains in
  let use_case := PyStr.lower (or_empty (ParsedQuery.use_case parsed)) in
  let room_size := PyStr.lower (or_empty (ParsedQuery.room_size parsed)) in
  let features := features_text_of product in
  let specs := specs_text_of product in
  let name := PyStr.lower (Product.name product) in
  let gaming := has "gaming" use_case || has "game" use_case in
  let movie := has "movie" use_case || has "cinema" use_case in
  let cinema := has "cinema" use_case || has "movie" use_case in
  let sport := has "sport" use_case in
  let large := has "large" room_size || has "living" room_size in
  match Product.category product with
  | TV =>
      row gaming (has "120hz" specs || has "144hz" specs
                  || has "165hz" specs) 15
      + row gaming (has "game mode" features || has "game bar" features) 10
      + row gaming (has "vrr" specs || has "allm" specs) 5
      + row movie (has "dolby vision" specs
                   || has "dolby atmos" features) 15
      + row movie (has "hdr" specs) 10
      + row movie (has "oled" specs || has "miniled" specs
                   || has "mini-led" specs) 10
      + row sport (has "sports mode" features
                   || has "ai sports" features) 15
      + row sport (has "memc" specs || has "motion" features) 10
  | REFRIGERATOR =>
      match truthy_int (ParsedQuery.family_size parsed),
            PyStr.search_number_unit PyStr.L (Product.name product) with
      | Some family_size, Some digits =>
          let d := Z.abs (PyStr.int_of_digits digits - family_size * 100) in
          band (d <? 100) (d <? 200)
      | _, _ => 0
      end
  | WASHING_MACHINE =>
      match truthy_int (ParsedQuery.family_size parsed),
            PyStr.search_number_unit PyStr.kg (Product.name product) with
      | Some family_size, Some digits =>
          let d := Z.abs (PyStr.int_of_digits digits - family_size * 2) in
          band (d <=? 2) (d <=? 4)
      | _, _ => 0
      end
      + row (has "smart" use_case || has "connected" use_case)
            (has "connect" features || has "app" features) 10
  | AC =>
      row large (has "2 ton" specs || has "24000" specs) 15
      + row (negb large
             && (has "small" room_size || has "bedroom" room_size))
            (has "1 ton" specs || has "1.5 ton" specs) 15
      + row true (has "inverter" features || has "inverter" specs) 5
  | SOUNDBAR =>
      row movie (has "dolby atmos" features || has "atmos" specs) 15
      + row (has "bass" use_case || has "music" use_case)
            (has "subwoofer" name || has "subwoofer" specs) 10
  | PROJECTOR =>
      row cinema (has "laser" name || has "4k" specs) 15
      + row cinema (has "dolby" specs) 10
  | DRYER | DISHWASHER => 0
  end.

(** The score of section 4.3, every rule taken as stated. *)
Definition score_as_stated {rt : PyRuntime} (parsed : ParsedQuery.t)
    (query : string) (product : Product.t) : Z :=
  Z.min 100
    (50 + rule_category parsed product
        + rule_keywords_in_name parsed product
        + rule_keywords_in_text parsed product
        + rule_query_tokens_as_stated query product
        + rule_size_as_stated parsed product
        + rule_capacity_as_stated parsed product
        + use_case_table product parsed).

(** The same with rule 5 read on the lower-cased query, rules 6 and 7
    restricted to non-empty fields and rule 8 read as in
    [use_case_bonuses]. *)
Definition score_by_rules {rt : PyRuntime} (parsed : ParsedQuery.t)
    (query : string) (product : Product.t) : Z :=
  Z.min 100
    (50 + rule_category parsed product
        + rule_keywords_in_name parsed product
        + rule_keywords_in_text parsed product
        + rule_query_tokens query product
        + rule_size parsed product
        + rule_capacity parsed product
        + use_case_bonuses product parsed).

(** The one use-case bonus that has no trigger in the intent: +5 for an
    air conditioner with [inverter] in its features or specs. *)
Definition inverter_bonus {rt : PyRuntime} (product : Product.t) : Z :=
  match Product.category product with
  | AC =>
      5 * indicator (PyStr.contains "inverter" (features_text_of product)
                     || PyStr.contains "inverter" (specs_text_of product))
  | _ => 0
  end.

(** The washing-machine bonus for connected use. *)
Definition smart_bonus {u : Unicode} (product : Product.t)
    (parsed : ParsedQuery.t) : Z :=
  let use_case := PyStr.lower (or_empty (ParsedQuery.use_case parsed)) in
  if PyStr.contains "smart" use_case || PyStr.contains "connected" use_case
  then 10 * indicator (PyStr.contains "connect" (features_text_of product)
                       || PyStr.contains "app" (features_text_of product))
  else 0.

(** The entry of the first fallback for a product, in terms of the
    product's own fields. *)
Definition decode_entry_of (p : Product.t) : json :=
  JDict [("product_id", JStr (Product.id p));
         ("score", JInt 70);
         ("reasoning",
          JStr (Product.name p ++ " - a solid choice in this category."))].

(** ** A concrete runtime, catalog and services for the examples *)

Module Demo.

(** A character database that knows the letters and digits of ASCII:
    every other character has no case and is no digit. *)
Definition isupper (c : ascii) : bool :=
  (Nat.leb 65 (PyStr.code c) && Nat.leb (PyStr.code c) 90)%bool.

Definition lower_char (c : ascii) : ascii :=
  if isupper c then ascii_of_nat (PyStr.code c + 32) else c.

Fixpoint lower (s : string) : string :=
  match s with
  | EmptyString => EmptyString
  | String c s' => String (lower_char c) (lower s')
  end.

Definition digit (ch : string) : option nat :=
  match ch with
  | String c EmptyString =>
      if PyStr.isdigit c then Some (PyStr.code c - 48)%nat else None
  | _ => None
  end.

Lemma ascii_lower_char_idem (c : ascii) :
  lower_char (lower_char c) = lower_char c.
Proof. destruct c as [[] [] [] [] [] [] [] []]; reflexivity. Qed.

Lemma ascii_lower_idem (s : string) : lower (lower s) = lower s.
Proof.
  induction s as [|c s IH]; simpl; [reflexivity|].
  now rewrite ascii_lower_char_idem, IH.
Qed.

Definition text : Unicode :=
  {| str_lower := lower;
     decimal_value := digit;
     str_lower_idem := ascii_lower_idem;
     str_lower_empty := eq_refl |}.

Definition quote : string := String (ascii_of_nat 34) EmptyString.

Definition escape_char (c : ascii) : string :=
  match PyStr.code c with
  | 34%nat => "\" ++ quote
  | 92%nat => "\\"
  | 10%nat => "\n"
  | 13%nat => "\r"
  | 9%nat => "\t"
  | _ => String c EmptyString
  end.

Fixpoint escape (s : string) : string :=
  match s with
  | EmptyString => EmptyString
  | String c s' => escape_char c ++ escape s'
  end.

Definition quoted (s : string) : string := quote ++ escape s ++ quote.

(** [json.dumps] with its default separators, on values whose strings are
    printable ASCII.  Floats do not occur in the examples and are printed
    as [NaN]. *)
Fixpoint dumps (v : json) : string :=
  match v with
  | JNull => "null"
  | JBool true => "true"
  | JBool false => "false"
  | JInt n => DecimalString.NilZero.string_of_int (Z.to_int n)
  | JFloat _ => "NaN"
  | JStr s => quoted s
  | JList l => "[" ++ PyStr.join ", " (map dumps l) ++ "]"
  | JDict d =>
      "{" ++ PyStr.join ", "
               (map (fun kv => (quoted (fst kv) ++ ": " ++ dumps (snd kv))%string)
                    d)
          ++ "}"
  end.

(** The replies the example services give as JSON. *)
Definition dishwasher_intent : json :=
  JDict [("category", JStr "dishwasher"); ("keywords", JList [])].

Definition known_replies : list json := [dishwasher_intent].

(** [json.loads] on the texts of [known_replies]; any other text is
    rejected. *)
Definition loads (s : string) : option json :=
  find (fun v => String.eqb (dumps v) s) known_replies.

Definition opt_str_field (d : pydict) (k : string) : option (option string) :=
  match dict_get d k with
  | None | Some JNull => Some None
  | Some (JStr s) => Some (Some s)
  | Some _ => None
  end.

Definition opt_int_field (d : pydict) (k : string) : option (option Z) :=
  match dict_get d k with
  | None | Some JNull => Some None
  | Some (JInt n) => Some (Some n)
  | Some _ => None
  end.

Fixpoint strings_of (l : list json) : option (list string) :=
  match l with
  | [] => Some []
  | JStr s :: l' => option_map (cons s) (strings_of l')
  | _ => None
  end.

Definition str_list_field (d : pydict) (k : string) : option (list string) :=
  match dict_get d k with
  | None => Some []
  | Some (JList l) => strings_of l
  | Some _ => None
  end.

Definition obind {A B} (o : option A) (k : A -> option B) : option B :=
  match o with
  | Some a => k a
  | None => None
  end.

(** A strict reading of the field types of [ParsedQuery]. *)
Definition validate (d : pydict) : option ParsedQuery.t :=
  obind (opt_str_field d "category") (fun category =>
  obind (opt_str_field d "use_case") (fun use_case =>
  obind (opt_str_field d "room_size") (fun room_size =>
  obind (opt_int_field d "family_size") (fun family_size =>
  obind (opt_str_field d "capacity") (fun capacity =>
  obind (opt_str_field d "size_preference") (fun size_preference =>
  obind (str_list_field d "must_have_features") (fun must_have_features =>
  obind (str_list_field d "keywords") (fun keywords =>
  Some {| ParsedQuery.category := category;
          ParsedQuery.use_case := use_case;
          ParsedQuery.room_size := room_size;
          ParsedQuery.family_size := family_size;
          ParsedQuery.capacity := capacity;
          ParsedQuery.size_preference := size_preference;
          ParsedQuery.must_have_features := must_have_features;
          ParsedQuery.keywords := keywords |})))))))).

Fixpoint float_of_pos (p : positive) : float :=
  match p with
  | xH => 1%float
  | xO p' => PrimFloat.mul 2%float (float_of_pos p')
  | xI p' => PrimFloat.add (PrimFloat.mul 2%float (float_of_pos p')) 1%float
  end.

Definition to_float (v : json) : option float :=
  match v with
  | JFloat f => Some f
  | JInt 0 => Some 0%float
  | JInt (Zpos p) => Some (float_of_pos p)
  | JInt (Zneg p) => Some (PrimFloat.opp (float_of_pos p))
  | _ => None
  end.

Definition runtime : PyRuntime :=
  {| unicode := text;
     json_dumps := dumps;
     json_loads := loads;
     py_str := dumps;
     format_thousands := fun _ => None;
     validate_ParsedQuery := validate;
     coerce_float := to_float;
     coerce_str := fun _ => None |}.

(** A service that is down: every call raises. *)
Definition unavailable : ChatService :=
  {| create := fun _ _ => Raise ServiceError |}.

(** A service that answers every call in prose. *)
Definition chatty : ChatService :=
  {| create := fun _ _ => Ok "Sure! Here is what I would pick for you." |}.

(** A service that parses every query as a request for a dishwasher and is
    down for everything else. *)
Definition dishwasher_parser : ChatService :=
  {| create := fun _ req =>
       match req with
       | ParseRequest _ =>
           Ok (fence ++ "json" ++ dumps dishwasher_intent ++ fence)%string
       | RecommendRequest _ _ _ => Raise ServiceError
       end |}.

Definition tv : Product.t :=
  {| Product.id := "hisense-65u8k-mini-led-uled-tv-000";
     Product.name := "Hisense 65U8K Mini-LED ULED TV";
     Product.category := TV;
     Product.brand := "Hisense";
     Product.specs := [("refresh_rate", JStr "120Hz"); ("hdr", JStr "Dolby Vision")];
     Product.features := ["Game Mode Pro"; "Dolby Atmos sound"];
     Product.url := None;
     Product.sizes := ["55 inch"; "65 inch"] |}.

Definition washer : Product.t :=
  {| Product.id := "hisense-8kg-front-load-washer-001";
     Product.name := "Hisense 8kg Front Load Washer";
     Product.category := WASHING_MACHINE;
     Product.brand := "Hisense";
     Product.specs := [("spin", JInt 1400)];
     Product.features := ["Steam wash"];
     Product.url := None;
     Product.sizes := ["8kg"] |}.

Definition fridge : Product.t :=
  {| Product.id := "hisense-500l-side-by-side-refr-002";
     Product.name := "Hisense 500L Side-by-Side Refrigerator";
     Product.category := REFRIGERATOR;
     Product.brand := "Hisense";
     Product.specs := [("doors", JInt 2)];
     Product.features := ["Frost free"];
     Product.url := None;
     Product.sizes := ["500L"] |}.

Definition aircon : Product.t :=
  {| Product.id := "hisense-1-5-ton-split-ac-003";
     Product.name := "Hisense 1.5 Ton Split AC";
     Product.category := AC;
     Product.brand := "Hisense";
     Product.specs := [("tonnage", JStr "1.5 Ton")];
     Product.features := ["Inverter compressor"];
     Product.url := None;
     Product.sizes := [] |}.

Definition catalog : ProductDatabase :=
  {| products := [tv; washer; fridge; aircon] |}.

(** An intent that says nothing but the size of the family. *)
Definition family_of (n : Z) : ParsedQuery.t :=
  {| ParsedQuery.category := None; ParsedQuery.use_case := None;
     ParsedQuery.room_size := None; ParsedQuery.family_size := Some n;
     ParsedQuery.capacity := None; ParsedQuery.size_preference := None;
     ParsedQuery.must_have_features := []; ParsedQuery.keywords := [] |}.

(** An intent whose only field is an empty size preference. *)
Definition empty_size_preference : ParsedQuery.t :=
  {| ParsedQuery.category := None; ParsedQuery.use_case := None;
     ParsedQuery.room_size := None; ParsedQuery.family_size := None;
     ParsedQuery.capacity := None; ParsedQuery.size_preference := Some EmptyString;
     ParsedQuery.must_have_features := []; ParsedQuery.keywords := [] |}.

(** An intent that names a category and nothing else. *)
Definition category_only (c : string) : ParsedQuery.t :=
  {| ParsedQuery.category := Some c; ParsedQuery.use_case := None;
     ParsedQuery.room_size := None; ParsedQuery.family_size := None;
     ParsedQuery.capacity := None; ParsedQuery.size_preference := None;
     ParsedQuery.must_have_features := []; ParsedQuery.keywords := [] |}.

(** An intent that says nothing but the use. *)
Definition use_of (use_case : string) : ParsedQuery.t :=
  {| ParsedQuery.category := None; ParsedQuery.use_case := Some use_case;
     ParsedQuery.room_size := None; ParsedQuery.family_size := None;
     ParsedQuery.capacity := None; ParsedQuery.size_preference := None;
     ParsedQuery.must_have_features := []; ParsedQuery.keywords := [] |}.

(** An intent that says nothing but the room. *)
Definition room_of (room_size : string) : ParsedQuery.t :=
  {| ParsedQuery.category := None; ParsedQuery.use_case := None;
     ParsedQuery.room_size := Some room_size; ParsedQuery.family_size := None;
     ParsedQuery.capacity := None; ParsedQuery.size_preference := None;
     ParsedQuery.must_have_features := []; ParsedQuery.keywords := [] |}.

(** Three products that are not in the catalog. *)
Definition soundbar : Product.t :=
  {| Product.id := "hisense-ax5100g-soundbar-004";
     Product.name := "Hisense AX5100G Soundbar";
     Product.category := SOUNDBAR;
     Product.brand := "Hisense";
     Product.specs := [("channels", JStr "5.1")];
     Product.features := ["Atmos surround sound"];
     Product.url := None;
     Product.sizes := [] |}.

Definition minibar : Product.t :=
  {| Product.id := "hisense-90l-mini-refrigerator-005";
     Product.name := "Hisense 90L Mini Refrigerator";
     Product.category := REFRIGERATOR;
     Product.brand := "Hisense";
     Product.specs := [("doors", JInt 1)];
     Product.features := ["Reversible door"];
     Product.url := None;
     Product.sizes := ["90L"] |}.

(** A washer whose name has an o-umlaut and a no-break space before the
    unit. *)
Definition eco_washer : Product.t :=
  {| Product.id := "hisense-ko-8-kg-washer-006";
     Product.name :=
       ("Hisense " ++ PyStr.utf8 246 ++ "ko 8" ++ PyStr.utf8 160
          ++ "kg Washer")%string;
     Product.category := WASHING_MACHINE;
     Product.brand := "Hisense";
     Product.specs := [];
     Product.features := [];
     Product.url := None;
     Product.sizes := [] |}.

(** Pydantic that accepts dictionaries only. *)
Definition strict_dict : PydanticDict := {| coerce_dict := fun _ => None |}.

(** Three raw records as the catalog file holds them; the last one has no
    name. *)
Definition raw_tv : json :=
  JDict [("product_name", JStr "Hisense 65U8K Mini-LED ULED TV");
         ("technical_specifications",
          JDict [("refresh_rate", JStr "120Hz");
                 ("display_sizes", JList [JStr "55 inch"; JStr "65 inch"])]);
         ("key_features",
          JList [JDict [("name", JStr "Gaming"); ("value", JStr "Game Mode Pro")];
                 JStr "Dolby Atmos sound"]);
         ("product_name_citation", JStr "https://example.com/tv")].

Definition raw_washer : json :=
  JDict [("product_name", JStr "Hisense 8kg Front Load Washer");
         ("key_features", JList [JStr "Steam wash"])].

Definition raw_nameless : json :=
  JDict [("technical_specifications", JDict [("tonnage", JStr "1.5 Ton")])].

Definition raw_products : list json := [raw_tv; raw_washer; raw_nameless].

Definition raw_catalog : pydict :=
  [("hisenseme_products", JList raw_products)].

(** The products the three raw records load into. *)
Definition loaded_tv : Product.t :=
  {| Product.id := "hisense-65u8k-mini-led-uled-tv-000";
     Product.name := "Hisense 65U8K Mini-LED ULED TV";
     Product.category := TV;
     Product.brand := "Hisense";
     Product.specs :=
       [("refresh_rate", JStr "120Hz");
        ("display_sizes", JList [JStr "55 inch"; JStr "65 inch"])];
     Product.features := ["Game Mode Pro"; "Dolby Atmos sound"];
     Product.url := Some "https://example.com/tv";
     Product.sizes := ["55 inch"; "65 inch"] |}.

Definition loaded_washer : Product.t :=
  {| Product.id := "hisense-8kg-front-load-washer-001";
     Product.name := "Hisense 8kg Front Load Washer";
     Product.category := WASHING_MACHINE;
     Product.brand := "Hisense";
     Product.specs := [];
     Product.features := ["Steam wash"];
     Product.url := None;
     Product.sizes := ["8kg"] |}.

Definition loaded_nameless : Product.t :=
  {| Product.id := "product-2-002";
     Product.name := "Product 2";
     Product.category := AC;
     Product.brand := "Hisense";
     Product.specs := [("tonnage", JStr "1.5 Ton")];
     Product.features := [];
     Product.url := None;
     Product.sizes := [] |}.

Definition loaded : ProductDatabase :=
  {| products := [loaded_tv; loaded_washer; loaded_nameless] |}.

End Demo.

Example demo_dumps_ex :
  Demo.dumps (JDict (Product.specs Demo.tv))
  = ("{" ++ Demo.quote ++ "refresh_rate" ++ Demo.quote ++ ": "
         ++ Demo.quote ++ "120Hz" ++ Demo.quote ++ ", "
         ++ Demo.quote ++ "hdr" ++ Demo.quote ++ ": "
         ++ Demo.quote ++ "Dolby Vision" ++ Demo.quote ++ "}")%string.
Proof. reflexivity. Qed.

Example demo_parse_ex :
  @parse_query Demo.runtime Demo.dishwasher_parser "a quiet dishwasher" []
  = (Ok (Demo.category_only "dishwasher"), [ParseRequest "a quiet dishwasher"]).
Proof. vm_compute. reflexivity. Qed.

Example demo_tv_gaming_ex :
  map ScoredProduct.score
      (@_score_products Demo.runtime [Demo.tv]
         {| ParsedQuery.category := Some "tv"; ParsedQuery.use_case := Some "gaming";
            ParsedQuery.room_size := None; ParsedQuery.family_size := None;
            ParsedQuery.capacity := None; ParsedQuery.size_preference := None;
            ParsedQuery.must_have_features := []; ParsedQuery.keywords := ["120Hz"] |}
         "Best TV for gaming with 120Hz")
  = [97].
Proof. vm_compute. reflexivity. Qed.

(** * Properties *)

(** ** The string primitives on examples *)

Example lower_ex :
  @PyStr.lower Demo.text "Hisense 65U8K Mini-LED" = "hisense 65u8k mini-led".
Proof. reflexivity. Qed.

Example split_ex :
  PyStr.split "  Best TV  for gaming " = ["Best"; "TV"; "for"; "gaming"].
Proof. reflexivity. Qed.

(** A no-break space and an ideographic space separate words as well. *)
Example split_unicode_ex :
  PyStr.split ("8" ++ PyStr.utf8 160 ++ "kg" ++ PyStr.utf8 12288 ++ "washer")
  = ["8"; "kg"; "washer"].
Proof. vm_compute. reflexivity. Qed.

Example strip_ex : PyStr.strip "  a b  " = "a b".
Proof. reflexivity. Qed.

Example strip_unicode_ex :
  PyStr.strip (PyStr.utf8 8232 ++ "{}" ++ PyStr.utf8 160) = "{}".
Proof. vm_compute. reflexivity. Qed.

(** Length counts characters: "uber" with u-umlaut has four of them in five
    bytes, and its first three have three in four bytes. *)
Example len_ex :
  PyStr.len (PyStr.utf8 252 ++ "ber") = 4%nat
  /\ String.length (PyStr.utf8 252 ++ "ber") = 5%nat
  /\ PyStr.len (PyStr.utf8 252 ++ "be") = 3%nat.
Proof. repeat split; vm_compute; reflexivity. Qed.

Example chars_ex :
  PyStr.chars ("a" ++ PyStr.utf8 233 ++ PyStr.utf8 8364 ++ "z")
  = ["a"; PyStr.utf8 233; PyStr.utf8 8364; "z"].
Proof. vm_compute. reflexivity. Qed.

Example split_on_ex :
  PyStr.split_on "```" "```json x``` y" = [""; "json x"; " y"].
Proof. reflexivity. Qed.

Example search_kg_ex :
  @PyStr.search_number_unit Demo.text PyStr.kg "Washer WF 10 KG front load"
  = Some "10".
Proof. vm_compute. reflexivity. Qed.

Example search_l_ex :
  @PyStr.search_number_unit Demo.text PyStr.L "Model 7 fridge 512L"
  = Some "512".
Proof. vm_compute. reflexivity. Qed.

(** Blanks of any kind may stand before the unit, and the Kelvin sign is
    a [k] when case is ignored. *)
Example search_unicode_ex :
  @PyStr.search_number_unit Demo.text PyStr.kg
     ("Hisense 8" ++ PyStr.utf8 160 ++ "kg Washer") = Some "8"
  /\ @PyStr.search_number_unit Demo.text PyStr.kg
       ("Hisense 9" ++ PyStr.kelvin ++ "G Washer") = Some "9"
  /\ @PyStr.search_number_unit Demo.text PyStr.L
       ("Fridge 500" ++ PyStr.utf8 160 ++ "L") = Some "500"
  /\ @PyStr.search_number_unit Demo.text PyStr.kg "Model 12 with 7 kg drum"
     = Some "7".
Proof. repeat split; vm_compute; reflexivity. Qed.

Example contains_ex : PyStr.contains "game" "with game mode" = true.
Proof. reflexivity. Qed.

(** ** Strings *)

Lemma prefix_empty (s : string) : String.prefix EmptyString s = true.
Proof. destruct s; reflexivity. Qed.

Lemma contains_empty (s : string) : PyStr.contains EmptyString s = true.
Proof. destruct s; reflexivity. Qed.

Lemma contains_in_empty (sub : string) :
  sub <> EmptyString -> PyStr.contains sub EmptyString = false.
Proof. destruct sub; [congruence | reflexivity]. Qed.

Lemma lower_empty {u : Unicode} : PyStr.lower EmptyString = EmptyString.
Proof. apply str_lower_empty. Qed.

Lemma lower_idem {u : Unicode} (s : string) :
  PyStr.lower (PyStr.lower s) = PyStr.lower s.
Proof. apply str_lower_idem. Qed.

(** ** Loops as sums *)

Lemma fold_left_snoc {A B} (f : A -> B) (l : list A) (acc : list B) :
  fold_left (fun acc x => acc ++ [f x]) l acc = acc ++ map f l.
Proof.
  revert acc; induction l as [|x l IH]; intros acc; simpl.
  - now rewrite app_nil_r.
  - rewrite IH, <- app_assoc. reflexivity.
Qed.

Lemma fold_left_sum {A} (f : Z -> A -> Z) (g : A -> Z) (l : list A) (s : Z) :
  (forall s x, f s x = s + g x) ->
  fold_left f l s = s + sum_over g l.
Proof.
  intros Hf. revert s; induction l as [|x l IH]; intros s; simpl.
  - lia.
  - rewrite IH, Hf. lia.
Qed.

Lemma fold_left_map_sum {A B} (h : A -> B) (f : Z -> B -> Z) (g : A -> Z)
    (l : list A) (s : Z) :
  (forall s x, f s (h x) = s + g x) ->
  fold_left f (map h l) s = s + sum_over g l.
Proof.
  intros Hf. revert s; induction l as [|x l IH]; intros s; simpl.
  - lia.
  - rewrite IH, Hf. lia.
Qed.

Lemma sum_over_nonneg {A} (g : A -> Z) (l : list A) :
  (forall x, 0 <= g x) -> 0 <= sum_over g l.
Proof.
  intros Hg. induction l as [|x l IH]; simpl; [lia|].
  specialize (Hg x). lia.
Qed.

Lemma indicator_range (b : bool) : 0 <= indicator b <= 1.
Proof. destruct b; simpl; lia. Qed.

Lemma add_if_indicator (c : bool) (n bonus : Z) :
  add_if c n bonus = bonus + n * indicator c.
Proof. destruct c; simpl; lia. Qed.

(** ** The scoring engine *)

Lemma score_products_map {rt : PyRuntime} (products : list Product.t)
    (parsed : ParsedQuery.t) (query : string) :
  _score_products products parsed query
  = map (fun product =>
           {| ScoredProduct.product := product;
              ScoredProduct.score :=
                Z.min (raw_score parsed (PyStr.lower query) product) 100 |})
        products.
Proof. unfold _score_products. now rewrite fold_left_snoc. Qed.

Lemma category_of_empty {u : Unicode} :
  ProductCategory_of (PyStr.lower EmptyString) = None.
Proof. rewrite lower_empty. reflexivity. Qed.

Lemma if_add (c : bool) (s n : Z) :
  (if c then s + n else s) = s + n * indicator c.
Proof. destruct c; simpl; lia. Qed.

Ltac split_cases :=
  repeat match goal with
         | |- context [match ?x with _ => _ end] => destruct x
         end.

Ltac bound_indicators :=
  repeat match goal with
         | |- context [indicator ?b] =>
             let H := fresh "Hind" in
             pose proof (indicator_range b) as H;
             generalize dependent (indicator b); intros
         end.

(** The nested conditions of [_use_case_score] add up to the rows of the
    table, read as [use_case_bonuses] reads them. *)
Lemma use_case_score_rows {rt : PyRuntime} (product : Product.t)
    (parsed : ParsedQuery.t) :
  _use_case_score product parsed = use_case_bonuses product parsed.
Proof.
  unfold _use_case_score, use_case_bonuses, row, band. cbv zeta.
  destruct (Product.category product); rewrite ?add_if_indicator;
    split_cases; rewrite ?add_if_indicator; cbn [negb andb];
    change (indicator false) with 0; lia.
Qed.

(** The statements of [raw_score] add up to the base and the bonuses of
    the rules, rule 5 counting the tokens of the lower-cased query and
    rules 6 and 7 counting for non-empty fields only. *)
Lemma raw_score_rules {rt : PyRuntime} (parsed : ParsedQuery.t)
    (query : string) (product : Product.t) :
  raw_score parsed (PyStr.lower query) product
  = 50 + rule_category parsed product
       + rule_keywords_in_name parsed product
       + rule_keywords_in_text parsed product
       + rule_query_tokens query product
       + rule_size parsed product
       + rule_capacity parsed product
       + _use_case_score product parsed.
Proof.
  unfold raw_score, rule_category, rule_size, rule_capacity, size_bonus,
    capacity_bonus.
  destruct (ParsedQuery.category parsed) as [[|a c]|];
    destruct (ParsedQuery.size_preference parsed) as [[|a' sp]|];
    destruct (ParsedQuery.capacity parsed) as [[|b cap]|];
    simpl truthy_str; cbv zeta iota beta.
  all: rewrite ?category_of_empty.
  all: try destruct (ProductCategory_of _).
  all: rewrite ?if_add.
  all: rewrite (fold_left_sum _
             (fun token =>
                if Nat.ltb 3 (PyStr.len token) then
                  3 * indicator (PyStr.contains token
                                   (PyStr.lower (Product.name product)))
                  + 2 * indicator (PyStr.contains token
                                     (features_text_of product)
                                   || PyStr.contains token
                                        (specs_text_of product))
                else 0))
    by (intros s x; destruct (Nat.ltb 3 (PyStr.len x)); [|lia];
        rewrite !if_add; lia).
  all: rewrite (fold_left_sum _
             (fun keyword =>
                5 * indicator (PyStr.contains (PyStr.lower keyword)
                                 (features_text_of product)
                               || PyStr.contains (PyStr.lower keyword)
                                    (specs_text_of product))))
    by (intros s x; rewrite if_add; lia).
  all: rewrite (fold_left_sum _
             (fun keyword =>
                10 * indicator (PyStr.contains (PyStr.lower keyword)
                                  (PyStr.lower (Product.name product)))))
    by (intros s x; rewrite if_add; lia).
  all: unfold rule_keywords_in_name, rule_keywords_in_text, rule_query_tokens,
         intent_keywords.
  all: lia.
Qed.

Lemma use_case_score_nonneg {rt : PyRuntime} (product : Product.t)
    (parsed : ParsedQuery.t) :
  0 <= _use_case_score product parsed.
Proof.
  unfold _use_case_score. cbv zeta.
  destruct (Product.category product); rewrite ?add_if_indicator;
    split_cases; rewrite ?add_if_indicator; bound_indicators; lia.
Qed.

Lemma rule_category_nonneg {u : Unicode} (parsed : ParsedQuery.t)
    (product : Product.t) :
  0 <= rule_category parsed product.
Proof. unfold rule_category. split_cases; bound_indicators; lia. Qed.

Lemma rule_keywords_in_name_nonneg {u : Unicode} (parsed : ParsedQuery.t)
    (product : Product.t) :
  0 <= rule_keywords_in_name parsed product.
Proof. apply sum_over_nonneg. intros x. bound_indicators; lia. Qed.

Lemma rule_keywords_in_text_nonneg {rt : PyRuntime} (parsed : ParsedQuery.t)
    (product : Product.t) :
  0 <= rule_keywords_in_text parsed product.
Proof. apply sum_over_nonneg. intros x. bound_indicators; lia. Qed.

Lemma rule_query_tokens_nonneg {rt : PyRuntime} (query : string)
    (product : Product.t) :
  0 <= rule_query_tokens query product.
Proof.
  apply sum_over_nonneg. intros x.
  destruct (Nat.ltb 3 (PyStr.len x)); bound_indicators; lia.
Qed.

Lemma rule_size_nonneg {rt : PyRuntime} (parsed : ParsedQuery.t)
    (product : Product.t) :
  0 <= rule_size parsed product.
Proof.
  unfold rule_size, size_bonus. split_cases; bound_indicators; lia.
Qed.

Lemma rule_capacity_nonneg {rt : PyRuntime} (parsed : ParsedQuery.t)
    (product : Product.t) :
  0 <= rule_capacity parsed product.
Proof.
  unfold rule_capacity, capacity_bonus. split_cases; bound_indicators; lia.
Qed.

Lemma raw_score_base {rt : PyRuntime} (parsed : ParsedQuery.t)
    (query : string) (product : Product.t) :
  50 <= raw_score parsed (PyStr.lower query) product.
Proof.
  rewrite raw_score_rules.
  pose proof (rule_category_nonneg parsed product).
  pose proof (rule_keywords_in_name_nonneg parsed product).
  pose proof (rule_keywords_in_text_nonneg parsed product).
  pose proof (rule_query_tokens_nonneg query product).
  pose proof (rule_size_nonneg parsed product).
  pose proof (rule_capacity_nonneg parsed product).
  pose proof (use_case_score_nonneg product parsed).
  lia.
Qed.

(** With nothing in the intent, the only use-case bonus left is the one
    for an inverter air conditioner. *)
Lemma use_case_score_empty {rt : PyRuntime} (product : Product.t) :
  _use_case_score product ParsedQuery.empty = inverter_bonus product.
Proof.
  unfold _use_case_score, inverter_bonus. cbv zeta.
  change (or_empty (ParsedQuery.use_case ParsedQuery.empty))
    with EmptyString.
  change (or_empty (ParsedQuery.room_size ParsedQuery.empty))
    with EmptyString.
  rewrite lower_empty.
  destruct (Product.category product); try reflexivity.
  simpl. destruct (_ || _)%bool; reflexivity.
Qed.

(** C1 (as amended).  For every list of products, every intent and every
    raw query, the score computed per product is min(100, 50 + bonuses),
    all texts being compared in lower case: +15 for a recognized category
    match, +10 per entry of keywords ++ must_have_features found in the
    name, +5 per such entry found in the features text or the specs text,
    +3/+2 per token of the lower-cased query longer than 3 characters found
    in the name / in the features or specs text, +15 and independently +10
    for a non-empty size_preference found in a sizes entry and in the specs
    text, +15 for a non-empty capacity found in the name or the specs text,
    plus the use-case bonuses of the table with a family size of 0 counting
    as absent, strict bands for the refrigerator and inclusive ones for the
    washing machine, the small-room row of the air conditioner applying
    only when the room is not also large, and the first soundbar row
    looking for "dolby atmos" in the features or "atmos" in the specs. *)
Theorem score_products_by_rules :
  forall (rt : PyRuntime) (products : list Product.t)
         (parsed : ParsedQuery.t) (query : string),
    _score_products products parsed query
    = map (fun product =>
             {| ScoredProduct.product := product;
                ScoredProduct.score := score_by_rules parsed query product |})
          products.
Proof.
  intros. rewrite score_products_map. apply map_ext. intros product.
  unfold score_by_rules.
  rewrite raw_score_rules, use_case_score_rows, Z.min_comm. reflexivity.
Qed.

(** C1 (as stated) fails when the size preference is the empty string:
    the engine skips rule 6 and scores the television 50, while the rule
    as stated finds the empty string in a size and in the specs text and
    gives 50 + 15 + 10. *)
Lemma score_as_stated_counterexample :
  map ScoredProduct.score
      (@_score_products Demo.runtime [Demo.tv] Demo.empty_size_preference
         EmptyString) = [50]
  /\ @score_as_stated Demo.runtime Demo.empty_size_preference EmptyString
       Demo.tv = 75
  /\ @_score_products Demo.runtime [Demo.tv] Demo.empty_size_preference
       EmptyString
     <> map (fun product =>
               {| ScoredProduct.product := product;
                  ScoredProduct.score :=
                    @score_as_stated Demo.runtime Demo.empty_size_preference
                      EmptyString product |})
            [Demo.tv].
Proof.
  split; [vm_compute; reflexivity|].
  split; [vm_compute; reflexivity|].
  intros H. apply (f_equal (map ScoredProduct.score)) in H.
  vm_compute in H. discriminate H.
Qed.

(** The table of rule 8 as stated and the engine part in four rows.  A
    soundbar whose features say "Atmos surround sound" earns nothing for a
    movie night, the table gives +15.  An inverter air conditioner of 1.5
    ton asked for a "small living room" earns only the +5 of the inverter,
    the table adds the +15 of the small room.  A family size of 0 earns a
    90 L refrigerator nothing, the table gives +15.  The 8 kg washer for a
    family of three earns +15, the strict band of the table +10. *)
Example use_case_table_ex :
  (@_use_case_score Demo.runtime Demo.soundbar (Demo.use_of "movie night") = 0
   /\ @use_case_table Demo.runtime Demo.soundbar (Demo.use_of "movie night")
      = 15)
  /\ (@_use_case_score Demo.runtime Demo.aircon
        (Demo.room_of "small living room") = 5
      /\ @use_case_table Demo.runtime Demo.aircon
           (Demo.room_of "small living room") = 20)
  /\ (@_use_case_score Demo.runtime Demo.minibar (Demo.family_of 0) = 0
      /\ @use_case_table Demo.runtime Demo.minibar (Demo.family_of 0) = 15)
  /\ (@_use_case_score Demo.runtime Demo.washer (Demo.family_of 3) = 15
      /\ @use_case_table Demo.runtime Demo.washer (Demo.family_of 3) = 10).
Proof. repeat split; vm_compute; reflexivity. Qed.

(** C2.  For every product, intent and raw query, the score assigned by
    the scoring engine lies between 50 and 100: the engine returns one
    entry per product, in the order of the products, and the score of each
    entry is at least 50 and at most 100. *)
Theorem score_between_50_and_100 :
  forall (rt : PyRuntime) (products : list Product.t)
         (parsed : ParsedQuery.t) (query : string),
    Forall2 (fun product scored =>
               ScoredProduct.product scored = product
               /\ 50 <= ScoredProduct.score scored <= 100)
            products (_score_products products parsed query).
Proof.
  intros rt ps parsed query. rewrite score_products_map.
  induction ps as [|product ps IH]; simpl; constructor.
  - split; [reflexivity|]. simpl.
    pose proof (raw_score_base parsed query product). lia.
  - exact IH.
Qed.

(** C5 (as amended).  For every product and every raw query, scoring with
    an intent whose fields are all absent yields min(100, 50 + the token
    bonuses of rule 5, counted on the tokens of the lower-cased query that
    are longer than 3 characters, + 5 if the product is an air conditioner
    with "inverter" in its features or specs). *)
Theorem empty_intent_score :
  forall (rt : PyRuntime) (products : list Product.t) (query : string),
    _score_products products ParsedQuery.empty query
    = map (fun product =>
             {| ScoredProduct.product := product;
                ScoredProduct.score :=
                  Z.min 100 (50 + rule_query_tokens query product
                                + inverter_bonus product) |})
          products.
Proof.
  intros. rewrite score_products_map. apply map_ext. intros product.
  rewrite raw_score_rules, use_case_score_empty, Z.min_comm.
  change (rule_category ParsedQuery.empty product) with 0.
  change (rule_keywords_in_name ParsedQuery.empty product) with 0.
  change (rule_keywords_in_text ParsedQuery.empty product) with 0.
  change (rule_size ParsedQuery.empty product) with 0.
  change (rule_capacity ParsedQuery.empty product) with 0.
  do 2 f_equal. lia.
Qed.

(** C5 (as stated) fails for an inverter air conditioner: with nothing in
    the intent and the query "quiet split unit" the engine scores it
    50 + 3 + 5, while base plus token bonuses is 50 + 3. *)
Lemma empty_intent_counterexample :
  map ScoredProduct.score
      (@_score_products Demo.runtime [Demo.aircon] ParsedQuery.empty
         "quiet split unit") = [58]
  /\ 50 + @rule_query_tokens Demo.runtime "quiet split unit" Demo.aircon = 53.
Proof. split; vm_compute; reflexivity. Qed.

(** Tokens are measured in characters: the word "oko" with o-umlaut has
    three of them in four bytes and earns nothing, although the name has
    it; "washer" earns its +3. *)
Example short_token_ex :
  map ScoredProduct.score
      (@_score_products Demo.runtime [Demo.eco_washer] ParsedQuery.empty
         (PyStr.utf8 246 ++ "ko")) = [50]
  /\ PyStr.contains (PyStr.utf8 246 ++ "ko") (Product.name Demo.eco_washer)
     = true
  /\ map ScoredProduct.score
       (@_score_products Demo.runtime [Demo.eco_washer] ParsedQuery.empty
          (PyStr.utf8 246 ++ "ko Washer")) = [53].
Proof. repeat split; vm_compute; reflexivity. Qed.

(** ** Capacity bands *)

(** C6 (as amended).  For a washing machine whose name yields a capacity
    in kg and an intent with a non-zero family_size, the band is
    inclusive: a difference from family_size*2 of at most 2 earns +15, one
    above 2 and at most 4 earns +10, a larger one nothing (next to the
    bonus for connected use).  For a refrigerator whose name yields a
    capacity in liters the band is strict: a difference from
    family_size*100 below 100 earns +15, one from 100 and below 200 earns
    +10, one from 200 nothing. *)
Theorem capacity_bands :
  forall (rt : PyRuntime) (product : Product.t) (parsed : ParsedQuery.t)
         (family_size : Z) (digits : string),
    ParsedQuery.family_size parsed = Some family_size ->
    family_size <> 0 ->
    (Product.category product = WASHING_MACHINE ->
     PyStr.search_number_unit PyStr.kg (Product.name product) = Some digits ->
     let d := Z.abs (PyStr.int_of_digits digits - family_size * 2) in
     (d <= 2 ->
      _use_case_score product parsed = 15 + smart_bonus product parsed)
     /\ (2 < d <= 4 ->
         _use_case_score product parsed = 10 + smart_bonus product parsed)
     /\ (4 < d ->
         _use_case_score product parsed = smart_bonus product parsed))
    /\
    (Product.category product = REFRIGERATOR ->
     PyStr.search_number_unit PyStr.L (Product.name product) = Some digits ->
     let d := Z.abs (PyStr.int_of_digits digits - family_size * 100) in
     (d < 100 -> _use_case_score product parsed = 15)
     /\ (100 <= d < 200 -> _use_case_score product parsed = 10)
     /\ (200 <= d -> _use_case_score product parsed = 0)).
Proof.
  intros rt product parsed family_size digits Hfam Hnz.
  assert (Htruthy : truthy_int (ParsedQuery.family_size parsed)
                    = Some family_size).
  { rewrite Hfam. destruct family_size; [congruence | reflexivity..]. }
  split; intros Hcat Hname d.
  - assert (Hscore :
      _use_case_score product parsed
      = (if d <=? 2 then 15 else if d <=? 4 then 10 else 0)
        + smart_bonus product parsed).
    { unfold _use_case_score, smart_bonus. cbv zeta.
      rewrite Hcat, Htruthy, Hname. fold d.
      rewrite ?add_if_indicator.
      destruct (d <=? 2); [|destruct (d <=? 4)];
        destruct (_ || _)%bool; lia. }
    rewrite Hscore. repeat split; intros Hd.
    + destruct (Z.leb_spec d 2); lia.
    + destruct (Z.leb_spec d 2); [lia|]. destruct (Z.leb_spec d 4); lia.
    + destruct (Z.leb_spec d 2); [lia|]. destruct (Z.leb_spec d 4); lia.
  - assert (Hscore :
      _use_case_score product parsed
      = if d <? 100 then 15 else if d <? 200 then 10 else 0).
    { unfold _use_case_score. cbv zeta.
      rewrite Hcat, Htruthy, Hname. fold d.
      destruct (d <? 100); [|destruct (d <? 200)]; lia. }
    rewrite Hscore. repeat split; intros Hd.
    + destruct (Z.ltb_spec d 100); lia.
    + destruct (Z.ltb_spec d 100); [lia|]. destruct (Z.ltb_spec d 200); lia.
    + destruct (Z.ltb_spec d 100); [lia|]. destruct (Z.ltb_spec d 200); lia.
Qed.

(** The 8 kg washer for a family of three is exactly 2 away from the ideal
    6 kg and earns the +15 of the inclusive band. *)
Lemma capacity_bands_witness :
  ParsedQuery.family_size (Demo.family_of 3) = Some 3
  /\ @PyStr.search_number_unit Demo.text PyStr.kg (Product.name Demo.washer)
     = Some "8"
  /\ @_use_case_score Demo.runtime Demo.washer (Demo.family_of 3)
     = 15 + @smart_bonus Demo.text Demo.washer (Demo.family_of 3).
Proof.
  split; [reflexivity|]. split; [vm_compute; reflexivity|].
  refine (proj1 (proj1 (capacity_bands Demo.runtime Demo.washer
                          (Demo.family_of 3) 3 "8" eq_refl _)
                   eq_refl _) _).
  - discriminate.
  - vm_compute. reflexivity.
  - vm_compute. discriminate.
Defined.

(** C6 (as stated) fails for the washing machine: at a difference of
    exactly 2 (8 kg, family of three) the engine gives +15, not +10, and at
    a difference of exactly 4 (8 kg, family of two) it gives +10, not
    nothing. *)
Lemma strict_washing_bands_counterexample :
  @PyStr.search_number_unit Demo.text PyStr.kg (Product.name Demo.washer)
  = Some "8"
  /\ Z.abs (@PyStr.int_of_digits Demo.text "8" - 3 * 2) = 2
  /\ @_use_case_score Demo.runtime Demo.washer (Demo.family_of 3) = 15
  /\ Z.abs (@PyStr.int_of_digits Demo.text "8" - 2 * 2) = 4
  /\ @_use_case_score Demo.runtime Demo.washer (Demo.family_of 2) = 10.
Proof. repeat split; vm_compute; reflexivity. Qed.

(** The refrigerator band is strict: 500 L for a family of four is exactly
    100 away from the ideal and earns +10, for a family of five it earns
    +15. *)
Example fridge_band_ex :
  @_use_case_score Demo.runtime Demo.fridge (Demo.family_of 4) = 10
  /\ @_use_case_score Demo.runtime Demo.fridge (Demo.family_of 5) = 15
  /\ @_use_case_score Demo.runtime Demo.fridge (Demo.family_of 3) = 0.
Proof. repeat split; vm_compute; reflexivity. Qed.

(** A no-break space between the digits and the unit is a blank: the
    washer named "8 kg" in that way is read as 8 kg, the ideal for a
    family of four. *)
Example nbsp_capacity_ex :
  @PyStr.search_number_unit Demo.text PyStr.kg (Product.name Demo.eco_washer)
  = Some "8"
  /\ @_use_case_score Demo.runtime Demo.eco_washer (Demo.family_of 4) = 15.
Proof. split; vm_compute; reflexivity. Qed.

(** ** The catalog store *)

Lemma fold_left_keep {A} (keep : A -> bool) (l acc : list A) :
  fold_left (fun results x => if keep x then results ++ [x] else results)
            l acc
  = acc ++ filter keep l.
Proof.
  revert acc; induction l as [|x l IH]; intros acc; simpl.
  - now rewrite app_nil_r.
  - rewrite IH. destruct (keep x); [|reflexivity].
    now rewrite <- app_assoc.
Qed.

Lemma filter_all {A} (keep : A -> bool) (l : list A) :
  (forall x, keep x = true) -> filter keep l = l.
Proof.
  intros Hkeep. induction l as [|x l IH]; simpl; [reflexivity|].
  now rewrite Hkeep, IH.
Qed.

(** The loop of [search_products] keeps the products it hits, in catalog
    order. *)
Lemma search_products_filter {rt : PyRuntime} (db : ProductDatabase)
    (query : string) :
  search_products db query
  = filter (search_hit (PyStr.lower query)) (products db).
Proof. unfold search_products. now rewrite fold_left_keep. Qed.

(** C10.  Searching the catalog with the empty string returns every
    product of the catalog, each once, in catalog order: the empty string
    is a substring of every product name. *)
Theorem search_empty_returns_catalog :
  forall (rt : PyRuntime) (db : ProductDatabase),
    search_products db EmptyString = products db
    /\ forall product,
         PyStr.contains (PyStr.lower EmptyString)
           (PyStr.lower (Product.name product)) = true.
Proof.
  intros rt db. split.
  - rewrite search_products_filter. apply filter_all. intros product.
    unfold search_hit. now rewrite lower_empty, contains_empty.
  - intros product. rewrite lower_empty. apply contains_empty.
Qed.

(** C9.  A category string that is not the name of a category, whatever
    its case, is no filter: the store's filter and the orchestrator's
    filter return the whole catalog (the store's filter still applies the
    brands, when given). *)
Theorem unrecognized_category_is_no_filter :
  forall (u : Unicode) (db : ProductDatabase) (c : string)
         (brands : option (list string)) (parsed : ParsedQuery.t),
    ProductCategory_of (PyStr.lower c) = None ->
    ParsedQuery.category parsed = Some c ->
    filter_products db (Some c) None = products db
    /\ filter_products db (Some c) brands = filter_products db None brands
    /\ _filter_products db parsed = products db.
Proof.
  intros u db c brands parsed Hnone Hcat.
  unfold filter_products, _filter_products, get_all_products.
  rewrite Hcat.
  destruct c as [|a c]; simpl truthy_str; cbv iota; rewrite ?Hnone;
    repeat split; reflexivity.
Qed.

(** "Television" is no category name, so asking for it filters nothing. *)
Lemma unrecognized_category_witness :
  ProductCategory_of (@PyStr.lower Demo.text "Television") = None
  /\ @filter_products Demo.text Demo.catalog (Some "Television") None
     = products Demo.catalog
  /\ @_filter_products Demo.text Demo.catalog
       (Demo.category_only "Television")
     = products Demo.catalog.
Proof.
  split; [reflexivity|].
  pose proof (unrecognized_category_is_no_filter Demo.text Demo.catalog
                "Television" None (Demo.category_only "Television")
                eq_refl eq_refl)
    as [Hstore [_ Hengine]].
  split; assumption.
Defined.

(** A recognized category does filter, in any case of the letters. *)
Example recognized_category_ex :
  map Product.id (@filter_products Demo.text Demo.catalog (Some "AC") None)
  = [Product.id Demo.aircon].
Proof. reflexivity. Qed.

(** ** Ranking *)

Section Sorting.
Context {A : Type} (key : A -> Z).

Lemma insert_by_filter (v : Z) (x : A) (l : list A) :
  filter (has_key key v) (insert_by key x l) = filter (has_key key v) (x :: l).
Proof.
  induction l as [|y l IH]; [reflexivity|].
  simpl insert_by. destruct (Z.leb_spec (key x) (key y)) as [Hle|Hlt];
    [reflexivity|].
  simpl in *. rewrite IH. unfold has_key.
  destruct (Z.eqb_spec (key x) v), (Z.eqb_spec (key y) v);
    try reflexivity; lia.
Qed.

(** The ascending sort is stable: the elements of any one key come out
    in the order they went in. *)
Lemma sort_ascending_filter (v : Z) (l : list A) :
  filter (has_key key v) (sort_ascending key l) = filter (has_key key v) l.
Proof.
  induction l as [|x l IH]; [reflexivity|].
  simpl sort_ascending. rewrite insert_by_filter. simpl. now rewrite IH.
Qed.

Lemma list_sort_filter (reverse : bool) (v : Z) (l : list A) :
  filter (has_key key v) (list_sort key reverse l) = filter (has_key key v) l.
Proof.
  unfold list_sort. destruct reverse.
  - rewrite filter_rev, sort_ascending_filter, filter_rev.
    apply rev_involutive.
  - apply sort_ascending_filter.
Qed.

Lemma insert_by_perm (x : A) (l : list A) :
  Permutation (x :: l) (insert_by key x l).
Proof.
  induction l as [|y l IH]; simpl; [reflexivity|].
  destruct (key x <=? key y); [reflexivity|].
  rewrite perm_swap. now apply perm_skip.
Qed.

Lemma sort_ascending_perm (l : list A) :
  Permutation l (sort_ascending key l).
Proof.
  induction l as [|x l IH]; simpl; [constructor|].
  rewrite <- insert_by_perm. now apply perm_skip.
Qed.

Lemma list_sort_perm (reverse : bool) (l : list A) :
  Permutation l (list_sort key reverse l).
Proof.
  unfold list_sort. destruct reverse.
  - rewrite <- Permutation_rev, <- sort_ascending_perm.
    apply Permutation_rev.
  - apply sort_ascending_perm.
Qed.

Lemma insert_by_sorted (x : A) (l : list A) :
  StronglySorted (ascending key) l ->
  StronglySorted (ascending key) (insert_by key x l).
Proof.
  induction 1 as [|y l Hl IH Hy]; simpl.
  - repeat constructor.
  - destruct (Z.leb_spec (key x) (key y)) as [Hle|Hlt].
    + constructor; [now constructor|].
      constructor; [exact Hle|].
      eapply Forall_impl; [|exact Hy]. unfold ascending. intros; lia.
    + constructor; [exact IH|].
      eapply Permutation_Forall; [apply insert_by_perm|].
      constructor; [unfold ascending; lia | exact Hy].
Qed.

Lemma sort_ascending_sorted (l : list A) :
  StronglySorted (ascending key) (sort_ascending key l).
Proof.
  induction l as [|x l IH]; simpl; [constructor|].
  now apply insert_by_sorted.
Qed.

Lemma sorted_snoc (x : A) (l : list A) :
  StronglySorted (descending key) l ->
  Forall (fun y => descending key y x) l ->
  StronglySorted (descending key) (l ++ [x]).
Proof.
  induction 1 as [|y l Hl IH Hy]; intros Hx; simpl.
  - repeat constructor.
  - inversion Hx; subst. constructor; [now apply IH|].
    apply Forall_app. split; [exact Hy | now constructor].
Qed.

Lemma sorted_rev (l : list A) :
  StronglySorted (ascending key) l -> StronglySorted (descending key) (rev l).
Proof.
  induction 1 as [|y l Hl IH Hy]; simpl; [constructor|].
  apply sorted_snoc; [exact IH|].
  apply Forall_rev. exact Hy.
Qed.

Lemma list_sort_descending (l : list A) :
  StronglySorted (descending key) (list_sort key true l).
Proof. unfold list_sort. apply sorted_rev, sort_ascending_sorted. Qed.

End Sorting.

(** The scored list runs over the filtered products in their order, and
    the filtered products are catalog products in catalog order. *)
Lemma scored_in_catalog_order {rt : PyRuntime} (products : list Product.t)
    (parsed : ParsedQuery.t) (query : string) :
  map ScoredProduct.product (_score_products products parsed query)
  = products.
Proof.
  rewrite score_products_map, map_map. simpl. apply map_id.
Qed.

Lemma filtered_in_catalog_order {u : Unicode} (db : ProductDatabase)
    (parsed : ParsedQuery.t) :
  exists keep, _filter_products db parsed = filter keep (products db).
Proof.
  unfold _filter_products, get_all_products.
  destruct (truthy_str _) as [c|].
  - destruct (ProductCategory_of _) as [cat|].
    + eexists. reflexivity.
    + exists (fun _ => true). symmetry. now apply filter_all.
  - exists (fun _ => true). symmetry. now apply filter_all.
Qed.

(** C3.  In get_recommendations the scored candidates are sorted by
    descending score with a stable sort: the sorted list is a rearrangement
    of the scored one, its scores never increase, and for every score the
    candidates that have it appear in the order they have in the scored
    list, which is the order of the catalog. *)
Theorem ranking_is_stable :
  forall (rt : PyRuntime) (db : ProductDatabase) (parsed : ParsedQuery.t)
         (query : string),
    let scored :=
      _score_products (_filter_products db parsed) parsed query in
    let ranked := ranked_products db parsed query in
    Permutation scored ranked
    /\ StronglySorted (descending ScoredProduct.score) ranked
    /\ (forall v,
          filter (has_key ScoredProduct.score v) ranked
          = filter (has_key ScoredProduct.score v) scored)
    /\ (exists keep,
          map ScoredProduct.product scored = filter keep (products db)).
Proof.
  intros rt db parsed query scored ranked. subst scored ranked.
  unfold ranked_products. cbv zeta. repeat split.
  - apply list_sort_perm.
  - apply list_sort_descending.
  - intros v. apply list_sort_filter.
  - rewrite scored_in_catalog_order. apply filtered_in_catalog_order.
Qed.

(** Two products tie at 50 and one scores more: the winner moves to the
    front and the tie keeps the catalog order. *)
Example ranking_ex :
  map (fun c => (Product.category (ScoredProduct.product c),
                 ScoredProduct.score c))
      (@ranked_products Demo.runtime Demo.catalog ParsedQuery.empty
         "something for the kitchen")
  = [(AC, 55); (TV, 50); (WASHING_MACHINE, 50); (REFRIGERATOR, 50)].
Proof. vm_compute. reflexivity. Qed.

(** ** The services *)

Lemma clean_content_returns (content : string) :
  exists cleaned, clean_content content = Ok cleaned.
Proof.
  unfold clean_content.
  destruct (PyStr.startswith (PyStr.strip content) fence) eqn:Hfence;
    [|eexists; reflexivity].
  unfold PyStr.startswith in Hfence.
  destruct (PyStr.strip content) as [|c s]; [discriminate Hfence|].
  unfold PyStr.split_on. cbn [PyStr.split_on_aux]. rewrite Hfence.
  destruct (PyStr.split_on_aux fence _ s) as [w ws].
  eexists. reflexivity.
Qed.

(** The intent parser never fails outward and makes exactly one call. *)
Lemma parse_query_returns {rt : PyRuntime} {svc : ChatService}
    (query : string) (log : list request) :
  exists parsed,
    parse_query query log = (Ok parsed, log ++ [ParseRequest query]).
Proof.
  unfold parse_query, try_except, bind, call, lift, ret,
    get_query_parsing_prompt.
  destruct (create log (ParseRequest query)) as [content|e].
  - destruct (clean_content content) as [cleaned|e].
    + destruct (json_loads cleaned) as [data|]; simpl.
      * destruct (make_ParsedQuery data) as [parsed|e];
          [|destruct e]; eexists; reflexivity.
      * eexists; reflexivity.
    + destruct e; eexists; reflexivity.
  - destruct e; eexists; reflexivity.
Qed.

(** When the service raises, the parser degrades to the empty intent. *)
Lemma parse_query_degrades {rt : PyRuntime} {svc : ChatService}
    (query : string) (log : list request) (e : exn) :
  create log (ParseRequest query) = Raise e ->
  parse_query query log
  = (Ok ParsedQuery.empty, log ++ [ParseRequest query]).
Proof.
  intros Hcreate.
  unfold parse_query, try_except, bind, call, lift, ret,
    get_query_parsing_prompt.
  rewrite Hcreate. destruct e; reflexivity.
Qed.

(** The dictionaries built by the orchestrator have all the keys the
    prompt reads. *)
Lemma prompt_of_projection (query : string) (parsed : ParsedQuery.t)
    (ps : list Product.t) :
  get_recommendation_prompt query parsed (map product_for_ai ps)
  = Ok (RecommendRequest query parsed (map product_for_ai ps)).
Proof.
  unfold get_recommendation_prompt.
  assert (H : rmap prompt_line (map product_for_ai ps)
              = Ok (map (fun _ => tt) ps)).
  { induction ps as [|p ps IH]; [reflexivity|].
    simpl map. cbn [rmap]. rewrite IH. reflexivity. }
  rewrite H. reflexivity.
Qed.

Lemma decode_fallback_of_projection {rt : PyRuntime} (ps : list Product.t) :
  rmap decode_fallback_entry (map product_for_ai ps)
  = Ok (map decode_entry_of ps).
Proof.
  induction ps as [|p ps IH]; [reflexivity|].
  simpl map. cbn [rmap]. rewrite IH. reflexivity.
Qed.

(** They have no [brand]: the entry of the second fallback cannot be
    built. *)
Lemma error_fallback_of_projection {rt : PyRuntime} (p : Product.t)
    (ps : list Product.t) :
  rmap error_fallback_entry (map product_for_ai (p :: ps))
  = Raise (KeyError "brand").
Proof. reflexivity. Qed.

Lemma generate_recommendations_cons {rt : PyRuntime} {svc : ChatService}
    (query : string) (parsed : ParsedQuery.t) (p : Product.t)
    (ps : list Product.t) (log : list request) :
  let candidates := map product_for_ai (p :: ps) in
  let request := RecommendRequest query parsed (firstn 10 candidates) in
  generate_recommendations query parsed candidates log
  = match
      (content <~ create log request ;;
       content <~ clean_content content ;;
       of_option JSONDecodeError (json_loads content))%py
    with
    | Ok reply => (Ok reply, log ++ [request])
    | Raise JSONDecodeError =>
        (Ok (JDict
               [("message",
                 JStr "Here are some products that match your requirements:");
                ("recommendations",
                 JList (map decode_entry_of (firstn 5 (p :: ps))))]),
         log ++ [request])
    | Raise _ => (Raise (KeyError "brand"), log ++ [request])
    end.
Proof.
  intros candidates request. subst candidates request.
  unfold generate_recommendations.
  remember (map product_for_ai (p :: ps)) as cands eqn:Hcands.
  destruct cands as [|c cands]; [discriminate Hcands|]. rewrite Hcands.
  unfold try_except, bind, lift, call.
  rewrite !firstn_map, prompt_of_projection, decode_fallback_of_projection.
  change (firstn 5 (p :: ps)) with (p :: firstn 4 ps) at 2.
  rewrite error_fallback_of_projection.
  destruct (create log _) as [content|e]; simpl.
  - destruct (clean_content content) as [cleaned|e]; simpl.
    + destruct (json_loads cleaned); reflexivity.
    + destruct e; reflexivity.
  - destruct e; reflexivity.
Qed.

(** C8.  For every non-empty list of candidates, when the explanation
    service answers with text that is not JSON, the generator returns the
    fallback: the first min(5, number of candidates) candidates in their
    order, each with score 70 and a reasoning built from the product's
    name; the call is the only one made. *)
Theorem malformed_reply_fallback :
  forall (rt : PyRuntime) (svc : ChatService) (query : string)
         (parsed : ParsedQuery.t) (ps : list Product.t)
         (log : list request) (content cleaned : string),
    let candidates := map product_for_ai ps in
    let request := RecommendRequest query parsed (firstn 10 candidates) in
    ps <> [] ->
    create log request = Ok content ->
    clean_content content = Ok cleaned ->
    json_loads cleaned = None ->
    generate_recommendations query parsed candidates log
    = (Ok (JDict
             [("message",
               JStr "Here are some products that match your requirements:");
              ("recommendations",
               JList (map decode_entry_of (firstn 5 ps)))]),
       log ++ [request])
    /\ List.length (map decode_entry_of (firstn 5 ps))
       = Nat.min 5 (List.length ps)
    /\ Forall (fun entry =>
                 value_getitem entry "score" = Ok (JInt 70))
              (map decode_entry_of (firstn 5 ps)).
Proof.
  intros rt svc query parsed ps log content cleaned candidates request
         Hps Hcreate Hclean Hloads.
  subst candidates request.
  destruct ps as [|p ps]; [congruence|].
  split; [|split].
  - rewrite generate_recommendations_cons. cbv zeta.
    rewrite Hcreate. simpl. rewrite Hclean. simpl. rewrite Hloads.
    reflexivity.
  - now rewrite length_map, length_firstn.
  - apply Forall_map, Forall_forall. intros q _. reflexivity.
Qed.

(** A service that answers in prose, asked about two products. *)
Lemma malformed_reply_fallback_witness :
  @generate_recommendations Demo.runtime Demo.chatty "a tv for gaming"
    ParsedQuery.empty (map product_for_ai [Demo.tv; Demo.washer]) []
  = (Ok (JDict
           [("message",
             JStr "Here are some products that match your requirements:");
            ("recommendations",
             JList [decode_entry_of Demo.tv; decode_entry_of Demo.washer])]),
     [RecommendRequest "a tv for gaming" ParsedQuery.empty
        (map product_for_ai [Demo.tv; Demo.washer])]).
Proof.
  refine (proj1 (malformed_reply_fallback Demo.runtime Demo.chatty
                   "a tv for gaming" ParsedQuery.empty
                   [Demo.tv; Demo.washer] []
                   "Sure! Here is what I would pick for you."
                   "Sure! Here is what I would pick for you."
                   _ eq_refl eq_refl eq_refl)).
  discriminate.
Defined.

Lemma build_response_no_products {rt : PyRuntime} (db : ProductDatabase)
    (query : string) (parsed : ParsedQuery.t) :
  build_response db query parsed
    (JDict [("message", JStr no_products_message);
            ("recommendations", JList [])])
  = Ok {| RecommendationResponse.query := query;
          RecommendationResponse.parsed_query := parsed;
          RecommendationResponse.recommendations := [];
          RecommendationResponse.message := no_products_message |}.
Proof. reflexivity. Qed.

(** A recognized category that no catalog product has keeps nothing. *)
Lemma filter_products_no_match {u : Unicode} (db : ProductDatabase)
    (parsed : ParsedQuery.t) (c : string) (cat : ProductCategory) :
  ParsedQuery.category parsed = Some c ->
  ProductCategory_of (PyStr.lower c) = Some cat ->
  (forall p, In p (products db) ->
             category_eqb (Product.category p) cat = false) ->
  _filter_products db parsed = [].
Proof.
  intros Hcat Hrec Hnone. unfold _filter_products, get_all_products.
  rewrite Hcat.
  destruct c as [|a c]; [rewrite category_of_empty in Hrec; discriminate Hrec|].
  simpl truthy_str. cbv iota. rewrite Hrec.
  induction (products db) as [|p l IH]; [reflexivity|].
  simpl. rewrite (Hnone p (or_introl eq_refl)).
  apply IH. intros q Hq. apply Hnone. now right.
Qed.

(** C4.  For every query whose parsed intent's category filter keeps no
    catalog product, get_recommendations returns a response with an empty
    recommendation list and the fixed no-matches message, echoing the query
    and the parsed intent; the only call made to the service is the one
    that parsed the query. *)
Theorem no_match_response :
  forall (rt : PyRuntime) (svc : ChatService) (db : ProductDatabase)
         (query : string) (log log' : list request)
         (parsed : ParsedQuery.t),
    parse_query query log = (Ok parsed, log') ->
    _filter_products db parsed = [] ->
    get_recommendations db query log
    = (Ok {| RecommendationResponse.query := query;
             RecommendationResponse.parsed_query := parsed;
             RecommendationResponse.recommendations := [];
             RecommendationResponse.message := no_products_message |},
       log')
    /\ log' = log ++ [ParseRequest query].
Proof.
  intros rt svc db query log log' parsed Hparse Hnone. split.
  - unfold get_recommendations, bind. rewrite Hparse.
    unfold ranked_products. cbv zeta. rewrite Hnone.
    cbn [_score_products fold_left list_sort rev sort_ascending app firstn
         map generate_recommendations ret lift].
    now rewrite build_response_no_products.
  - destruct (parse_query_returns query log) as [parsed' Hparse'].
    congruence.
Qed.

(** The catalog has no dishwasher. *)
Lemma no_match_response_witness :
  @get_recommendations Demo.runtime Demo.dishwasher_parser Demo.catalog
    "a quiet dishwasher" []
  = (Ok {| RecommendationResponse.query := "a quiet dishwasher";
           RecommendationResponse.parsed_query :=
             Demo.category_only "dishwasher";
           RecommendationResponse.recommendations := [];
           RecommendationResponse.message := no_products_message |},
     [ParseRequest "a quiet dishwasher"]).
Proof.
  refine (proj1 (no_match_response Demo.runtime Demo.dishwasher_parser
                   Demo.catalog "a quiet dishwasher" []
                   [ParseRequest "a quiet dishwasher"]
                   (Demo.category_only "dishwasher") _ _)).
  - vm_compute. reflexivity.
  - vm_compute. reflexivity.
Defined.

(** When every call to the service raises and the catalog is not empty,
    the pipeline raises too: the parser degrades to the empty intent,
    nothing is filtered out, and the generator's second fallback looks up
    a key the candidates do not have. *)
Lemma pipeline_service_down {rt : PyRuntime} {svc : ChatService}
    (db : ProductDatabase) (query : string) (log : list request) :
  products db <> [] ->
  (forall log req, create log req = Raise ServiceError) ->
  fst (get_recommendations db query log) = Raise (KeyError "brand").
Proof.
  intros Hdb Hdown.
  unfold get_recommendations, bind.
  rewrite (parse_query_degrades query log ServiceError (Hdown _ _)).
  remember (firstn 10 (ranked_products db ParsedQuery.empty query))
    as top eqn:Htop.
  destruct top as [|c top].
  - exfalso. apply Hdb.
    assert (Hlen : List.length (ranked_products db ParsedQuery.empty query)
                   = List.length (products db)).
    { unfold ranked_products. cbv zeta.
      rewrite <- (Permutation_length (list_sort_perm _ true _)).
      rewrite score_products_map, length_map. reflexivity. }
    destruct (ranked_products db ParsedQuery.empty query);
      [|discriminate Htop].
    destruct (products db); [reflexivity | discriminate Hlen].
  - rewrite <- (map_map ScoredProduct.product product_for_ai).
    simpl map at 2.
    rewrite generate_recommendations_cons. cbv zeta.
    rewrite Hdown. reflexivity.
Qed.

(** C7 at a failing input.  With the service down, the generator asked
    about one television raises KeyError('brand') instead of returning the
    fallback, and so does the whole pipeline on the example catalog. *)
Theorem service_down_raises :
  fst (@generate_recommendations Demo.runtime Demo.unavailable
         "a tv for gaming" ParsedQuery.empty [product_for_ai Demo.tv] [])
  = Raise (KeyError "brand")
  /\ fst (@get_recommendations Demo.runtime Demo.unavailable Demo.catalog
            "a tv for gaming" [])
     = Raise (KeyError "brand").
Proof.
  split.
  - vm_compute. reflexivity.
  - apply (@pipeline_service_down Demo.runtime Demo.unavailable).
    + discriminate.
    + reflexivity.
Qed.

(** ** Identifiers *)

Lemma all_chars_app (f : ascii -> bool) (s t : string) :
  all_chars f (s ++ t) = (all_chars f s && all_chars f t)%bool.
Proof.
  induction s as [|c s IH]; simpl; [reflexivity|].
  now rewrite IH, andb_assoc.
Qed.

Lemma all_chars_impl (f g : ascii -> bool) (s : string) :
  (forall c, f c = true -> g c = true) ->
  all_chars f s = true -> all_chars g s = true.
Proof.
  intros Hfg. induction s as [|c s IH]; simpl; [reflexivity|].
  intros H. apply andb_true_iff in H as [Hc Hs].
  now rewrite (Hfg c Hc), IH.
Qed.

Lemma all_chars_dash_runs (in_run : bool) (s : string) :
  all_chars is_id_char (dash_runs in_run s) = true.
Proof.
  revert in_run; induction s as [|c s IH]; intros in_run; simpl;
    [reflexivity|].
  destruct (is_slug_char c) eqn:Hc; simpl.
  - unfold is_id_char at 1. now rewrite Hc, IH.
  - destruct in_run; simpl; now rewrite IH.
Qed.

Lemma all_chars_lstrip_char (f : ascii -> bool) (x : ascii) (s : string) :
  all_chars f s = true -> all_chars f (lstrip_char x s) = true.
Proof.
  induction s as [|c s IH]; simpl; [reflexivity|].
  intros H. destruct (Ascii.eqb c x); [|exact H].
  apply andb_true_iff in H as [_ Hs]. now apply IH.
Qed.

Lemma all_chars_rstrip_char (f : ascii -> bool) (x : ascii) (s : string) :
  all_chars f s = true -> all_chars f (rstrip_char x s) = true.
Proof.
  induction s as [|c s IH]; simpl; [reflexivity|].
  intros H. apply andb_true_iff in H as [Hc Hs]. specialize (IH Hs).
  destruct (rstrip_char x s) as [|c' r].
  - destruct (Ascii.eqb c x); simpl; [reflexivity | now rewrite Hc].
  - change (all_chars f (String c (String c' r)))
      with (f c && all_chars f (String c' r))%bool.
    now rewrite Hc, IH.
Qed.

Lemma all_chars_take (f : ascii -> bool) (n : nat) (s : string) :
  all_chars f s = true -> all_chars f (take n s) = true.
Proof.
  revert s; induction n as [|n IH]; intros [|c s]; simpl; try reflexivity.
  intros H. apply andb_true_iff in H as [Hc Hs]. now rewrite Hc, IH.
Qed.

Lemma all_chars_zeros (k : nat) : all_chars PyStr.isdigit (zeros k) = true.
Proof. induction k as [|k IH]; simpl; [reflexivity | exact IH]. Qed.

Lemma all_chars_string_of_uint (d : Decimal.uint) :
  all_chars PyStr.isdigit (NilEmpty.string_of_uint d) = true.
Proof. induction d; simpl; auto. Qed.

Lemma all_chars_decimal (n : nat) :
  all_chars PyStr.isdigit (decimal n) = true.
Proof.
  unfold decimal, NilZero.string_of_uint.
  destruct (Nat.to_uint n); try apply all_chars_string_of_uint.
  reflexivity.
Qed.

Lemma all_chars_format_03d (n : nat) :
  all_chars PyStr.isdigit (format_03d n) = true.
Proof.
  unfold format_03d.
  now rewrite all_chars_app, all_chars_zeros, all_chars_decimal.
Qed.

Lemma digit_is_id_char (c : ascii) :
  PyStr.isdigit c = true -> is_id_char c = true.
Proof.
  intros H. unfold is_id_char, is_slug_char. rewrite H.
  now rewrite orb_true_r.
Qed.

Lemma digit_is_no_dash (c : ascii) :
  PyStr.isdigit c = true -> Ascii.eqb c dash = false.
Proof.
  intros H. destruct (Ascii.eqb_spec c dash) as [->|]; [|reflexivity].
  discriminate H.
Qed.

(** X1.  An identifier is made of the characters a-z, 0-9 and the dash
    only, whatever the product name. *)
Theorem generate_id_charset :
  forall (u : Unicode) (product_name : string) (index : nat),
    all_chars is_id_char (generate_id product_name index) = true.
Proof.
  intros. unfold generate_id. cbv zeta.
  rewrite all_chars_app. apply andb_true_iff. split.
  - apply all_chars_take, all_chars_rstrip_char, all_chars_lstrip_char,
      all_chars_dash_runs.
  - simpl. apply (all_chars_impl PyStr.isdigit).
    + exact digit_is_id_char.
    + apply all_chars_format_03d.
Qed.

(** A text that ends in a dash and digits has only one such ending. *)
Lemma dash_suffix_unique (a b x y : string) :
  all_chars PyStr.isdigit x = true ->
  all_chars PyStr.isdigit y = true ->
  (a ++ String dash x)%string = (b ++ String dash y)%string ->
  x = y.
Proof.
  intros Hx Hy. revert b; induction a as [|c a IH]; intros [|c' b] H;
    simpl in H.
  - now injection H.
  - injection H as Hc Hrest. subst x.
    rewrite all_chars_app in Hx. apply andb_true_iff in Hx as [_ Hx].
    simpl in Hx. discriminate Hx.
  - injection H as Hc Hrest. subst y.
    rewrite all_chars_app in Hy. apply andb_true_iff in Hy as [_ Hy].
    simpl in Hy. discriminate Hy.
  - injection H as Hc Hrest. now apply (IH b).
Qed.

Lemma uint_of_zeros (k : nat) (s : string) (d : Decimal.uint) :
  NilEmpty.uint_of_string s = Some d ->
  exists d', NilEmpty.uint_of_string (zeros k ++ s) = Some d'
             /\ Nat.of_uint d' = Nat.of_uint d.
Proof.
  intros H. induction k as [|k [d' [Hd' Hval]]]; simpl.
  - now exists d.
  - exists (Decimal.D0 d'). rewrite Hd'. split; [reflexivity | exact Hval].
Qed.

(** Reading the formatted index back gives the index. *)
Lemma format_03d_value (n : nat) :
  option_map Nat.of_uint (NilEmpty.uint_of_string (format_03d n)) = Some n.
Proof.
  unfold format_03d.
  assert (Hnz : Nat.to_uint n <> Decimal.Nil).
  { intros Hto. pose proof (DecimalNat.Unsigned.of_to n) as Hn.
    rewrite Hto in Hn. simpl in Hn. subst n. discriminate Hto. }
  assert (H : NilEmpty.uint_of_string (decimal n) = Some (Nat.to_uint n)).
  { unfold decimal, NilZero.string_of_uint.
    destruct (Nat.to_uint n); [congruence | apply NilEmpty.usu..]. }
  destruct (uint_of_zeros (3 - String.length (decimal n)) _ _ H)
    as [d' [Hd' Hval]].
  rewrite Hd'. simpl.
  now rewrite Hval, DecimalNat.Unsigned.of_to.
Qed.

Lemma format_03d_injective (i j : nat) :
  format_03d i = format_03d j -> i = j.
Proof.
  intros H. pose proof (format_03d_value i) as Hi.
  rewrite H, format_03d_value in Hi. now injection Hi.
Qed.

(** X2.  The index can be read off an identifier: two identifiers are
    equal only if they were generated at the same index, whatever the
    names. *)
Theorem generate_id_index_unique :
  forall (u : Unicode) (name1 name2 : string) (i j : nat),
    generate_id name1 i = generate_id name2 j -> i = j.
Proof.
  intros u name1 name2 i j H. unfold generate_id in H. cbv zeta in H.
  apply dash_suffix_unique in H; try apply all_chars_format_03d.
  now apply format_03d_injective.
Qed.

(** ** Loading the catalog *)

Ltac invert_ok H :=
  repeat match type of H with
         | rbind ?r _ = Ok _ =>
             let E := fresh "E" in
             destruct r eqn:E; simpl in H; [|discriminate H]
         | match ?x with _ => _ end = Ok _ =>
             let E := fresh "E" in
             destruct x eqn:E; try discriminate H
         end.

(** What a product that was built from a raw record owes to it. *)
Lemma load_product_ok {rt : PyRuntime} {pd : PydanticDict} (i : nat)
    (raw : json) (p : Product.t) :
  load_product i raw = Ok p ->
  exists r,
    raw = JDict r
    /\ dict_get_default r "product_name" (JStr ("Product " ++ decimal i))
       = JStr (Product.name p)
    /\ Product.id p = generate_id (Product.name p) i
    /\ Product.brand p = "Hisense"
    /\ detect_category (JStr (Product.name p))
         (dict_get_default r "technical_specifications" (JDict []))
       = Ok (Product.category p).
Proof.
  intros H. unfold load_product in H.
  destruct raw as [| | | | |l|r]; try discriminate H.
  cbv zeta in H. exists r.
  destruct (features_of _) as [features|]; simpl in H; [|discriminate H].
  destruct (detect_category _ _) as [category|] eqn:Hcat; simpl in H;
    [|discriminate H].
  destruct (dict_get_default r "product_name" _) as [| | | |name| |] eqn:Hname;
    try discriminate H.
  invert_ok H. injection H as <-. simpl. repeat split. exact Hcat.
Qed.

Lemma load_from_ok {rt : PyRuntime} {pd : PydanticDict} (i : nat)
    (raws : list json) (ps : list Product.t) :
  load_from i raws = Ok ps ->
  List.length ps = List.length raws
  /\ forall k p, nth_error ps k = Some p ->
       exists raw, nth_error raws k = Some raw
                   /\ load_product (i + k) raw = Ok p.
Proof.
  revert i ps; induction raws as [|raw raws IH]; intros i ps H; simpl in H.
  - injection H as <-. split; [reflexivity|]. intros [|k] p Hk; discriminate.
  - destruct (load_product i raw) as [p0|] eqn:Hp0; simpl in H;
      [|discriminate H].
    destruct (load_from (S i) raws) as [ps0|] eqn:Hps0; simpl in H;
      [|discriminate H].
    injection H as <-. destruct (IH _ _ Hps0) as [Hlen Hnth].
    split; [simpl; now rewrite Hlen|].
    intros [|k] p Hk; simpl in Hk.
    + injection Hk as <-. exists raw. now rewrite Nat.add_0_r.
    + destruct (Hnth k p Hk) as [raw' [Hraw' Hload]].
      exists raw'. split; [exact Hraw'|].
      now rewrite Nat.add_succ_r.
Qed.

(** X3.  A catalog that loads has one product per raw record, in the
    order of the file: the k-th product comes from the k-th record, which
    is a mapping; its name is the record's product_name, or "Product k"
    when the record has none; its identifier is generated from that name
    and k; its brand is Hisense; its category is the one detected from
    the name and the record's specifications. *)
Theorem load_products_shape :
  forall (rt : PyRuntime) (pd : PydanticDict) (d : pydict)
         (raws : list json) (db : ProductDatabase),
    iterate (dict_get_default d "hisenseme_products" (JList [])) = Ok raws ->
    _load_products (JDict d) = Ok db ->
    List.length (products db) = List.length raws
    /\ forall k p, nth_error (products db) k = Some p ->
         exists r,
           nth_error raws k = Some (JDict r)
           /\ dict_get_default r "product_name"
                (JStr ("Product " ++ decimal k))
              = JStr (Product.name p)
           /\ Product.id p = generate_id (Product.name p) k
           /\ Product.brand p = "Hisense"
           /\ detect_category (JStr (Product.name p))
                (dict_get_default r "technical_specifications" (JDict []))
              = Ok (Product.category p).
Proof.
  intros rt pd d raws db Hraws Hload.
  unfold _load_products in Hload. rewrite Hraws in Hload. simpl in Hload.
  destruct (load_from 0 raws) as [ps|] eqn:Hps; simpl in Hload;
    [|discriminate Hload].
  injection Hload as <-. simpl.
  destruct (load_from_ok 0 raws ps Hps) as [Hlen Hnth].
  split; [exact Hlen|].
  intros k p Hk. destruct (Hnth k p Hk) as [raw [Hraw Hone]].
  destruct (load_product_ok _ _ _ Hone) as [r [-> Hrest]].
  exists r. split; [exact Hraw | exact Hrest].
Qed.

Lemma load_from_ids_distinct {rt : PyRuntime} {pd : PydanticDict} (i0 : nat)
    (raws : list json) (ps : list Product.t) :
  load_from i0 raws = Ok ps -> NoDup (map Product.id ps).
Proof.
  intros Hps. destruct (load_from_ok i0 raws ps Hps) as [_ Hnth].
  apply NoDup_nth_error. intros i j Hi Hij.
  rewrite length_map in Hi. rewrite !nth_error_map in Hij.
  destruct (nth_error ps i) as [p|] eqn:Hp;
    [|apply nth_error_None in Hp; lia].
  destruct (nth_error ps j) as [q|] eqn:Hq; [|discriminate Hij].
  simpl in Hij. injection Hij as Hid.
  destruct (Hnth i p Hp) as [rawp [_ Hloadp]].
  destruct (Hnth j q Hq) as [rawq [_ Hloadq]].
  destruct (load_product_ok _ _ _ Hloadp) as [_ [_ [_ [Hidp _]]]].
  destruct (load_product_ok _ _ _ Hloadq) as [_ [_ [_ [Hidq _]]]].
  rewrite Hidp, Hidq in Hid.
  unfold generate_id in Hid. cbv zeta in Hid.
  apply dash_suffix_unique in Hid; try apply all_chars_format_03d.
  apply format_03d_injective in Hid. lia.
Qed.

Lemma load_products_ok {rt : PyRuntime} {pd : PydanticDict} (data : json)
    (db : ProductDatabase) :
  _load_products data = Ok db ->
  exists raws, load_from 0 raws = Ok (products db).
Proof.
  intros Hload. unfold _load_products in Hload.
  destruct data as [| | | | | |d]; try discriminate Hload.
  destruct (iterate _) as [raws|]; simpl in Hload; [|discriminate Hload].
  destruct (load_from 0 raws) as [ps|] eqn:Hps; simpl in Hload;
    [|discriminate Hload].
  injection Hload as <-. now exists raws.
Qed.

(** X4.  The identifiers of a catalog that loads are pairwise distinct,
    whatever the names in the file (equal names included). *)
Theorem load_products_ids_distinct :
  forall (rt : PyRuntime) (pd : PydanticDict) (data : json)
         (db : ProductDatabase),
    _load_products data = Ok db ->
    NoDup (map Product.id (products db)).
Proof.
  intros rt pd data db Hload.
  destruct (load_products_ok data db Hload) as [raws Hraws].
  exact (load_from_ids_distinct 0 raws _ Hraws).
Qed.

(** The example file loads into three products named after its records,
    the nameless one as "Product 2". *)
Lemma load_products_shape_witness :
  exists db,
    @_load_products Demo.runtime Demo.strict_dict (JDict Demo.raw_catalog)
    = Ok db
    /\ List.length (products db) = 3%nat
    /\ map Product.name (products db)
       = ["Hisense 65U8K Mini-LED ULED TV"; "Hisense 8kg Front Load Washer";
          "Product 2"]
    /\ map Product.category (products db) = [TV; WASHING_MACHINE; AC].
Proof.
  eexists. split; [vm_compute; reflexivity|].
  split; [|split; reflexivity].
  refine (proj1 (load_products_shape Demo.runtime Demo.strict_dict
                   Demo.raw_catalog Demo.raw_products _ eq_refl _)).
  vm_compute. reflexivity.
Defined.

Lemma load_products_ids_distinct_witness :
  exists db,
    @_load_products Demo.runtime Demo.strict_dict (JDict Demo.raw_catalog)
    = Ok db
    /\ map Product.id (products db)
       = ["hisense-65u8k-mini-led-uled-tv-000";
          "hisense-8kg-front-load-washer-001"; "product-2-002"]
    /\ NoDup (map Product.id (products db)).
Proof.
  eexists. split; [vm_compute; reflexivity|].
  split; [vm_compute; reflexivity|].
  apply (load_products_ids_distinct Demo.runtime Demo.strict_dict
           (JDict Demo.raw_catalog)).
  vm_compute. reflexivity.
Defined.

(** ** Looking products up *)

Lemma find_by_id (l : list Product.t) (p : Product.t) :
  NoDup (map Product.id l) -> In p l ->
  find (fun q => id_matches q (JStr (Product.id p))) l = Some p.
Proof.
  induction l as [|q l IH]; intros Hnd Hin; [destruct Hin|].
  simpl in Hnd. inversion Hnd as [|x xs Hnotin Hnd']; subst.
  simpl. destruct Hin as [->|Hin].
  - now rewrite String.eqb_refl.
  - destruct (String.eqb_spec (Product.id q) (Product.id p)) as [Heq|Hne].
    + exfalso. apply Hnotin. rewrite Heq. now apply in_map.
    + now apply IH.
Qed.

(** X5.  In a database whose identifiers are distinct, every product
    resolves by its own identifier to itself; in any database a lookup
    that succeeds returns a catalog product with exactly the identifier
    asked for, and an identifier that is not a string never resolves. *)
Theorem get_product_by_id_round_trip :
  forall (db : ProductDatabase),
    (NoDup (map Product.id (products db)) ->
     forall p, In p (products db) ->
               get_product_by_id db (JStr (Product.id p)) = Some p)
    /\ (forall product_id p,
          get_product_by_id db product_id = Some p ->
          In p (products db) /\ product_id = JStr (Product.id p)).
Proof.
  intros db. split.
  - intros Hnd p Hin. now apply find_by_id.
  - intros product_id p H. unfold get_product_by_id in H.
    apply find_some in H as [Hin Hid]. split; [exact Hin|].
    destruct product_id; try discriminate Hid.
    simpl in Hid. apply String.eqb_eq in Hid. now subst.
Qed.

(** X6.  Every product of a catalog that loads resolves by its identifier
    to itself. *)
Theorem loaded_product_resolves :
  forall (rt : PyRuntime) (pd : PydanticDict) (data : json)
         (db : ProductDatabase) (p : Product.t),
    _load_products data = Ok db ->
    In p (products db) ->
    get_product_by_id db (JStr (Product.id p)) = Some p.
Proof.
  intros rt pd data db p Hload Hin.
  destruct (load_products_ok data db Hload) as [raws Hraws].
  apply find_by_id; [|exact Hin].
  exact (load_from_ids_distinct 0 raws _ Hraws).
Qed.

(** The nameless record of the example file is found again under the
    identifier it was given. *)
Lemma loaded_product_resolves_witness :
  @_load_products Demo.runtime Demo.strict_dict (JDict Demo.raw_catalog)
  = Ok Demo.loaded
  /\ get_product_by_id Demo.loaded (JStr "product-2-002")
     = Some Demo.loaded_nameless.
Proof.
  split; [vm_compute; reflexivity|].
  apply (loaded_product_resolves Demo.runtime Demo.strict_dict
           (JDict Demo.raw_catalog) Demo.loaded Demo.loaded_nameless).
  - vm_compute. reflexivity.
  - right. right. left. reflexivity.
Defined.

(** ** Categories and filters *)

Lemma category_round_trip (c : ProductCategory) :
  ProductCategory_of (category_value c) = Some c.
Proof. destruct c; reflexivity. Qed.

Lemma category_eqb_eq (a b : ProductCategory) :
  category_eqb a b = true <-> a = b.
Proof.
  split; [|intros ->; apply String.eqb_refl].
  destruct a, b; try reflexivity; discriminate.
Qed.

(** X7.  The category names are exactly the eight values of the
    enumeration: looking a value up gives its member back, and a string
    is recognized only if it is the value of the member found. *)
Theorem category_lookup_round_trip :
  forall (s : string) (c : ProductCategory),
    ProductCategory_of s = Some c <-> s = category_value c.
Proof.
  intros s c. split.
  - intros H. unfold ProductCategory_of in H.
    apply find_some in H as [_ H]. apply String.eqb_eq in H. now subst.
  - intros ->. apply category_round_trip.
Qed.

(** X8.  Filtering by the name of a category, written in any letter case
    and with no brands, returns the products of that category:
    [filter_products] agrees with [get_products_by_category], and so does
    the orchestrator's filter. *)
Theorem filter_by_category_name :
  forall (u : Unicode) (db : ProductDatabase) (cat : ProductCategory)
         (c : string) (parsed : ParsedQuery.t),
    PyStr.lower c = category_value cat ->
    ParsedQuery.category parsed = Some c ->
    filter_products db (Some c) None = get_products_by_category db cat
    /\ _filter_products db parsed = get_products_by_category db cat.
Proof.
  intros u db cat c parsed Hc Hparsed.
  unfold filter_products, _filter_products, get_products_by_category,
    get_all_products.
  rewrite Hparsed. destruct c as [|a c].
  - rewrite lower_empty in Hc. destruct cat; discriminate Hc.
  - simpl truthy_str. cbv iota. rewrite Hc, category_round_trip.
    split; reflexivity.
Qed.

Lemma filter_by_category_name_witness :
  map Product.id
      (@filter_products Demo.text Demo.catalog (Some "Washing_Machine") None)
  = [Product.id Demo.washer].
Proof.
  rewrite (proj1 (filter_by_category_name Demo.text Demo.catalog
                    WASHING_MACHINE
                    "Washing_Machine"
                    (Demo.category_only "Washing_Machine")
                    eq_refl eq_refl)).
  reflexivity.
Defined.

Lemma brand_filter_spec {u : Unicode} (bs : list string)
    (l : list Product.t) (p : Product.t) :
  In p (filter (fun p => existsb (String.eqb (PyStr.lower (Product.brand p)))
                                 (map PyStr.lower bs)) l)
  <-> In p l /\ In (PyStr.lower (Product.brand p)) (map PyStr.lower bs).
Proof.
  rewrite filter_In, existsb_exists. split.
  - intros [Hin [x [Hx Heq]]]. apply String.eqb_eq in Heq. now subst.
  - intros [Hin Hb]. split; [exact Hin|].
    exists (PyStr.lower (Product.brand p)). split; [exact Hb|].
    apply String.eqb_refl.
Qed.

(** X9.  The brand filter compares brands without regard to letter case
    and comes on top of the category filter: a product is kept iff the
    category filter keeps it and its lower-cased brand is among the
    lower-cased brands asked for.  An empty list of brands filters
    nothing. *)
Theorem filter_by_brands :
  forall (u : Unicode) (db : ProductDatabase) (category : option string)
         (brands : list string) (p : Product.t),
    (brands <> [] ->
     (In p (filter_products db category (Some brands))
      <-> In p (filter_products db category None)
          /\ In (PyStr.lower (Product.brand p)) (map PyStr.lower brands)))
    /\ filter_products db category (Some [])
       = filter_products db category None.
Proof.
  intros u db category brands p. split; [|reflexivity].
  intros Hne. unfold filter_products. cbv zeta.
  destruct brands as [|b bs]; [congruence|].
  simpl truthy_list. cbv iota. apply brand_filter_spec.
Qed.

Lemma filter_by_brands_witness :
  In Demo.aircon
     (@filter_products Demo.text Demo.catalog (Some "ac") (Some ["HISENSE"])).
Proof.
  apply (proj1 (filter_by_brands Demo.text Demo.catalog (Some "ac")
                  ["HISENSE"] Demo.aircon)).
  - discriminate.
  - split; [vm_compute; left; reflexivity | left; reflexivity].
Defined.

(** ** Search *)

Lemma prefix_refl (s : string) : String.prefix s s = true.
Proof. induction s as [|c s IH]; simpl; [reflexivity|].
  destruct (ascii_dec c c); [exact IH | congruence]. Qed.

Lemma contains_refl (s : string) : PyStr.contains s s = true.
Proof.
  destruct s as [|c s]; [reflexivity|].
  cbn [PyStr.contains]. now rewrite prefix_refl.
Qed.

(** X10.  Every catalog product is found by searching for its own name,
    and the results of any search are catalog products in catalog order
    that contain the lower-cased query in their lower-cased name, specs
    text or features text. *)
Theorem search_finds_by_name :
  forall (rt : PyRuntime) (db : ProductDatabase) (query : string)
         (p : Product.t),
    (In p (products db) -> In p (search_products db (Product.name p)))
    /\ (In p (search_products db query) ->
        In p (products db)
        /\ (PyStr.contains (PyStr.lower query)
              (PyStr.lower (Product.name p)) = true
            \/ PyStr.contains (PyStr.lower query) (specs_text_of p) = true
            \/ PyStr.contains (PyStr.lower query) (features_text_of p)
               = true))
    /\ exists keep, search_products db query = filter keep (products db).
Proof.
  intros rt db query p. rewrite !search_products_filter. repeat split.
  - intros Hin. apply filter_In. split; [exact Hin|].
    unfold search_hit. now rewrite contains_refl.
  - apply filter_In in H. tauto.
  - apply filter_In in H as [_ H]. unfold search_hit in H.
    unfold specs_text_of, features_text_of.
    destruct (PyStr.contains _ (PyStr.lower (Product.name p)));
      [now left|].
    destruct (PyStr.contains _ (PyStr.lower (json_dumps _)));
      [now right; left|].
    destruct (PyStr.contains _ (PyStr.lower (PyStr.join _ _)));
      [now right; right | discriminate H].
  - eexists. reflexivity.
Qed.

(** The lookup of database X5 on the example catalog. *)
Lemma get_product_by_id_round_trip_witness :
  get_product_by_id Demo.catalog (JStr (Product.id Demo.washer))
  = Some Demo.washer.
Proof.
  apply (proj1 (get_product_by_id_round_trip Demo.catalog)).
  - repeat constructor; simpl; intuition discriminate.
  - right. left. reflexivity.
Defined.

Lemma search_finds_by_name_witness :
  In Demo.fridge
     (@search_products Demo.runtime Demo.catalog
        "Hisense 500L Side-by-Side Refrigerator").
Proof.
  apply (proj1 (search_finds_by_name Demo.runtime Demo.catalog EmptyString
                  Demo.fridge)).
  right. right. left. reflexivity.
Defined.

(** ** Detecting the category *)

Lemma str_in_dict (k : string) (d : pydict) :
  exists b, str_in k (JDict d) = Ok b.
Proof. eexists. reflexivity. Qed.

(** X11.  For a name that is a string and specifications that are a
    dictionary, category detection never raises; a name that is no string
    raises AttributeError. *)
Theorem detect_category_returns :
  forall (rt : PyRuntime) (product_name : json) (d : pydict),
    (forall name, product_name = JStr name ->
       exists c, detect_category product_name (JDict d) = Ok c)
    /\ ((forall name, product_name <> JStr name) ->
        detect_category product_name (JDict d) = Raise AttributeError).
Proof.
  intros rt product_name d. split.
  - intros name ->. unfold detect_category, str_in, or_else. cbv zeta.
    repeat match goal with
           | |- exists c, Ok _ = Ok c => eexists; reflexivity
           | |- exists c, (if ?b then _ else _) = Ok c => destruct b
           | |- exists c, rbind (Ok _) _ = Ok c => cbn [rbind]
           | |- exists c, rbind (if ?b then _ else _) _ = Ok c => destruct b
           | |- exists c, rbind (match ?o with _ => _ end) _ = Ok c =>
               destruct o
           end.
  - intros Hname. destruct product_name; try reflexivity.
    now destruct (Hname s).
Qed.

Ltac trace_category H :=
  repeat match type of H with
         | (if ?b then _ else _) = _ => destruct b eqn:?
         | rbind ?r _ = _ => destruct r eqn:?; cbn [rbind] in H
         | Raise _ = Ok _ => discriminate H
         end.

(** X12.  Category detection checks the projector words first: a name
    with "projector" or "laser cinema" is a projector whatever else the
    name says and whatever the specifications are.  It answers DRYER only
    for a name with "dryer" and without "washer", DISHWASHER only for a
    name with "dishwasher", and WASHING_MACHINE only for a name with one
    of the washing-machine words. *)
Theorem detect_category_priorities :
  forall (rt : PyRuntime) (name : string) (specs : json),
    let name_lower := PyStr.lower name in
    (any_in ["projector"; "laser cinema"] name_lower = true ->
     detect_category (JStr name) specs = Ok PROJECTOR)
    /\ (detect_category (JStr name) specs = Ok DRYER ->
        PyStr.contains "dryer" name_lower = true
        /\ PyStr.contains "washer" name_lower = false)
    /\ (detect_category (JStr name) specs = Ok DISHWASHER ->
        PyStr.contains "dishwasher" name_lower = true)
    /\ (detect_category (JStr name) specs = Ok WASHING_MACHINE ->
        any_in ["washing machine"; "washer"; "front load"; "top load"]
               name_lower = true).
Proof.
  intros rt name specs name_lower. subst name_lower.
  repeat split.
  - intros H. unfold detect_category. cbv zeta. now rewrite H.
  - unfold detect_category in H. cbv zeta in H. trace_category H;
      try discriminate H.
    match goal with
    | E : (_ && negb _)%bool = true |- _ =>
        apply andb_true_iff in E; tauto
    end.
  - unfold detect_category in H. cbv zeta in H. trace_category H;
      try discriminate H.
    match goal with
    | E : (_ && negb ?b)%bool = true |- _ =>
        apply andb_true_iff in E; destruct E as [_ E];
        now apply negb_true_iff in E
    end.
  - intros H. unfold detect_category in H. cbv zeta in H.
    trace_category H; try discriminate H;
      first [assumption | reflexivity].
  - intros H. unfold detect_category in H. cbv zeta in H.
    trace_category H; try discriminate H;
      first [assumption | reflexivity].
Qed.

(** ** Extracting the sizes *)

Lemma extend_with_dict (d : pydict) (sizes : list json) (key : string) :
  exists more, extend_with (JDict d) sizes key = Ok (sizes ++ more)%list.
Proof.
  unfold extend_with, str_in, value_getitem, dict_getitem. cbn [rbind].
  destruct (dict_get d key) as [v|]; cbn [rbind of_option].
  - destruct v; try (exists []; now rewrite app_nil_r).
    eexists. reflexivity.
  - exists []. now rewrite app_nil_r.
Qed.

Lemma rfold_extend_dict (d : pydict) (keys : list string)
    (sizes : list json) :
  exists sizes', rfold (extend_with (JDict d)) keys sizes = Ok sizes'.
Proof.
  revert sizes; induction keys as [|key keys IH]; intros sizes; simpl.
  - eexists. reflexivity.
  - destruct (extend_with_dict d sizes key) as [more ->]. simpl.
    apply IH.
Qed.

(** X13.  For specifications that are a dictionary, size extraction never
    raises, and the sizes hold the capacity that the patterns find in the
    name, as the digits found followed by "L" or by "kg" (the patterns and
    the digits are those the scoring engine reads the capacity from), and
    the projection size when the specifications give one. *)
Theorem extract_sizes_of_name :
  forall (u : Unicode) (d : pydict) (product_name : string),
    exists sizes,
      extract_sizes (JDict d) product_name = Ok sizes
      /\ (forall digits,
            PyStr.search_number_unit PyStr.L product_name = Some digits ->
            In (JStr (digits ++ "L")) sizes)
      /\ (forall digits,
            PyStr.search_number_unit PyStr.kg product_name = Some digits ->
            In (JStr (digits ++ "kg")) sizes)
      /\ (forall v, dict_get d "projection_size" = Some v -> In v sizes).
Proof.
  intros u d product_name. unfold extract_sizes.
  destruct (rfold_extend_dict d
              ["display_sizes"; "available_sizes"; "screen_sizes"; "sizes"]
              []) as [sizes0 ->].
  cbn [rbind]. cbv zeta.
  set (sizes1 := match PyStr.search_number_unit PyStr.L product_name with
                 | Some digits => _ | None => sizes0 end).
  set (sizes2 := match PyStr.search_number_unit PyStr.kg product_name with
                 | Some digits => _ | None => sizes1 end).
  assert (Hl : forall digits,
             PyStr.search_number_unit PyStr.L product_name = Some digits ->
             In (JStr (digits ++ "L")) sizes2).
  { intros digits H. subst sizes2 sizes1. rewrite H.
    destruct (PyStr.search_number_unit PyStr.kg product_name).
    - apply in_or_app; left. apply in_or_app; right. now left.
    - apply in_or_app; right. now left. }
  assert (Hkg : forall digits,
             PyStr.search_number_unit PyStr.kg product_name = Some digits ->
             In (JStr (digits ++ "kg")) sizes2).
  { intros digits H. subst sizes2. rewrite H.
    apply in_or_app; right; now left. }
  unfold str_in, value_getitem, dict_getitem. cbn [rbind].
  destruct (dict_get d "projection_size") as [v|]; cbn [rbind of_option].
  - exists (sizes2 ++ [v])%list. repeat split.
    + intros; apply in_or_app; left; auto.
    + intros; apply in_or_app; left; auto.
    + intros v' [= <-]. apply in_or_app; right; now left.
  - exists sizes2. repeat split; auto. intros v' [=].
Qed.

(** The sizes of a refrigerator named with a no-break space before the
    unit, and of a washer named in kg. *)
Example extract_sizes_ex :
  @extract_sizes Demo.text (JDict [])
     ("Fridge 500" ++ PyStr.utf8 160 ++ "L") = Ok [JStr "500L"]
  /\ @extract_sizes Demo.text (JDict [("sizes", JList [JStr "8 kg"])])
       "Hisense 8kg Front Load Washer" = Ok [JStr "8 kg"; JStr "8kg"].
Proof. split; vm_compute; reflexivity. Qed.

(** A laser television is a projector although its name says "tv". *)
Lemma detect_category_priorities_witness :
  @detect_category Demo.runtime (JStr "Hisense 100L9 Laser Cinema TV") JNull
  = Ok PROJECTOR.
Proof.
  apply (proj1 (detect_category_priorities Demo.runtime
                  "Hisense 100L9 Laser Cinema TV" JNull)).
  reflexivity.
Defined.

(** ** Cleaning the reply *)

Lemma lstrip_idem (cs : list string) :
  PyStr.lstrip (PyStr.lstrip cs) = PyStr.lstrip cs.
Proof.
  induction cs as [|c cs IH]; simpl; [reflexivity|].
  destruct (PyStr.isspace c) eqn:Hc; [exact IH|]. simpl. now rewrite Hc.
Qed.

Lemma rstrip_idem (cs : list string) :
  PyStr.rstrip (PyStr.rstrip cs) = PyStr.rstrip cs.
Proof.
  induction cs as [|c cs IH]; simpl; [reflexivity|].
  destruct (PyStr.rstrip cs) as [|c' r] eqn:Hr.
  - destruct (PyStr.isspace c) eqn:Hc; simpl; [reflexivity|].
    now rewrite Hc.
  - cbn [PyStr.rstrip]. cbn [PyStr.rstrip] in IH. now rewrite IH.
Qed.

(** A text that does not start with a blank keeps its first character
    when blanks are stripped from its end. *)
Lemma lstrip_rstrip (cs : list string) :
  PyStr.lstrip cs = cs -> PyStr.lstrip (PyStr.rstrip cs) = PyStr.rstrip cs.
Proof.
  destruct cs as [|c cs]; [reflexivity|]. simpl.
  destruct (PyStr.isspace c) eqn:Hc.
  - intros H. exfalso.
    assert (Hlen : forall t, (List.length (PyStr.lstrip t)
                              <= List.length t)%nat).
    { induction t as [|a t IHt]; simpl; [lia|].
      destruct (PyStr.isspace a); simpl; lia. }
    specialize (Hlen cs). rewrite H in Hlen. simpl in Hlen. lia.
  - intros _. destruct (PyStr.rstrip cs); simpl; now rewrite Hc.
Qed.

Lemma rstrip_snoc (cs : list string) (c : string) :
  PyStr.isspace c = false -> PyStr.rstrip (cs ++ [c]) = cs ++ [c].
Proof.
  intros Hc. induction cs as [|a cs IH]; simpl.
  - now rewrite Hc.
  - rewrite IH. destruct (cs ++ [c]) eqn:E; [|reflexivity].
    destruct cs; discriminate E.
Qed.

Lemma append_assoc (a b c : string) :
  ((a ++ b) ++ c)%string = (a ++ (b ++ c))%string.
Proof. induction a as [|x a IH]; simpl; [reflexivity | now rewrite IH]. Qed.

(** Cutting a text into characters and putting them together again gives
    the text back. *)
Lemma of_chars_chars (s : string) : PyStr.of_chars (PyStr.chars s) = s.
Proof.
  induction s as [|c s IH]; [reflexivity|]. cbn [PyStr.chars].
  destruct (PyStr.chars s) as [|ch rest].
  - simpl in IH. now subst s.
  - destruct (PyStr.continues ch); simpl in *; now rewrite IH.
Qed.

(** The first character of a text starts with the first byte of the
    text. *)
Lemma chars_head (s : string) :
  match PyStr.chars s with
  | ch :: _ => PyStr.continues ch = PyStr.continues s
  | [] => s = EmptyString
  end.
Proof.
  destruct s as [|c s]; [reflexivity|]. cbn [PyStr.chars].
  destruct (PyStr.chars s) as [|ch rest]; [reflexivity|].
  destruct (PyStr.continues ch); reflexivity.
Qed.

(** The first byte of a text starts its first character. *)
Lemma chars_first (c : ascii) (s : string) :
  exists t rest, PyStr.chars (String c s) = String c t :: rest.
Proof.
  cbn [PyStr.chars]. destruct (PyStr.chars s) as [|ch rest].
  - now exists EmptyString, [].
  - destruct (PyStr.continues ch); eexists; eexists; reflexivity.
Qed.

(** A byte before a text that starts a character of its own is a
    character of its own. *)
Lemma chars_cons (c : ascii) (s : string) :
  PyStr.continues s = false ->
  PyStr.chars (String c s) = String c EmptyString :: PyStr.chars s.
Proof.
  intros Hs. cbn [PyStr.chars]. pose proof (chars_head s) as Hhead.
  destruct (PyStr.chars s) as [|ch rest]; [reflexivity|].
  now rewrite Hhead, Hs.
Qed.

Lemma chars_app (s t : string) :
  PyStr.continues t = false ->
  PyStr.chars (s ++ t) = PyStr.chars s ++ PyStr.chars t.
Proof.
  intros Ht. induction s as [|c s IH]; [reflexivity|].
  cbn [append PyStr.chars]. rewrite IH.
  pose proof (chars_head s) as Hs. pose proof (chars_head t) as Hhead.
  destruct (PyStr.chars s) as [|ch rest].
  - subst s. simpl. destruct (PyStr.chars t) as [|ch' rest']; [reflexivity|].
    now rewrite Hhead, Ht.
  - simpl. destruct (PyStr.continues ch); reflexivity.
Qed.

Lemma chars_chunked (s : string) : chunked (PyStr.chars s).
Proof.
  induction s as [|c s [Hone Htl]]; [split; constructor|].
  cbn [PyStr.chars]. destruct (PyStr.chars s) as [|ch rest].
  - split; repeat constructor.
  - destruct (PyStr.continues ch) eqn:Hch.
    + inversion Hone as [|? ? Hch1 Hrest]; subst. split.
      * constructor; [|exact Hrest].
        destruct ch as [|a t]; [discriminate Hch|].
        simpl in *. now rewrite Hch, Hch1.
      * exact Htl.
    + split.
      * constructor; [reflexivity | exact Hone].
      * constructor; [exact Hch | exact Htl].
Qed.

(** A character followed by a text that starts a character of its own is
    cut off as it is. *)
Lemma chars_one_char (c : ascii) (t r : string) :
  all_chars PyStr.is_continuation t = true ->
  PyStr.continues r = false ->
  PyStr.chars (String c (t ++ r)) = String c t :: PyStr.chars r.
Proof.
  revert c. induction t as [|a t IH]; intros c Ht Hr.
  - now apply chars_cons.
  - simpl in Ht. apply andb_true_iff in Ht as [Ha Ht].
    cbn [append PyStr.chars]. change (PyStr.chars (String a (t ++ r)))
      with (PyStr.chars (String a (t ++ r))).
    specialize (IH a Ht Hr). cbn [PyStr.chars] in IH. rewrite IH.
    simpl. now rewrite Ha.
Qed.

(** Putting characters together and cutting the text again gives the
    characters back. *)
Lemma chars_of_chars (cs : list string) :
  chunked cs -> PyStr.chars (PyStr.of_chars cs) = cs.
Proof.
  induction cs as [|ch cs IH]; intros [Hone Htl]; [reflexivity|].
  inversion Hone as [|? ? Hch Hrest]; subst. simpl in Htl.
  destruct ch as [|c t]; [discriminate Hch|]. simpl in Hch.
  assert (Hcs : chunked cs).
  { split; [exact Hrest|]. destruct cs; [constructor|].
    inversion Htl; subst. assumption. }
  cbn [PyStr.of_chars fold_right append].
  change (fold_right append EmptyString cs) with (PyStr.of_chars cs).
  rewrite chars_one_char, (IH Hcs); [reflexivity | exact Hch |].
  pose proof (chars_head (PyStr.of_chars cs)) as Hhead.
  rewrite (IH Hcs) in Hhead. destruct cs as [|ch' cs'].
  - reflexivity.
  - inversion Htl; subst. congruence.
Qed.

Lemma chunked_tail (c : string) (cs : list string) :
  chunked (c :: cs) -> chunked cs.
Proof.
  intros [Hone Htl]. inversion Hone; subst. split; [assumption|].
  simpl in Htl. destruct cs; [constructor|]. now inversion Htl.
Qed.

Lemma chunked_lstrip (cs : list string) :
  chunked cs -> chunked (PyStr.lstrip cs).
Proof.
  induction cs as [|c cs IH]; intros H; [exact H|]. simpl.
  destruct (PyStr.isspace c); [|exact H].
  apply IH. now apply chunked_tail in H.
Qed.

Lemma chunked_rstrip (cs : list string) :
  chunked cs -> chunked (PyStr.rstrip cs).
Proof.
  induction cs as [|c cs IH]; intros H; [exact H|].
  pose proof (IH (chunked_tail _ _ H)) as [Hone' Htl'].
  destruct H as [Hone Htl]. inversion Hone as [|? ? Hc Hrest]; subst.
  simpl in Htl. simpl.
  assert (Hsub : forall x, In x (PyStr.rstrip cs) -> In x cs).
  { clear. induction cs as [|a cs IH]; simpl; [tauto|].
    intros x. destruct (PyStr.rstrip cs) as [|r rs].
    - destruct (PyStr.isspace a); simpl; tauto.
    - intros [->|Hx]; [now left | right; now apply IH]. }
  destruct (PyStr.rstrip cs) as [|r rs] eqn:Hr.
  - destruct (PyStr.isspace c); split; repeat constructor; exact Hc.
  - split; [constructor; assumption|]. simpl.
    apply Forall_forall. intros x Hx.
    rewrite Forall_forall in Htl. apply Htl, Hsub, Hx.
Qed.

Lemma strip_idem (s : string) : PyStr.strip (PyStr.strip s) = PyStr.strip s.
Proof.
  unfold PyStr.strip.
  rewrite chars_of_chars
    by apply chunked_rstrip, chunked_lstrip, chars_chunked.
  rewrite (lstrip_rstrip (PyStr.lstrip (PyStr.chars s)) (lstrip_idem _)).
  now rewrite rstrip_idem.
Qed.

(** X14.  Cleaning a reply never raises: the piece after a leading fence
    always exists.  The result carries no blanks at either end, and a
    reply that does not start with a fence is only stripped. *)
Theorem clean_content_never_raises :
  forall (content : string),
    exists cleaned,
      clean_content content = Ok cleaned
      /\ PyStr.strip cleaned = cleaned
      /\ (PyStr.startswith (PyStr.strip content) fence = false ->
          cleaned = PyStr.strip content).
Proof.
  intros content. unfold clean_content.
  destruct (PyStr.startswith (PyStr.strip content) fence) eqn:Hfence.
  - unfold PyStr.startswith in Hfence.
    destruct (PyStr.strip content) as [|c s]; [discriminate Hfence|].
    unfold PyStr.split_on. cbn [PyStr.split_on_aux]. rewrite Hfence.
    destruct (PyStr.split_on_aux fence _ s) as [w ws].
    eexists. split; [reflexivity|]. split; [apply strip_idem|].
    discriminate.
  - eexists. split; [reflexivity|]. split; [apply strip_idem|].
    intros _. apply strip_idem.
Qed.

Lemma prefix_fence_false (c : ascii) (s : string) :
  Ascii.eqb c backtick = false -> String.prefix fence (String c s) = false.
Proof.
  intros H. unfold fence. simpl.
  match goal with
  | |- (if ?d then _ else _) = false => destruct d as [E|]; [|reflexivity]
  end.
  subst c. vm_compute in H. discriminate H.
Qed.

Lemma split_first_piece (t rest : string) :
  no_backtick t = true ->
  exists ws,
    PyStr.split_on_aux fence 0 (t ++ fence ++ rest) = (t, ws).
Proof.
  intros Ht. induction t as [|c t IH].
  - simpl. destruct (PyStr.split_on_aux fence 0 rest) as [w ws] eqn:E.
    destruct rest; simpl in *; eexists; reflexivity || (rewrite E; reflexivity).
  - unfold no_backtick in Ht. simpl in Ht.
    apply andb_true_iff in Ht as [Hc Ht]. destruct (IH Ht) as [ws Hws].
    cbn [append PyStr.split_on_aux]. 
    replace (String.prefix fence (String c (t ++ fence ++ rest))) with false.
    + rewrite Hws. eexists. reflexivity.
    + symmetry. apply prefix_fence_false. now apply negb_true_iff.
Qed.

(** A text between two backticks has no blank to strip. *)
Lemma strip_fenced (s : string) :
  PyStr.strip (String backtick (s ++ String backtick EmptyString))
  = String backtick (s ++ String backtick EmptyString).
Proof.
  unfold PyStr.strip.
  assert (Hl : PyStr.lstrip
                 (PyStr.chars
                    (String backtick (s ++ String backtick EmptyString)))
               = PyStr.chars
                   (String backtick (s ++ String backtick EmptyString))).
  { destruct (chars_first backtick (s ++ String backtick EmptyString))
      as [t [rest ->]].
    cbn [PyStr.lstrip].
    replace (PyStr.isspace (String backtick t)) with false; [reflexivity|].
    symmetry. unfold PyStr.isspace. apply not_true_is_false. intros Hsp.
    apply existsb_exists in Hsp as [w [Hw Heq]].
    apply String.eqb_eq in Heq. subst w. vm_compute in Hw.
    repeat (destruct Hw as [Hw|Hw]; [discriminate Hw|]). contradiction. }
  rewrite Hl.
  assert (E : PyStr.chars (String backtick (s ++ String backtick EmptyString))
              = PyStr.chars (String backtick s) ++ [String backtick EmptyString]).
  { apply (chars_app (String backtick s) (String backtick EmptyString)).
    reflexivity. }
  rewrite E, rstrip_snoc by reflexivity.
  rewrite <- E. apply of_chars_chars.
Qed.

(** X15.  A reply wrapped in a code fence is unwrapped: for a text [t]
    without backticks between an opening and a closing fence the result is
    [t] without a leading "json" tag, stripped. *)
Theorem clean_content_unwraps_fence :
  forall (t : string),
    no_backtick t = true ->
    clean_content (fence ++ t ++ fence)
    = Ok (PyStr.strip (if PyStr.startswith t "json" then PyStr.drop 4 t
                       else t)).
Proof.
  intros t Ht. unfold clean_content.
  assert (Hstrip : PyStr.strip (fence ++ t ++ fence)
                   = (fence ++ t ++ fence)%string).
  { replace (fence ++ t ++ fence)%string
      with (String backtick
              (("``" ++ t ++ "``") ++ String backtick EmptyString))%string
      by (unfold fence; simpl; rewrite !append_assoc; reflexivity).
    apply strip_fenced. }
  rewrite Hstrip.
  assert (Hstart : String.prefix fence (fence ++ t ++ fence) = true).
  { unfold fence. simpl. apply prefix_empty. }
  unfold PyStr.startswith at 1. rewrite Hstart.
  destruct (split_first_piece t EmptyString Ht) as [ws Hws].
  change (fence ++ EmptyString)%string with fence in Hws.
  assert (Hsplit : PyStr.split_on fence (fence ++ t ++ fence)
                   = EmptyString :: t :: ws).
  { unfold PyStr.split_on.
    change (fence ++ t ++ fence)%string
      with (String backtick (String backtick (String backtick (t ++ fence))))
      in *.
    cbn [PyStr.split_on_aux]. rewrite Hstart.
    change (String.length fence - 1)%nat with 2%nat.
    cbn [PyStr.split_on_aux]. now rewrite Hws. }
  rewrite Hsplit. reflexivity.
Qed.

Lemma clean_content_unwraps_fence_witness :
  clean_content (fence ++ "json {compact} " ++ fence) = Ok "{compact}".
Proof.
  exact (clean_content_unwraps_fence "json {compact} " eq_refl).
Defined.

(** ** The intent parser *)

(** X16.  The intent parser never fails outward and calls the service
    exactly once: its result is the validated intent when the reply is
    cleaned, decoded and validated without error, and the all-absent
    intent in every other case. *)
Theorem parse_query_fails_open :
  forall (rt : PyRuntime) (svc : ChatService) (query : string)
         (log : list request),
    parse_query query log
    = (Ok match
            (content <~ create log (ParseRequest query) ;;
             cleaned <~ clean_content content ;;
             data <~ of_option JSONDecodeError (json_loads cleaned) ;;
             make_ParsedQuery data)%py
          with
          | Ok parsed => parsed
          | Raise _ => ParsedQuery.empty
          end,
       log ++ [ParseRequest query]).
Proof.
  intros. unfold parse_query, try_except, bind, call, lift, ret,
    get_query_parsing_prompt.
  destruct (create log (ParseRequest query)) as [content|e]; simpl;
    [|destruct e; reflexivity].
  destruct (clean_content content) as [cleaned|e]; simpl;
    [|destruct e; reflexivity].
  destruct (json_loads cleaned) as [data|]; simpl; [|reflexivity].
  destruct (make_ParsedQuery data) as [parsed|e]; [|destruct e];
    reflexivity.
Qed.

(** ** More on the scoring engine *)

(** X17.  Scoring ignores the letter case of the raw query, and each
    product is scored on its own: the scores of a list are the scores of
    its parts, one per product and in the order of the products. *)
Theorem score_products_compose :
  forall (rt : PyRuntime) (products more : list Product.t)
         (parsed : ParsedQuery.t) (query : string),
    _score_products products parsed (PyStr.lower query)
    = _score_products products parsed query
    /\ _score_products (products ++ more) parsed query
       = (_score_products products parsed query
          ++ _score_products more parsed query)%list
    /\ map ScoredProduct.product (_score_products products parsed query)
       = products.
Proof.
  intros. repeat split.
  - unfold _score_products. now rewrite lower_idem.
  - rewrite !score_products_map. apply map_app.
  - apply scored_in_catalog_order.
Qed.

(** X18.  The use-case bonus is bounded by category: at most 90 for a
    television, 15 for a refrigerator, 25 for a washing machine, 20 for an
    air conditioner, 25 for a soundbar and for a projector, and always 0
    for a dryer and for a dishwasher. *)
Theorem use_case_score_bounds :
  forall (rt : PyRuntime) (product : Product.t) (parsed : ParsedQuery.t),
    0 <= _use_case_score product parsed
      <= match Product.category product with
         | TV => 90
         | REFRIGERATOR => 15
         | WASHING_MACHINE => 25
         | AC => 20
         | SOUNDBAR => 25
         | PROJECTOR => 25
         | DRYER | DISHWASHER => 0
         end.
Proof.
  intros. unfold _use_case_score. cbv zeta.
  destruct (Product.category product); rewrite ?add_if_indicator;
    split_cases; rewrite ?add_if_indicator; bound_indicators; lia.
Qed.

(** ** The pipeline *)

Lemma rmap_ok {A B} (f : A -> result B) (l : list A) (l' : list B) :
  rmap f l = Ok l' -> Forall2 (fun x y => f x = Ok y) l l'.
Proof.
  revert l'; induction l as [|x l IH]; intros l' H; simpl in H.
  - injection H as <-. constructor.
  - destruct (f x) as [y|] eqn:Hy; simpl in H; [|discriminate H].
    destruct (rmap f l) as [ys|]; simpl in H; [|discriminate H].
    injection H as <-. constructor; [exact Hy | now apply IH].
Qed.

Lemma Forall2_in_right {A B} (R : A -> B -> Prop) (l : list A)
    (l' : list B) (y : B) :
  Forall2 R l l' -> In y l' -> exists x, In x l /\ R x y.
Proof.
  induction 1 as [|x y' l l' Hxy Hrest IH]; intros Hin; [destruct Hin|].
  destruct Hin as [->|Hin].
  - exists x. split; [now left | exact Hxy].
  - destruct (IH Hin) as [x' [Hx' HR]]. exists x'. split; [now right|].
    exact HR.
Qed.

Lemma first_three_length (v : json) (recs : list json) :
  first_three v = Ok recs -> (List.length recs <= 3)%nat.
Proof.
  intros H. unfold first_three in H.
  destruct v as [| | | |s|l|d]; try discriminate H; injection H as <-.
  - rewrite length_map.
    destruct (list_ascii_of_string s) as [|? [|? [|? ?]]]; simpl; lia.
  - destruct l as [|? [|? [|? ?]]]; simpl; lia.
Qed.

Lemma somes_length {A} (l : list (option A)) :
  (List.length (somes l) <= List.length l)%nat.
Proof. induction l as [|[a|] l IH]; simpl; lia. Qed.

Lemma somes_in {A} (l : list (option A)) (a : A) :
  In a (somes l) -> In (Some a) l.
Proof.
  induction l as [|[b|] l IH]; simpl; [tauto| |]; intros H.
  - destruct H as [->|H]; [now left | right; now apply IH].
  - right. now apply IH.
Qed.

Lemma recommendation_for_some {rt : PyRuntime} (db : ProductDatabase)
    (rec : json) (r : ProductRecommendation.t) :
  recommendation_for db rec = Ok (Some r) ->
  In (ProductRecommendation.product r) (products db)
  /\ score_in_range (ProductRecommendation.score r) = true.
Proof.
  unfold recommendation_for. intros H.
  destruct (value_getitem rec "product_id") as [pid|]; simpl in H;
    [|discriminate H].
  destruct (get_product_by_id db pid) as [product|] eqn:Hfind;
    [|discriminate H].
  apply find_some in Hfind as [Hin _].
  destruct (value_get rec "score" (JInt 70)) as [s|]; simpl in H;
    [|discriminate H].
  destruct (value_get rec "reasoning" (JStr EmptyString)) as [t|];
    simpl in H; [|discriminate H].
  unfold validate_score in H.
  destruct (coerce_float s) as [f|]; simpl in H; [|discriminate H].
  fold (score_in_range f) in H.
  destruct (score_in_range f) eqn:Hrange; simpl in H; [|discriminate H].
  destruct (validate_str t) as [reasoning|]; simpl in H; [|discriminate H].
  injection H as <-. simpl. split; assumption.
Qed.

Lemma build_response_ok {rt : PyRuntime} (db : ProductDatabase)
    (query : string) (parsed : ParsedQuery.t) (ai_result : json)
    (resp : RecommendationResponse.t) :
  build_response db query parsed ai_result = Ok resp ->
  RecommendationResponse.query resp = query
  /\ RecommendationResponse.parsed_query resp = parsed
  /\ (List.length (RecommendationResponse.recommendations resp) <= 3)%nat
  /\ Forall (fun r => In (ProductRecommendation.product r) (products db)
                      /\ score_in_range (ProductRecommendation.score r)
                         = true)
            (RecommendationResponse.recommendations resp).
Proof.
  unfold build_response. intros H.
  destruct (value_get ai_result "recommendations" _) as [v|]; simpl in H;
    [|discriminate H].
  destruct (first_three v) as [recs|] eqn:Hrecs; simpl in H;
    [|discriminate H].
  destruct (rmap (recommendation_for db) recs) as [rs|] eqn:Hrs;
    simpl in H; [|discriminate H].
  destruct (value_get ai_result "message" _) as [m|]; simpl in H;
    [|discriminate H].
  destruct (validate_str m) as [message|]; simpl in H; [|discriminate H].
  injection H as <-. simpl.
  apply rmap_ok in Hrs. apply first_three_length in Hrecs.
  repeat split.
  - pose proof (somes_length rs). pose proof (Forall2_length Hrs). lia.
  - apply Forall_forall. intros r Hr. apply somes_in in Hr.
    destruct (Forall2_in_right _ _ _ _ Hrs Hr) as [rec [_ Hrec]].
    now apply (recommendation_for_some db rec).
Qed.

(** X19.  Every response of the pipeline echoes the query, carries the
    intent the parser returned, and holds at most three recommendations,
    each for a product of the catalog and with a score between 0 and
    100. *)
Theorem response_invariants :
  forall (rt : PyRuntime) (svc : ChatService) (db : ProductDatabase)
         (query : string) (log log' : list request)
         (resp : RecommendationResponse.t),
    get_recommendations db query log = (Ok resp, log') ->
    RecommendationResponse.query resp = query
    /\ parse_query query log
       = (Ok (RecommendationResponse.parsed_query resp),
          log ++ [ParseRequest query])
    /\ (List.length (RecommendationResponse.recommendations resp) <= 3)%nat
    /\ Forall (fun r => In (ProductRecommendation.product r) (products db)
                        /\ score_in_range (ProductRecommendation.score r)
                           = true)
              (RecommendationResponse.recommendations resp).
Proof.
  intros rt svc db query log log' resp H.
  unfold get_recommendations, bind in H.
  destruct (parse_query_returns query log) as [parsed Hparse].
  rewrite Hparse in H. rewrite Hparse.
  destruct (generate_recommendations _ _ _ _) as [[ai_result|e] log2];
    [|discriminate H].
  unfold lift in H. injection H as H _.
  apply build_response_ok in H as [Hq [Hp [Hlen Hall]]].
  rewrite Hp. repeat split; assumption.
Qed.

Lemma response_invariants_witness :
  exists resp log',
    @get_recommendations Demo.runtime Demo.chatty Demo.catalog
      "a tv for gaming" [] = (Ok resp, log')
    /\ List.length (RecommendationResponse.recommendations resp) = 3%nat
    /\ Forall (fun r => In (ProductRecommendation.product r)
                           (products Demo.catalog)
                        /\ score_in_range (ProductRecommendation.score r)
                           = true)
              (RecommendationResponse.recommendations resp).
Proof.
  eexists. eexists. split; [vm_compute; reflexivity|].
  split; [reflexivity|].
  refine (proj2 (proj2 (proj2 (response_invariants Demo.runtime Demo.chatty
                                 Demo.catalog "a tv for gaming" [] _ _ _)))).
  vm_compute. reflexivity.
Defined.

Lemma generate_recommendations_log {rt : PyRuntime} {svc : ChatService}
    (query : string) (parsed : ParsedQuery.t) (ps : list Product.t)
    (log : list request) :
  snd (generate_recommendations query parsed (map product_for_ai ps) log)
  = (log ++ match ps with
            | [] => []
            | _ => [RecommendRequest query parsed
                      (firstn 10 (map product_for_ai ps))]
            end)%list.
Proof.
  destruct ps as [|p ps]; [simpl; now rewrite app_nil_r|].
  rewrite generate_recommendations_cons. cbv zeta.
  destruct (rbind _ _) as [reply|e]; [reflexivity|].
  destruct e; reflexivity.
Qed.

Lemma candidates_for_ai_map {rt : PyRuntime} (db : ProductDatabase)
    (parsed : ParsedQuery.t) (query : string) :
  candidates_for_ai db parsed query
  = map product_for_ai
        (map ScoredProduct.product
             (firstn 10 (ranked_products db parsed query))).
Proof. unfold candidates_for_ai. now rewrite map_map. Qed.

(** X20.  One request makes at most two calls to the service: the one
    that parses the query, and, when a product is left after filtering,
    one that asks for recommendations about at most ten candidates. *)
Theorem pipeline_calls :
  forall (rt : PyRuntime) (svc : ChatService) (db : ProductDatabase)
         (query : string) (log : list request),
    exists parsed,
      parse_query query log = (Ok parsed, log ++ [ParseRequest query])
      /\ (List.length (candidates_for_ai db parsed query) <= 10)%nat
      /\ snd (get_recommendations db query log)
         = (log ++ ParseRequest query
                :: match candidates_for_ai db parsed query with
                   | [] => []
                   | candidates =>
                       [RecommendRequest query parsed candidates]
                   end)%list.
Proof.
  intros. destruct (parse_query_returns query log) as [parsed Hparse].
  exists parsed. split; [exact Hparse|].
  assert (Hlen : (List.length (candidates_for_ai db parsed query) <= 10)%nat).
  { unfold candidates_for_ai. rewrite length_map, length_firstn. lia. }
  split; [exact Hlen|].
  unfold get_recommendations, bind. rewrite Hparse.
  fold (candidates_for_ai db parsed query).
  pose proof (generate_recommendations_log query parsed
                (map ScoredProduct.product
                     (firstn 10 (ranked_products db parsed query)))
                (log ++ [ParseRequest query])) as Hlog.
  rewrite <- candidates_for_ai_map in Hlog.
  rewrite (firstn_all2 (candidates_for_ai db parsed query) Hlen) in Hlog.
  assert (Hmatch :
            match map ScoredProduct.product
                      (firstn 10 (ranked_products db parsed query)) with
            | [] => []
            | _ :: _ =>
                [RecommendRequest query parsed
                   (candidates_for_ai db parsed query)]
            end
            = match candidates_for_ai db parsed query with
              | [] => []
              | candidates => [RecommendRequest query parsed candidates]
              end).
  { rewrite candidates_for_ai_map.
    destruct (map ScoredProduct.product _); reflexivity. }
  rewrite Hmatch in Hlog. clear Hmatch.
  destruct (generate_recommendations _ _ _ _) as [[ai_result|e] log2];
    cbn [snd] in Hlog; subst log2; unfold lift; cbn [snd];
    now rewrite <- app_assoc.
Qed.

(** X21.  An entry of the generator's result whose identifier does not
    resolve is skipped, its score and reasoning not even looked at; an
    entry without [product_id] raises KeyError and an entry that is no
    dictionary raises TypeError. *)
Theorem recommendation_for_edges :
  forall (rt : PyRuntime) (db : ProductDatabase) (rec : json),
    (forall r product_id,
       rec = JDict r ->
       dict_get r "product_id" = Some product_id ->
       get_product_by_id db product_id = None ->
       recommendation_for db rec = Ok None)
    /\ (forall r,
          rec = JDict r -> dict_get r "product_id" = None ->
          recommendation_for db rec = Raise (KeyError "product_id"))
    /\ ((forall r, rec <> JDict r) ->
        recommendation_for db rec = Raise TypeError).
Proof.
  intros rt db rec. repeat split.
  - intros r product_id -> Hid Hnone.
    unfold recommendation_for, value_getitem, dict_getitem.
    rewrite Hid. cbn [of_option rbind]. now rewrite Hnone.
  - intros r -> Hid.
    unfold recommendation_for, value_getitem, dict_getitem.
    now rewrite Hid.
  - intros Hrec. destruct rec; try reflexivity. now destruct (Hrec d).
Qed.

Lemma parse_query_malformed {rt : PyRuntime} {svc : ChatService}
    (query : string) (log : list request) (content cleaned : string) :
  create log (ParseRequest query) = Ok content ->
  clean_content content = Ok cleaned ->
  json_loads cleaned = None ->
  parse_query query log
  = (Ok ParsedQuery.empty, log ++ [ParseRequest query]).
Proof.
  intros Hcreate Hclean Hloads.
  unfold parse_query, try_except, bind, call, lift, ret,
    get_query_parsing_prompt.
  now rewrite Hcreate, Hclean, Hloads.
Qed.

Lemma fallback_entries_resolve {rt : PyRuntime} (db : ProductDatabase)
    (f70 : float) (l : list Product.t) :
  NoDup (map Product.id (products db)) ->
  coerce_float (JInt 70) = Some f70 ->
  score_in_range f70 = true ->
  (forall p, In p l -> In p (products db)) ->
  rmap (recommendation_for db) (map decode_entry_of l)
  = Ok (map (fun p => Some (fallback_recommendation f70 p)) l).
Proof.
  intros Hnd Hf Hrange. induction l as [|p l IH]; intros Hin;
    [reflexivity|].
  simpl map. cbn [rmap].
  rewrite IH by (intros q Hq; apply Hin; now right).
  assert (Hp : recommendation_for db (decode_entry_of p)
               = Ok (Some (fallback_recommendation f70 p))).
  { unfold recommendation_for, decode_entry_of. cbn [value_getitem].
    change (dict_getitem _ "product_id") with (Ok (JStr (Product.id p))).
    cbn [rbind]. unfold get_product_by_id.
    rewrite (find_by_id _ p Hnd (Hin p (or_introl eq_refl))).
    cbn [value_get rbind]. 
    change (dict_get_default _ "score" _) with (JInt 70).
    change (dict_get_default _ "reasoning" _)
      with (JStr (Product.name p ++ " - a solid choice in this category.")).
    unfold validate_score. rewrite Hf. cbn [of_option rbind].
    fold (score_in_range f70). rewrite Hrange. reflexivity. }
  rewrite Hp. reflexivity.
Qed.

Lemma somes_map_some {A B} (f : A -> B) (l : list A) :
  somes (map (fun x => Some (f x)) l) = map f l.
Proof. induction l as [|x l IH]; simpl; [reflexivity | now rewrite IH]. Qed.

Lemma in_firstn {A} (n : nat) (l : list A) (x : A) :
  In x (firstn n l) -> In x l.
Proof.
  revert l; induction n as [|n IH]; intros [|y l] H; simpl in H;
    try tauto.
  destruct H as [->|H]; [now left | right; now apply IH].
Qed.

Lemma ranked_in_catalog {rt : PyRuntime} (db : ProductDatabase)
    (query : string) (sp : ScoredProduct.t) :
  In sp (ranked_products db ParsedQuery.empty query) ->
  In (ScoredProduct.product sp) (products db).
Proof.
  intros H. unfold ranked_products in H. cbv zeta in H.
  apply (Permutation_in _ (Permutation_sym (list_sort_perm _ true _))) in H.
  apply (in_map ScoredProduct.product) in H.
  now rewrite scored_in_catalog_order in H.
Qed.

(** X22.  When every reply of the service is text that is not JSON, the
    catalog is not empty and its identifiers are distinct, the pipeline
    still answers: the intent is the all-absent one, and the
    recommendations are the three best-ranked products (fewer when the
    catalog is smaller), each with the score that 70 validates to and the
    fallback reasoning built from its name. *)
Theorem pipeline_malformed_replies :
  forall (rt : PyRuntime) (svc : ChatService) (db : ProductDatabase)
         (query : string) (log : list request) (f70 : float),
    products db <> [] ->
    NoDup (map Product.id (products db)) ->
    (forall log req, exists content cleaned,
        create log req = Ok content
        /\ clean_content content = Ok cleaned
        /\ json_loads cleaned = None) ->
    coerce_float (JInt 70) = Some f70 ->
    score_in_range f70 = true ->
    fst (get_recommendations db query log)
    = Ok {| RecommendationResponse.query := query;
            RecommendationResponse.parsed_query := ParsedQuery.empty;
            RecommendationResponse.recommendations :=
              map (fun sp => fallback_recommendation f70
                               (ScoredProduct.product sp))
                  (firstn 3 (ranked_products db ParsedQuery.empty query));
            RecommendationResponse.message :=
              "Here are some products that match your requirements:" |}.
Proof.
  intros rt svc db query log f70 Hdb Hnd Hbad Hf Hrange.
  unfold get_recommendations, bind.
  destruct (Hbad log (ParseRequest query))
    as [content [cleaned [Hcreate [Hclean Hloads]]]].
  rewrite (parse_query_malformed query log content cleaned
             Hcreate Hclean Hloads).
  set (ranked := ranked_products db ParsedQuery.empty query).
  assert (Hranked : ranked <> []).
  { intros Hnil. apply Hdb.
    assert (Hlen : List.length ranked = List.length (products db)).
    { subst ranked. unfold ranked_products. cbv zeta.
      rewrite <- (Permutation_length (list_sort_perm _ true _)).
      rewrite score_products_map, length_map. reflexivity. }
    rewrite Hnil in Hlen. destruct (products db);
      [reflexivity | discriminate Hlen]. }
  rewrite <- (map_map ScoredProduct.product product_for_ai).
  remember (map ScoredProduct.product (firstn 10 ranked)) as top eqn:Htop.
  destruct top as [|p ps].
  { destruct ranked; [congruence | discriminate Htop]. }
  rewrite generate_recommendations_cons. cbv zeta.
  destruct (Hbad (log ++ [ParseRequest query])
              (RecommendRequest query ParsedQuery.empty
                 (firstn 10 (map product_for_ai (p :: ps)))))
    as [content2 [cleaned2 [Hcreate2 [Hclean2 Hloads2]]]].
  rewrite Hcreate2. cbn [rbind]. rewrite Hclean2. cbn [rbind].
  rewrite Hloads2. cbn [of_option fst lift].
  unfold build_response. cbn [value_get rbind].
  change (dict_get_default _ "recommendations" _)
    with (JList (map decode_entry_of (firstn 5 (p :: ps)))).
  change (dict_get_default _ "message" _)
    with (JStr "Here are some products that match your requirements:").
  cbn [first_three rbind validate_str].
  rewrite firstn_map, firstn_firstn. change (Nat.min 3 5) with 3%nat.
  rewrite Htop, firstn_map, firstn_firstn. change (Nat.min 3 10) with 3%nat.
  rewrite (fallback_entries_resolve db f70 _ Hnd Hf Hrange).
  - cbn [rbind]. now rewrite somes_map_some, map_map.
  - intros q Hq. apply in_map_iff in Hq as [sp [<- Hsp]].
    apply (ranked_in_catalog db query). eapply in_firstn. exact Hsp.
Qed.

Lemma pipeline_malformed_replies_witness :
  map (fun r => Product.id (ProductRecommendation.product r))
      (match fst (@get_recommendations Demo.runtime Demo.chatty Demo.catalog
                    "inverter split unit" []) with
       | Ok resp => RecommendationResponse.recommendations resp
       | Raise _ => []
       end)
  = [Product.id Demo.aircon; Product.id Demo.tv; Product.id Demo.washer].
Proof.
  rewrite (pipeline_malformed_replies Demo.runtime Demo.chatty Demo.catalog
             "inverter split unit" [] 70%float).
  - vm_compute. reflexivity.
  - discriminate.
  - repeat constructor; simpl; intuition discriminate.
  - intros log req. eexists. eexists.
    split; [reflexivity|]. split; reflexivity.
  - reflexivity.
  - reflexivity.
Defined.

(** ** Listing categories and brands *)

Lemma leb_iff (a b : string) :
  String.leb a b = true <-> String_as_OT.lt a b \/ a = b.
Proof.
  unfold String.leb. split.
  - destruct (String.compare a b) eqn:E; intros H; try discriminate H.
    + right. now apply String.compare_eq_iff.
    + left. now apply String_as_OT.cmp_lt.
  - intros [H| ->].
    + apply String_as_OT.cmp_lt in H. unfold String_as_OT.cmp in H.
      now rewrite H.
    + assert (E : String.compare b b = Eq)
        by (now apply String_as_OT.cmp_eq).
      now rewrite E.
Qed.

Lemma ltb_iff (a b : string) :
  String.ltb a b = true <-> String_as_OT.lt a b.
Proof.
  unfold String.ltb. rewrite <- String_as_OT.cmp_lt.
  unfold String_as_OT.cmp.
  destruct (String.compare a b); split; congruence.
Qed.

Lemma leb_trans (a b c : string) :
  String.leb a b = true -> String.leb b c = true -> String.leb a c = true.
Proof.
  rewrite !leb_iff. intros [Hab| ->] [Hbc| ->]; auto.
  left. eapply String_as_OT.lt_trans; eassumption.
Qed.

Lemma insert_str_perm (x : string) (l : list string) :
  Permutation (x :: l) (insert_str x l).
Proof.
  induction l as [|y l IH]; simpl; [reflexivity|].
  destruct (String.leb x y); [reflexivity|].
  rewrite perm_swap. now apply perm_skip.
Qed.

Lemma sorted_strs_perm (l : list string) : Permutation l (sorted_strs l).
Proof.
  induction l as [|x l IH]; simpl; [constructor|].
  rewrite <- insert_str_perm. now apply perm_skip.
Qed.

Lemma insert_str_sorted (x : string) (l : list string) :
  StronglySorted (fun a b => String.leb a b = true) l ->
  StronglySorted (fun a b => String.leb a b = true) (insert_str x l).
Proof.
  induction 1 as [|y l Hl IH Hy]; simpl.
  - repeat constructor.
  - destruct (String.leb x y) eqn:Hxy.
    + constructor; [now constructor|].
      constructor; [exact Hxy|].
      eapply Forall_impl; [|exact Hy]. intros z Hz.
      now apply (leb_trans x y z).
    + constructor; [exact IH|].
      eapply Permutation_Forall; [apply insert_str_perm|].
      constructor; [|exact Hy].
      destruct (String.leb_total x y) as [H|H]; [congruence | exact H].
Qed.

Lemma sorted_strs_sorted (l : list string) :
  StronglySorted (fun a b => String.leb a b = true) (sorted_strs l).
Proof.
  induction l as [|x l IH]; simpl; [constructor|].
  now apply insert_str_sorted.
Qed.

Lemma strictly_sorted (l : list string) :
  NoDup l ->
  StronglySorted (fun a b => String.leb a b = true) l ->
  StronglySorted (fun a b => String.ltb a b = true) l.
Proof.
  intros Hnd Hs. induction Hs as [|x l Hl IH Hx]; [constructor|].
  inversion Hnd as [|y ys Hnotin Hnd']; subst.
  constructor; [now apply IH|].
  apply Forall_forall. intros z Hz.
  rewrite Forall_forall in Hx. specialize (Hx z Hz).
  apply ltb_iff. apply leb_iff in Hx as [Hlt| ->]; [exact Hlt|].
  contradiction.
Qed.

(** What [sorted(set(l))] is: the strings of [l], each once, in strictly
    ascending order. *)
Lemma sorted_set_spec (l : list string) :
  StronglySorted (fun a b => String.ltb a b = true) (sorted_set l)
  /\ forall x, In x (sorted_set l) <-> In x l.
Proof.
  unfold sorted_set. split.
  - apply strictly_sorted; [|apply sorted_strs_sorted].
    eapply Permutation_NoDup; [apply sorted_strs_perm|].
    apply NoDup_nodup.
  - intros x. rewrite <- (nodup_In string_dec l x). split; intros H.
    + eapply Permutation_in; [|exact H].
      apply Permutation_sym, sorted_strs_perm.
    + eapply Permutation_in; [|exact H]. apply sorted_strs_perm.
Qed.

(** X23.  The categories listed are the values of the categories that
    have a product, each once and in strictly ascending order; every one
    of them names a category whose product list is not empty. *)
Theorem get_categories_spec :
  forall (db : ProductDatabase),
    StronglySorted (fun a b => String.ltb a b = true) (get_categories db)
    /\ (forall c,
          In c (get_categories db)
          <-> exists p, In p (products db)
                        /\ category_value (Product.category p) = c)
    /\ (forall c,
          In c (get_categories db) ->
          exists cat, c = category_value cat
                      /\ get_products_by_category db cat <> []).
Proof.
  intros db. unfold get_categories. cbv zeta.
  destruct (sorted_set_spec
              (map (fun p => category_value (Product.category p))
                   (products db))) as [Hsorted Hin].
  assert (Hiff : forall c,
             In c (sorted_set
                     (map (fun p => category_value (Product.category p))
                          (products db)))
             <-> exists p, In p (products db)
                           /\ category_value (Product.category p) = c).
  { intros c. rewrite Hin, in_map_iff. split; intros [p [H1 H2]];
      exists p; tauto. }
  split; [exact Hsorted|]. split; [exact Hiff|].
  intros c Hc. apply Hiff in Hc as [p [Hp <-]].
  exists (Product.category p). split; [reflexivity|].
  unfold get_products_by_category. intros Hnil.
  assert (Hpin : In p (filter (fun q => category_eqb (Product.category q)
                                          (Product.category p))
                              (products db))).
  { apply filter_In. split; [exact Hp|]. now apply category_eqb_eq. }
  rewrite Hnil in Hpin. destruct Hpin.
Qed.

Lemma all_same_singleton (a : string) (l : list string) :
  NoDup l -> (forall x, In x l -> x = a) -> In a l -> l = [a].
Proof.
  intros Hnd Hall Hin. destruct l as [|x l]; [destruct Hin|].
  assert (x = a) by (apply Hall; now left). subst x.
  destruct l as [|y l]; [reflexivity|]. exfalso.
  assert (y = a) by (apply Hall; right; now left). subst y.
  inversion Hnd as [|z zs Hnotin _]; subst. apply Hnotin. now left.
Qed.

Lemma strictly_sorted_nodup (l : list string) :
  StronglySorted (fun a b => String.ltb a b = true) l -> NoDup l.
Proof.
  induction 1 as [|x l Hl IH Hx]; constructor; [|exact IH].
  intros Hin. rewrite Forall_forall in Hx. specialize (Hx x Hin).
  apply ltb_iff in Hx. apply String_as_OT.lt_not_eq in Hx.
  apply Hx. reflexivity.
Qed.

(** X24.  The brands listed are the brands of the products of the
    category asked for (of all products when the category is absent or
    not recognized), each once and in strictly ascending order. *)
Theorem get_brands_spec :
  forall (u : Unicode) (db : ProductDatabase) (category : option string),
    StronglySorted (fun a b => String.ltb a b = true)
                   (get_brands db category)
    /\ (forall b,
          In b (get_brands db category)
          <-> exists p, In p (filter_products db category None)
                        /\ Product.brand p = b).
Proof.
  intros u db category. split.
  - unfold get_brands. cbv zeta. apply sorted_set_spec.
  - intros b. unfold get_brands, filter_products. cbv zeta.
    simpl truthy_list. cbv iota.
    rewrite (proj2 (sorted_set_spec _) b), in_map_iff.
    split; intros [p [H1 H2]]; exists p; tauto.
Qed.

(** X25.  For a catalog that loads with at least one product, the brands
    listed without a category are exactly Hisense. *)
Theorem loaded_brands :
  forall (rt : PyRuntime) (pd : PydanticDict) (data : json)
         (db : ProductDatabase),
    _load_products data = Ok db ->
    products db <> [] ->
    get_brands db None = ["Hisense"].
Proof.
  intros rt pd data db Hload Hne. unfold get_brands. cbv zeta.
  simpl truthy_str. cbv iota.
  destruct (sorted_set_spec (map Product.brand (products db)))
    as [Hsorted Hin].
  assert (Hall : forall p, In p (products db)
                           -> Product.brand p = "Hisense").
  { intros p Hp. destruct (load_products_ok data db Hload) as [raws Hraws].
    destruct (In_nth_error _ _ Hp) as [k Hk].
    destruct (load_from_ok 0 raws _ Hraws) as [_ Hnth].
    destruct (Hnth k p Hk) as [raw [_ Hone]].
    now destruct (load_product_ok _ _ _ Hone) as [_ [_ [_ [_ [Hb _]]]]]. }
  apply all_same_singleton.
  - now apply strictly_sorted_nodup.
  - intros x Hx. apply Hin, in_map_iff in Hx as [p [<- Hp]].
    now apply Hall.
  - apply Hin. destruct (products db) as [|p l]; [congruence|].
    simpl. left. apply Hall. now left.
Qed.

Lemma loaded_brands_witness :
  @get_brands Demo.text Demo.loaded None = ["Hisense"].
Proof.
  apply (loaded_brands Demo.runtime Demo.strict_dict
           (JDict Demo.raw_catalog)).
  - vm_compute. reflexivity.
  - discriminate.
Defined.

Example get_categories_ex :
  get_categories Demo.catalog
  = ["ac"; "refrigerator"; "tv"; "washing_machine"].
Proof. vm_compute. reflexivity. Qed.

(** ** Edge cases of the response and of the loader *)

(** X26.  The final response tolerates missing keys and nothing else: a
    generator result without [recommendations] and [message] gives an
    empty list and the default message; a result that is no dictionary
    raises AttributeError; recommendations that are null, a number or a
    boolean raise TypeError; a message that is a string is taken as it
    is. *)
Theorem build_response_edges :
  forall (rt : PyRuntime) (db : ProductDatabase) (query : string)
         (parsed : ParsedQuery.t),
    build_response db query parsed (JDict [])
    = Ok {| RecommendationResponse.query := query;
            RecommendationResponse.parsed_query := parsed;
            RecommendationResponse.recommendations := [];
            RecommendationResponse.message :=
              "Here are your recommendations:" |}
    /\ (forall v, (forall d, v <> JDict d) ->
          build_response db query parsed v = Raise AttributeError)
    /\ (forall d v,
          dict_get d "recommendations" = Some v ->
          (forall l, v <> JList l) -> (forall s, v <> JStr s) ->
          (forall d', v <> JDict d') ->
          build_response db query parsed (JDict d) = Raise TypeError)
    /\ (forall d m,
          dict_get d "recommendations" = None ->
          dict_get d "message" = Some (JStr m) ->
          build_response db query parsed (JDict d)
          = Ok {| RecommendationResponse.query := query;
                  RecommendationResponse.parsed_query := parsed;
                  RecommendationResponse.recommendations := [];
                  RecommendationResponse.message := m |}).
Proof.
  intros rt db query parsed. repeat split.
  - intros v Hv. destruct v; try reflexivity. now destruct (Hv d).
  - intros d v Hget Hlist Hstr Hdict. unfold build_response.
    cbn [value_get rbind]. unfold dict_get_default at 1. rewrite Hget.
    destruct v as [| | | |s|l|d'']; try reflexivity;
      [now destruct (Hstr s) | now destruct (Hlist l)].
  - intros d m Hrecs Hmsg. unfold build_response. cbn [value_get rbind].
    unfold dict_get_default. rewrite Hrecs, Hmsg. reflexivity.
Qed.

Lemma load_from_not_dict {rt : PyRuntime} {pd : PydanticDict} (i : nat)
    (raws : list json) (raw : json) :
  In raw raws -> (forall r, raw <> JDict r) ->
  exists e, load_from i raws = Raise e.
Proof.
  revert i; induction raws as [|x raws IH]; intros i Hin Hraw;
    [destruct Hin|].
  simpl. destruct Hin as [->|Hin].
  - assert (H : load_product i raw = Raise AttributeError).
    { destruct raw; try reflexivity. now destruct (Hraw d). }
    rewrite H. eexists. reflexivity.
  - destruct (load_product i x); [|eexists; reflexivity]. simpl.
    destruct (IH (S i) Hin Hraw) as [e ->]. eexists. reflexivity.
Qed.

(** X27.  Loading is all or nothing: file contents without the products
    key load as the empty catalog, contents that are no dictionary raise
    AttributeError, and one record that is no dictionary makes the whole
    load fail, so that no partial catalog is ever returned. *)
Theorem load_products_edges :
  forall (rt : PyRuntime) (pd : PydanticDict),
    (forall d,
       dict_get d "hisenseme_products" = None ->
       _load_products (JDict d) = Ok {| products := [] |})
    /\ (forall data, (forall d, data <> JDict d) ->
          _load_products data = Raise AttributeError)
    /\ (forall d raws raw,
          dict_get d "hisenseme_products" = Some (JList raws) ->
          In raw raws -> (forall r, raw <> JDict r) ->
          exists e, _load_products (JDict d) = Raise e).
Proof.
  intros rt pd. repeat split.
  - intros d Hd. unfold _load_products, dict_get_default. now rewrite Hd.
  - intros data Hdata. destruct data; try reflexivity.
    now destruct (Hdata d).
  - intros d raws raw Hd Hin Hraw.
    unfold _load_products, dict_get_default. rewrite Hd. cbn [iterate rbind].
    destruct (load_from_not_dict 0 raws raw Hin Hraw) as [e ->].
    eexists. reflexivity.
Qed.

(** X28.  Category detection needs specifications it can search: when
    the name has none of the projector words and the specifications are
    null, a number or a boolean, detection raises TypeError. *)
Theorem detect_category_bad_specs :
  forall (rt : PyRuntime) (name : string) (specs : json),
    any_in ["projector"; "laser cinema"] (PyStr.lower name) = false ->
    (forall d, specs <> JDict d) -> (forall l, specs <> JList l) ->
    (forall s, specs <> JStr s) ->
    detect_category (JStr name) specs = Raise TypeError.
Proof.
  intros rt name specs Hname Hd Hl Hs. unfold detect_category. cbv zeta.
  rewrite Hname.
  destruct specs; try reflexivity;
    [now destruct (Hs s) | now destruct (Hl l) | now destruct (Hd d)].
Qed.

Lemma detect_category_bad_specs_witness :
  @detect_category Demo.runtime (JStr "Hisense 8kg Front Load Washer") JNull
  = Raise TypeError.
Proof.
  apply (detect_category_bad_specs Demo.runtime); try discriminate.
  reflexivity.
Defined.

(** Two names that differ in case and punctuation give the same
    identifier at the same index. *)
Lemma generate_id_index_unique_witness :
  @generate_id Demo.text "Hisense TV" 7
  = @generate_id Demo.text "HISENSE -- tv!" 7
  /\ 7%nat = 7%nat.
Proof.
  split; [reflexivity|].
  exact (generate_id_index_unique Demo.text "Hisense TV" "HISENSE -- tv!"
           7 7 eq_refl).
Defined.
